(** * ADLES: specification validator and vSphere provisioning interface

    A shallow embedding of the parts of ADLES that its specification talks
    about:

    - [adles/parser.py]: the syntax checker of exercise, package and
      infrastructure specifications (module [Adles]);
    - [automation/parser.py]: the older copy of the same checker
      (module [Automation]);
    - [adles/vsphere/folder_utils.py]: [find_in_folder] and [create_folder]
      (module [FolderUtils]);
    - [automation/interface.py] and [automation/vsphere_interface.py]: the
      generic interface and the master-creation phase (modules [Interface]
      and [VsphereInterface]).

    Python values are modelled as they come out of the YAML loader, Python
    exceptions as an error result, and the [logging] calls as a list of log
    records carrying the format string and its arguments. *)

From Stdlib Require Import List String Ascii ZArith Bool Arith Lia.
Import ListNotations.
Set Warnings "-register-all".
Local Open Scope string_scope.
Local Open Scope list_scope.

(** ** Documents *)

(** The value a YAML file is parsed to: scalars (null, bool, int, string),
    sequences and mappings.  A mapping is kept as the list of its items in
    insertion order, which is the order [dict.items()] iterates in; keys are
    strings, and distinct in a mapping that comes from a file ([lookup]
    reads the first item of a key).  Floats and timestamps are not part of
    the model. *)
Inductive yaml : Type :=
| YNull
| YBool (b : bool)
| YInt (z : Z)
| YStr (s : string)
| YList (l : list yaml)
| YDict (d : list (string * yaml)).

(** Python exceptions that the modelled code can raise. *)
Inductive exn : Type :=
| TypeError
| KeyError
| AttributeError
| ValueError
| AddrFormatError
| OSError
| DuplicateName (name : string)
| InvalidName (name : string)
| VimFault (msg : string).

Inductive level : Type := DEBUG | INFO | WARNING | ERROR.

(** One call of [logging.<level>(fmt, *args)]. *)
Record record : Type := Log { lvl : level; fmt : string; args : list yaml }.

Definition level_eqb (a b : level) : bool :=
  match a, b with
  | DEBUG, DEBUG | INFO, INFO | WARNING, WARNING | ERROR, ERROR => true
  | _, _ => false
  end.

(** Number of records of a given level in a log. *)
Definition count_level (l : level) (log : list record) : nat :=
  List.length (filter (fun r => level_eqb (lvl r) l) log).

(** ** Python operations on documents *)

Definition result (A : Type) : Type := (exn + A)%type.

(** First item with the given key. *)
Fixpoint lookup (k : string) (d : list (string * yaml)) : option yaml :=
  match d with
  | [] => None
  | (k', v) :: rest => if String.eqb k k' then Some v else lookup k rest
  end.

Definition has_key (k : string) (d : list (string * yaml)) : bool :=
  match lookup k d with Some _ => true | None => false end.

(** [needle in hay] on two strings. *)
Fixpoint contains (needle hay : string) : bool :=
  if String.prefix needle hay then true
  else match hay with
       | EmptyString => false
       | String _ rest => contains needle rest
       end.

(** [x == v] for a string [x]. *)
Definition str_eq (x : string) (v : yaml) : bool :=
  match v with
  | YStr s => String.eqb x s
  | _ => false
  end.

(** [x in v] for a string [x]: key test on a mapping, element test on a
    sequence, substring test on a string, [TypeError] on the other scalars. *)
Definition py_in (x : string) (v : yaml) : result bool :=
  match v with
  | YDict d => inr (has_key x d)
  | YList l => inr (existsb (str_eq x) l)
  | YStr s => inr (contains x s)
  | YNull | YBool _ | YInt _ => inl TypeError
  end.

(** [v[k]] for a string [k]. *)
Definition getitem (v : yaml) (k : string) : result yaml :=
  match v with
  | YDict d => match lookup k d with
               | Some x => inr x
               | None => inl KeyError
               end
  | _ => inl TypeError
  end.

(** [v.items()]. *)
Definition items (v : yaml) : result (list (string * yaml)) :=
  match v with
  | YDict d => inr d
  | _ => inl AttributeError
  end.

(** [type(v) is int]; a [bool] is not of type [int]. *)
Definition is_int (v : yaml) : bool :=
  match v with YInt _ => true | _ => false end.
Definition is_str (v : yaml) : bool :=
  match v with YStr _ => true | _ => false end.
Definition is_list (v : yaml) : bool :=
  match v with YList _ => true | _ => false end.
Definition is_dict (v : yaml) : bool :=
  match v with YDict _ => true | _ => false end.
Definition is_bool (v : yaml) : bool :=
  match v with YBool _ => true | _ => false end.

(** ** The validator monad: log output and exceptions *)

Definition V (A : Type) : Type := (list record * result A)%type.

Definition ret {A} (a : A) : V A := ([], inr a).
Definition raise {A} (e : exn) : V A := ([], inl e).
Definition bind {A B} (m : V A) (f : A -> V B) : V B :=
  match m with
  | (log, inl e) => (log, inl e)
  | (log, inr a) => let '(log', r) := f a in (log ++ log', r)
  end.
Definition lift {A} (r : result A) : V A := ([], r).
Definition logging (l : level) (f : string) (a : list yaml) : V unit :=
  ([Log l f a], inr tt).

Declare Scope py_scope.
Delimit Scope py_scope with py.
Notation "x <- m ;; k" := (bind m (fun x => k))
  (at level 61, m at next level, right associativity) : py_scope.
Notation "' pat <- m ;; k" := (bind m (fun x => match x with pat => k end))
  (at level 61, pat pattern, m at next level, right associativity) : py_scope.
Notation "m ;; k" := (bind m (fun _ => k))
  (at level 61, right associativity) : py_scope.
Local Open Scope py_scope.

(** [for x in l: st = body x st], with the loop variables threaded. *)
Definition for_each {A St : Type} (body : A -> St -> V St)
  : list A -> St -> V St :=
  fix loop (l : list A) (st : St) : V St :=
    match l with
    | [] => ret st
    | x :: rest => st' <- body x st ;; loop rest st'
    end.

(** [try: m  except e: handler]; the log written before the exception stays. *)
Definition try_except {A} (m : V A) (catches : exn -> bool) (handler : V A)
  : V A :=
  match m with
  | (log, inl e) => if catches e
                    then let '(log', r) := handler in (log ++ log', r)
                    else m
  | (_, inr _) => m
  end.

(** ** Libraries and helpers the checker calls

    [netaddr], [os.path], the YAML loader and [adles.utils.read_json] are not
    part of the checker; the checker is stated over any implementation of
    them. *)

(** What [yaml.load] on an opened file gives: the document, or a
    [YAMLError] with an optional problem mark (line, column). *)
Inductive loaded : Type :=
| Loaded (doc : yaml)
| YAMLError (problem_mark : option (Z * Z)) (exc : yaml).

Record netaddr : Type := {
  network : Type;
  (** [IPNetwork(v)]: the network, or the exception raised
      ([AddrFormatError] for a string that is not a CIDR). *)
  IPNetwork : yaml -> result network;
  is_reserved : network -> bool;
  is_multicast : network -> bool;
  is_loopback : network -> bool;
  is_private : network -> bool
}.

Record host : Type := {
  (** [os.path.exists(p)] *)
  path_exists : yaml -> result bool;
  (** [os.path.basename(p)] *)
  basename : yaml -> result yaml;
  (** [open(p)] followed by [yaml.load] *)
  open_load : yaml -> result loaded;
  (** [adles.utils.read_json(p)]; [YNull] stands for [None] *)
  read_json : yaml -> V yaml;
  (** [int(s)] on a string, [None] for [ValueError] *)
  int_of_str : string -> option Z
}.

(** ** [str.lower]

    [str.lower] maps a string through the case tables of the interpreter.
    It is a function of the run-time, given here by what it does on the
    strings of ASCII characters: it maps the letters [A] to [Z] to [a] to
    [z] and leaves the other characters. *)
Definition ascii_lower_char (c : ascii) : ascii :=
  let n := nat_of_ascii c in
  if (65 <=? n)%nat && (n <=? 90)%nat then ascii_of_nat (n + 32) else c.

Fixpoint ascii_lower (s : string) : string :=
  match s with
  | EmptyString => EmptyString
  | String c rest => String (ascii_lower_char c) (ascii_lower rest)
  end.

(** The string holds ASCII characters only. *)
Fixpoint ascii_only (s : string) : bool :=
  match s with
  | EmptyString => true
  | String c rest => (nat_of_ascii c <? 128)%nat && ascii_only rest
  end.

Record unicode : Type := {
  (** [s.lower()] *)
  lower : string -> string;
  lower_ascii : forall s, ascii_only s = true -> lower s = ascii_lower s
}.

(** [int(v)] *)
Definition py_int (h : host) (v : yaml) : result Z :=
  match v with
  | YInt z => inr z
  | YBool b => inr (if b then 1 else 0)%Z
  | YStr s => match int_of_str h s with
              | Some z => inr z
              | None => inl ValueError
              end
  | YNull | YList _ | YDict _ => inl TypeError
  end.

Definition is_none (v : yaml) : bool :=
  match v with YNull => true | _ => false end.

(** [str(type(v))] *)
Definition type_name (v : yaml) : yaml :=
  YStr match v with
       | YNull => "<class 'NoneType'>"
       | YBool _ => "<class 'bool'>"
       | YInt _ => "<class 'int'>"
       | YStr _ => "<class 'str'>"
       | YList _ => "<class 'list'>"
       | YDict _ => "<class 'dict'>"
       end.

Definition contains_key (x : string) (v : yaml) : V bool := lift (py_in x v).
Definition item (v : yaml) (k : string) : V yaml := lift (getitem v k).
Definition is_AddrFormatError (e : exn) : bool :=
  match e with AddrFormatError => true | _ => false end.

(** [x in l] for a list of strings. *)
Definition mem (x : string) (l : list string) : bool := existsb (String.eqb x) l.

(** ** [adles/parser.py] *)

Module Adles.
Section Checker.

Variable net : netaddr.
Variable os : host.

Definition parse_file (filename : yaml) : V yaml :=
  r <- lift (open_load os filename) ;;
  match r with
  | Loaded doc => ret doc
  | YAMLError problem_mark exc =>
      logging ERROR "Could not parse file %s" [filename] ;;
      match problem_mark with
      | Some (line, column) =>
          logging ERROR "Error position: (%s:%s)"
                  [YInt (line + 1); YInt (column + 1)]
      | None => logging ERROR "Error: %s" [exc]
      end ;;
      ret YNull
  end.

Definition _checker (value_list : list string) (source : string)
                    (data : yaml) (flag : string) : V nat :=
  num_hits <- for_each (fun value num_hits =>
      present <- contains_key value data ;;
      if negb present then
        (if String.eqb flag "warnings" then
           logging WARNING "Missing %s in %s" [YStr value; YStr source]
         else if String.eqb flag "errors" then
           logging ERROR "Missing %s in %s" [YStr value; YStr source]
         else
           logging ERROR "Invalid flag for _checker: %s" [YStr flag]) ;;
        ret (num_hits + 1)
      else ret num_hits) value_list 0 ;;
  (if Nat.ltb 0 num_hits then
     logging INFO "Total number of %s in %s: %d"
             [YStr flag; YStr source; YInt (Z.of_nat num_hits)]
   else ret tt) ;;
  ret num_hits.

(** The loop of [verify_infra_syntax] keeps the lists [warnings] and
    [errors] from one platform to the next, as the Python locals do. *)
Definition verify_infra_syntax (infra : yaml) : V (nat * nat) :=
  platforms <- lift (items infra) ;;
  '(num_errors, num_warnings, _, _) <-
    for_each (fun '(platform, config) '(num_errors, num_warnings, warnings, errors) =>
      checked <-
        (if String.eqb platform "vmware-vsphere" then
           let warnings := ["port"; "login-file"; "datacenter"; "datastore";
                            "server-root"; "vswitch"] in
           let errors := ["hostname"; "template-folder"] in
           has_login <- contains_key "login-file" config ;;
           num_errors <-
             (if has_login then
                login_file <- item config "login-file" ;;
                json <- read_json os login_file ;;
                if is_none json then
                  logging ERROR "Invalid vSphere infrastructure login-file: %s"
                          [login_file] ;;
                  ret (num_errors + 1)
                else ret num_errors
              else ret num_errors) ;;
           has_hosts <- contains_key "host-list" config ;;
           num_errors <-
             (if has_hosts then
                host_list <- item config "host-list" ;;
                if negb (is_list host_list) then
                  logging ERROR "Invalid type for vSphere host-list: %s"
                          [type_name host_list] ;;
                  ret (num_errors + 1)
                else ret num_errors
              else ret num_errors) ;;
           has_thresholds <- contains_key "thresholds" config ;;
           num_errors <-
             (if has_thresholds then
                thresholds <- item config "thresholds" ;;
                e <- _checker ["folder"; "service"] "infrastructure"
                              thresholds "errors" ;;
                ret (num_errors + e)
              else ret num_errors) ;;
           ret (Some (num_errors, warnings, errors))
         else if String.eqb platform "docker" then
           let warnings := ["url"] in
           let errors := [] in
           has_registry <- contains_key "registry" config ;;
           num_errors <-
             (if has_registry then
                registry <- item config "registry" ;;
                e <- _checker ["url"; "login-file"] "infrastructure"
                              registry "errors" ;;
                ret (num_errors + e)
              else ret num_errors) ;;
           ret (Some (num_errors, warnings, errors))
         else if String.eqb platform "amazon-aws" then
           ret (Some (num_errors, warnings, errors))
         else if String.eqb platform "digital-ocean" then
           ret (Some (num_errors, warnings, errors))
         else if String.eqb platform "hyper-v" then
           ret (Some (num_errors, warnings, errors))
         else
           logging ERROR "Unknown infrastructure platform: %s" [YStr platform] ;;
           ret None) ;;
      match checked with
      | None => ret (num_errors, num_warnings, warnings, errors)
      | Some (num_errors, warnings, errors) =>
          w <- _checker warnings "infrastructure" config "warnings" ;;
          e <- _checker errors "infrastructure" config "errors" ;;
          ret (num_errors + e, num_warnings + w, warnings, errors)
      end) platforms (0, 0, [], []) ;;
  ret (num_errors, num_warnings).

Definition _verify_exercise_metadata_syntax (metadata : yaml) : V (nat * nat) :=
  let warnings := ["description"; "version"; "folder-name"] in
  let errors := ["name"; "prefix"; "infra-file"] in
  num_warnings <- _checker warnings "metadata" metadata "warnings" ;;
  num_errors <- _checker errors "metadata" metadata "errors" ;;
  has_infra <- contains_key "infra-file" metadata ;;
  if has_infra then
    infra_file <- item metadata "infra-file" ;;
    found <- lift (path_exists os infra_file) ;;
    if negb found then
      logging ERROR "Could not open infra-file '%s'" [infra_file] ;;
      ret (num_errors + 1, num_warnings)
    else
      infra <- parse_file infra_file ;;
      '(e, w) <- verify_infra_syntax infra ;;
      ret (num_errors + e, num_warnings + w)
  else ret (num_errors, num_warnings).

Definition _check_group_file (filename : yaml) : V (nat * nat) :=
  json <- read_json os filename ;;
  if is_none json then
    logging ERROR "Invalid user info file %s" [filename] ;;
    ret (0 + 1, 0)
  else ret (0, 0).

(** Body of the loop of [_verify_groups_syntax], for one group. *)
Definition group_body (key : string) (value : yaml)
                      (counts : nat * nat) : V (nat * nat) :=
  let '(num_errors, num_warnings) := counts in
  template <- contains_key "instances" value ;;
  if template then
    instances <- item value "instances" ;;
    num_errors <-
      (if negb (is_int instances) then
         logging ERROR "Instances must be an Integer for group %s" [YStr key] ;;
         ret (num_errors + 1)
       else ret num_errors) ;;
    has_ad <- contains_key "ad-group" value ;;
    if has_ad then
      ad_group <- item value "ad-group" ;;
      if negb (is_str ad_group) then
        logging ERROR "AD group must be a string" [] ;;
        ret (num_errors + 1, num_warnings)
      else ret (num_errors, num_warnings)
    else
      has_file <- contains_key "filename" value ;;
      if has_file then
        filename <- item value "filename" ;;
        '(e, w) <- _check_group_file filename ;;
        ret (num_errors + e, num_warnings + w)
      else
        logging ERROR "Invalid user specification method for template group %s"
                [YStr key] ;;
        ret (num_errors + 1, num_warnings)
  else
    has_ad <- contains_key "ad-group" value ;;
    if has_ad then
      ad_group <- item value "ad-group" ;;
      if negb (is_str ad_group) then
        logging ERROR "AD group must be a string" [] ;;
        ret (num_errors + 1, num_warnings)
      else ret (num_errors, num_warnings)
    else
      has_file <- contains_key "filename" value ;;
      if has_file then
        filename <- item value "filename" ;;
        '(e, w) <- _check_group_file filename ;;
        ret (num_errors + e, num_warnings + w)
      else
        has_list <- contains_key "user-list" value ;;
        if has_list then
          user_list <- item value "user-list" ;;
          if negb (is_list user_list) then
            logging ERROR "Username specification must be a list for group %s"
                    [YStr key] ;;
            ret (num_errors + 1, num_warnings)
          else ret (num_errors, num_warnings)
        else
          logging ERROR "Invalid user specification method for group %s"
                  [YStr key] ;;
          ret (num_errors + 1, num_warnings).

Definition _verify_groups_syntax (groups : yaml) : V (nat * nat) :=
  entries <- lift (items groups) ;;
  for_each (fun '(key, value) => group_body key value) entries (0, 0).

Definition _verify_services_syntax (services : yaml) : V (nat * nat) :=
  entries <- lift (items services) ;;
  for_each (fun '(key, value) '(num_errors, num_warnings) =>
    has_nics <- contains_key "network-interfaces" value ;;
    num_errors <-
      (if has_nics then
         nics <- item value "network-interfaces" ;;
         if negb (is_list nics) then
           logging ERROR "Network interfaces must be a list for service %s"
                   [YStr key] ;;
           ret (num_errors + 1)
         else ret num_errors
       else ret num_errors) ;;
    has_prov <- contains_key "provisioner" value ;;
    num_errors <-
      (if has_prov then
         provisioner <- item value "provisioner" ;;
         e <- _checker ["name"; "file"] ("provisioner for service " ++ key)%string
                       provisioner "errors" ;;
         ret (num_errors + e)
       else ret num_errors) ;;
    has_note <- contains_key "note" value ;;
    num_errors <-
      (if has_note then
         note <- item value "note" ;;
         if negb (is_str note) then
           logging ERROR "Note must be a string for service %s" [YStr key] ;;
           ret (num_errors + 1)
         else ret num_errors
       else ret num_errors) ;;
    has_template <- contains_key "template" value ;;
    if has_template then ret (num_errors, num_warnings)
    else
      has_image <- contains_key "image" value ;;
      has_image_or_dockerfile <-
        (if has_image then ret true else contains_key "dockerfile" value) ;;
      if has_image_or_dockerfile then ret (num_errors, num_warnings)
      else
        has_compose <- contains_key "compose-file" value ;;
        if has_compose then ret (num_errors, num_warnings)
        else
          logging ERROR "Invalid service definition: %s" [YStr key] ;;
          ret (num_errors + 1, num_warnings)) entries (0, 0).

Definition _verify_resources_syntax (resources : yaml) : V (nat * nat) :=
  let warnings := [] in
  let errors := ["lab"; "resource"] in
  num_warnings <- _checker warnings "resources" resources "warnings" ;;
  num_errors <- _checker errors "resources" resources "errors" ;;
  ret (num_errors, num_warnings).

(** The three checks of the loop body of [_verify_network]. *)
Definition check_subnet (name key : string) (value : yaml)
                        (counts : nat * nat) : V (nat * nat) :=
  let '(num_errors, num_warnings) := counts in
  has_subnet <- contains_key "subnet" value ;;
  if negb has_subnet then
    logging WARNING "No subnet specified for %s %s" [YStr name; YStr key] ;;
    ret (num_errors, num_warnings + 1)
  else
    parsed <- try_except
                (cidr <- item value "subnet" ;;
                 subnet <- lift (IPNetwork net cidr) ;;
                 ret (Some subnet))
                is_AddrFormatError
                (cidr <- item value "subnet" ;;
                 logging ERROR "Invalid format for subnet '%s'" [cidr] ;;
                 ret None) ;;
    match parsed with
    | None => ret (num_errors + 1, num_warnings)
    | Some subnet =>
        if is_reserved net subnet || is_multicast net subnet
           || is_loopback net subnet then
          logging ERROR "%s %s is in a invalid IP address space"
                  [YStr name; YStr key] ;;
          ret (num_errors + 1, num_warnings)
        else if negb (is_private net subnet) then
          logging WARNING "Non-private subnet used for %s %s"
                  [YStr name; YStr key] ;;
          ret (num_errors, num_warnings + 1)
        else ret (num_errors, num_warnings)
    end.

Definition check_vlan (name key : string) (value : yaml)
                      (counts : nat * nat) : V (nat * nat) :=
  let '(num_errors, num_warnings) := counts in
  has_vlan <- contains_key "vlan" value ;;
  if has_vlan then
    too_big <-
      (if String.eqb name "unique-networks" then
         vlan <- item value "vlan" ;;
         n <- lift (py_int os vlan) ;;
         ret (2000 <=? n)%Z
       else ret false) ;;
    if too_big then
      logging ERROR "VLAN must be less than 2000 for network %s" [YStr key] ;;
      ret (num_errors + 1, num_warnings)
    else if String.eqb name "generic-networks" then
      logging ERROR "VLAN specification is not allowed for network %s"
              [YStr key] ;;
      ret (num_errors + 1, num_warnings)
    else ret (num_errors, num_warnings)
  else ret (num_errors, num_warnings).

Definition check_increment (name key : string) (value : yaml)
                           (counts : nat * nat) : V (nat * nat) :=
  let '(num_errors, num_warnings) := counts in
  has_increment <- contains_key "increment" value ;;
  if has_increment then
    if String.eqb name "unique-networks" then
      logging ERROR "Increment cannot be used for network %s" [YStr key] ;;
      ret (num_errors + 1, num_warnings)
    else
      increment <- item value "increment" ;;
      if negb (is_bool increment) then
        logging ERROR "Increment must be a boolean for network %s" [YStr key] ;;
        ret (num_errors + 1, num_warnings)
      else ret (num_errors, num_warnings)
  else ret (num_errors, num_warnings).

Definition network_body (name key : string) (value : yaml)
                        (counts : nat * nat) : V (nat * nat) :=
  counts <- check_subnet name key value counts ;;
  counts <- check_vlan name key value counts ;;
  check_increment name key value counts.

Definition _verify_network (name : string) (network : yaml) : V (nat * nat) :=
  entries <- lift (items network) ;;
  for_each (fun '(key, value) => network_body name key value) entries (0, 0).

Definition _verify_networks_syntax (networks : yaml) : V (nat * nat) :=
  let net_types := ["unique-networks"; "generic-networks"] in
  any <- for_each (fun net found =>
           if found : bool then ret true else contains_key net networks)
         net_types false ;;
  if negb any then
    logging ERROR "Network specification exists but is empty!" [] ;;
    ret (0 + 1, 0)
  else
    entries <- lift (items networks) ;;
    for_each (fun '(name, network) '(num_errors, num_warnings) =>
      '(e, w) <- _verify_network name network ;;
      ret (num_errors + e, num_warnings + w)) entries (0, 0).

Definition _verify_scoring_syntax (service_name : string) (scoring : yaml)
  : V (nat * nat) :=
  let warnings := ["ports"; "protocols"] in
  let errors := ["criteria"] in
  num_warnings <- _checker warnings ("service " ++ service_name)%string
                           scoring "warnings" ;;
  num_errors <- _checker errors ("service " ++ service_name)%string
                         scoring "errors" ;;
  ret (num_errors, num_warnings).

Definition keywords : list string :=
  ["group"; "master-group"; "instances"; "description"; "enabled"].

(** The check of the [instances] entry of a folder. *)
Definition check_instances (key : string) (value : yaml)
                           (num_errors : nat) : V nat :=
  has_instances <- contains_key "instances" value ;;
  if has_instances then
    instances <- item value "instances" ;;
    if is_int instances then ret num_errors
    else
      has_number <- contains_key "number" instances ;;
      if has_number then
        number <- item instances "number" ;;
        if negb (is_int number) then
          logging ERROR "Number of instances for folder '%s' must be an Integer"
                  [YStr key] ;;
          ret (num_errors + 1)
        else ret num_errors
      else
        has_size <- contains_key "size-of" instances ;;
        if has_size then ret num_errors
        else
          logging ERROR "Must specify number of instances for folder '%s'"
                  [YStr key] ;;
          ret (num_errors + 1)
  else ret num_errors.

(** The checks of a base folder: its group and its services. *)
Definition check_base (key : string) (value : yaml)
                      (counts : nat * nat) : V (nat * nat) :=
  let '(num_errors, num_warnings) := counts in
  has_group <- contains_key "group" value ;;
  num_errors <-
    (if negb has_group then
       logging ERROR "No group specified for folder '%s'" [YStr key] ;;
       ret (num_errors + 1)
     else ret num_errors) ;;
  services <- item value "services" ;;
  entries <- lift (items services) ;;
  for_each (fun '(skey, svalue) '(num_errors, num_warnings) =>
    named <- contains_key "service" svalue ;;
    num_errors <-
      (if negb named then
         logging ERROR "Service %s is unnamed in folder '%s'"
                 [YStr skey; YStr key] ;;
         ret (num_errors + 1)
       else ret num_errors) ;;
    has_networks <- contains_key "networks" svalue ;;
    bad_networks <-
      (if has_networks then
         networks <- item svalue "networks" ;;
         ret (negb (is_list networks))
       else ret false) ;;
    num_errors <-
      (if bad_networks then
         logging ERROR
           "Network specifications must be a list for service '%s' in folder '%s'"
           [YStr skey; YStr key] ;;
         ret (num_errors + 1)
       else ret num_errors) ;;
    has_scoring <- contains_key "scoring" svalue ;;
    if has_scoring then
      scoring <- item svalue "scoring" ;;
      '(e, w) <- _verify_scoring_syntax skey scoring ;;
      ret (num_errors + e, num_warnings + w)
    else ret (num_errors, num_warnings)) entries (num_errors, num_warnings).

Fixpoint _verify_folders_syntax (folders : yaml) {struct folders}
  : V (nat * nat) :=
  match folders with
  | YDict entries =>
      for_each (fun '(key, value) '(num_errors, num_warnings) =>
        if mem key keywords then ret (num_errors, num_warnings)
        else if negb (is_dict value) then
          logging ERROR "Invalid configuration %s" [YStr key] ;;
          ret (num_errors + 1, num_warnings)
        else
          num_errors <- check_instances key value num_errors ;;
          base <- contains_key "services" value ;;
          if base then check_base key value (num_errors, num_warnings)
          else
            if negb (is_dict value) then
              logging ERROR
                "Could not verify syntax of folder '%s': '%s' is not a folder!"
                [YStr key; value] ;;
              ret (num_errors + 1, num_warnings)
            else
              '(e, w) <- _verify_folders_syntax value ;;
              ret (num_errors + e, num_warnings + w)) entries (0, 0)
  | _ => raise AttributeError
  end.

(** The format string [Optional definition "%s" was not found]. *)
Definition optional_not_found : string :=
  ("Optional definition " ++ String (ascii_of_nat 34) "%s"
   ++ String (ascii_of_nat 34) " was not found")%string.

Definition required : list string :=
  ["metadata"; "groups"; "services"; "networks"; "folders"].
Definition optional : list string := ["resources"].

Definition funcs : list (string * (yaml -> V (nat * nat))) :=
  [("metadata", _verify_exercise_metadata_syntax);
   ("groups", _verify_groups_syntax);
   ("services", _verify_services_syntax);
   ("resources", _verify_resources_syntax);
   ("networks", _verify_networks_syntax);
   ("folders", _verify_folders_syntax)].

(** Body of the loop of [verify_exercise_syntax], for one entry of
    [funcs]. *)
Definition section_body (spec : yaml) (key : string)
                        (func : yaml -> V (nat * nat))
                        (counts : nat * nat) : V (nat * nat) :=
  let '(num_errors, num_warnings) := counts in
  present <- contains_key key spec ;;
  if negb present then
    if mem key required then
      logging ERROR "Required definition %s was not found" [YStr key] ;;
      ret (num_errors + 1, num_warnings)
    else if mem key optional then
      logging INFO optional_not_found [YStr key] ;;
      ret (num_errors, num_warnings)
    else
      logging WARNING "Unknown definition found: %s" [YStr key] ;;
      ret (num_errors, num_warnings + 1)
  else
    section <- item spec key ;;
    '(e, w) <- func section ;;
    ret (num_errors + e, num_warnings + w).

Definition verify_exercise_syntax (spec : yaml) : V (nat * nat) :=
  for_each (fun '(key, func) => section_body spec key func) funcs (0, 0).

Definition verify_package_syntax (package : yaml) : V (nat * nat) :=
  has_metadata <- contains_key "metadata" package ;;
  '(num_errors, num_warnings) <-
    (if negb has_metadata then
       logging ERROR "Metadata section not specified for package!" [] ;;
       ret (0 + 1, 0)
     else
       let metadata_warnings := ["name"; "description"; "version"] in
       let metadata_errors := ["timestamp"; "tag"] in
       metadata <- item package "metadata" ;;
       w <- _checker metadata_warnings "metadata" metadata "warnings" ;;
       metadata <- item package "metadata" ;;
       e <- _checker metadata_errors "metadata" metadata "errors" ;;
       ret (0 + e, 0 + w)) ;;
  has_contents <- contains_key "contents" package ;;
  if negb has_contents then
    logging ERROR "Contents section not specified for package!" [] ;;
    ret (num_errors + 1, num_warnings)
  else
    let content_warnings := ["infrastructure"; "scoring"; "results";
                             "templates"; "materials"] in
    let content_errors := ["environment"] in
    contents <- item package "contents" ;;
    w <- _checker content_warnings "contents" contents "warnings" ;;
    contents <- item package "contents" ;;
    e <- _checker content_errors "contents" contents "errors" ;;
    ret (num_errors + e, num_warnings + w).

(** The format string of the last error of [check_syntax], with its
    tabulation. *)
Definition syntax_check_failed : string :=
  ("Syntax check failed! Errors: %d" ++ String (ascii_of_nat 9)
     "Warnings: %d")%string.

(** [check_syntax] returns the specification or [None], written [YNull]. *)
Definition check_syntax (specfile_path : yaml) (spec_type : string) : V yaml :=
  found <- lift (path_exists os specfile_path) ;;
  if negb found then
    logging ERROR "Could not find specification file in path %s"
            [specfile_path] ;;
    ret YNull
  else
    spec <- parse_file specfile_path ;;
    if is_none spec then
      base <- lift (basename os specfile_path) ;;
      logging ERROR "Failed to ingest specification file %s" [base] ;;
      ret YNull
    else
      base <- lift (basename os specfile_path) ;;
      logging INFO "Successfully ingested specification file %s" [base] ;;
      logging INFO "Checking syntax..." [] ;;
      verified <-
        (if String.eqb spec_type "exercise" then
           r <- verify_exercise_syntax spec ;; ret (Some r)
         else if String.eqb spec_type "package" then
           r <- verify_package_syntax spec ;; ret (Some r)
         else if String.eqb spec_type "infra" then
           r <- verify_infra_syntax spec ;; ret (Some r)
         else
           logging ERROR "Unknown specification type in for check_syntax: %s"
                   [YStr spec_type] ;;
           ret None) ;;
      match verified with
      | None => ret YNull
      | Some (errors, warnings) =>
          if Nat.eqb errors 0 && Nat.eqb warnings 0 then
            logging INFO "Syntax check successful!" [] ;;
            ret spec
          else if Nat.eqb errors 0 then
            logging INFO "Syntax check successful, but there were %d warnings"
                    [YInt (Z.of_nat warnings)] ;;
            ret spec
          else
            logging ERROR syntax_check_failed
                    [YInt (Z.of_nat errors); YInt (Z.of_nat warnings)] ;;
            ret YNull
      end.

End Checker.
End Adles.

(** ** [automation/parser.py] *)

Module Automation.
Section Checker.

Variable net : netaddr.

Definition _checker (value_list : list string) (source : string)
                    (data : yaml) (flag : string) : V nat :=
  num_hits <- for_each (fun value num_hits =>
      present <- contains_key value data ;;
      if negb present then
        (if String.eqb flag "warnings" then
           logging WARNING "Missing %s in %s" [YStr value; YStr source]
         else if String.eqb flag "errors" then
           logging ERROR "Missing %s in %s" [YStr value; YStr source]
         else
           logging ERROR "Invalid flag for _checker: %s" [YStr flag]) ;;
        ret (num_hits + 1)
      else ret num_hits) value_list 0 ;;
  (if Nat.ltb 0 num_hits then
     logging INFO "Total number of %s in %s: %d"
             [YStr flag; YStr source; YInt (Z.of_nat num_hits)]
   else ret tt) ;;
  ret num_hits.

(** Body of the loop of [_verify_groups_syntax], for one group. *)
Definition group_body (key : string) (value : yaml)
                      (counts : nat * nat) : V (nat * nat) :=
  let '(num_errors, num_warnings) := counts in
  template <- contains_key "instances" value ;;
  if template then
    instances <- item value "instances" ;;
    num_errors <-
      (if negb (is_int instances) then
         logging ERROR "Instances must be an Integer for group %s" [YStr key] ;;
         ret (num_errors + 1)
       else ret num_errors) ;;
    has_ad <- contains_key "ad-group" value ;;
    if has_ad then ret (num_errors, num_warnings)
    else
      has_file <- contains_key "filename" value ;;
      if has_file then ret (num_errors, num_warnings)
      else
        logging ERROR "Invalid user specification method for template group %s"
                [YStr key] ;;
        ret (num_errors + 1, num_warnings)
  else
    has_ad <- contains_key "ad-group" value ;;
    if has_ad then ret (num_errors, num_warnings)
    else
      has_file <- contains_key "filename" value ;;
      if has_file then ret (num_errors, num_warnings)
      else
        has_list <- contains_key "user-list" value ;;
        if has_list then
          user_list <- item value "user-list" ;;
          if negb (is_list user_list) then
            logging ERROR "Username specification must be a list for group %s"
                    [YStr key] ;;
            ret (num_errors + 1, num_warnings)
          else ret (num_errors, num_warnings)
        else
          logging ERROR "Invalid user specification method for group %s"
                  [YStr key] ;;
          ret (num_errors + 1, num_warnings).

Definition _verify_groups_syntax (groups : yaml) : V (nat * nat) :=
  entries <- lift (items groups) ;;
  for_each (fun '(key, value) => group_body key value) entries (0, 0).

(** Body of the loop of [_verify_network]: no [try] around [IPNetwork]. *)
Definition network_body (name key : string) (value : yaml)
                        (counts : nat * nat) : V (nat * nat) :=
  let '(num_errors, num_warnings) := counts in
  has_subnet <- contains_key "subnet" value ;;
  if negb has_subnet then
    logging WARNING "No subnet specified for %s %s" [YStr name; YStr key] ;;
    ret (num_errors, num_warnings + 1)
  else
    cidr <- item value "subnet" ;;
    subnet <- lift (IPNetwork net cidr) ;;
    if is_reserved net subnet || is_multicast net subnet
       || is_loopback net subnet then
      logging ERROR "%s %s is in a invalid IP address space"
              [YStr name; YStr key] ;;
      ret (num_errors + 1, num_warnings)
    else if negb (is_private net subnet) then
      logging WARNING "Non-private subnet used for %s %s"
              [YStr name; YStr key] ;;
      ret (num_errors, num_warnings + 1)
    else ret (num_errors, num_warnings).

Definition _verify_network (name : string) (network : yaml) : V (nat * nat) :=
  entries <- lift (items network) ;;
  for_each (fun '(key, value) => network_body name key value) entries (0, 0).

Definition _verify_networks_syntax (networks : yaml) : V (nat * nat) :=
  let net_types := ["unique-networks"; "generic-networks"; "base-networks"] in
  any <- for_each (fun net found =>
           if found : bool then ret true else contains_key net networks)
         net_types false ;;
  if negb any then
    logging ERROR "Network specification exists but is empty!" [] ;;
    ret (0 + 1, 0)
  else
    entries <- lift (items networks) ;;
    for_each (fun '(name, network) '(num_errors, num_warnings) =>
      '(e, w) <- _verify_network name network ;;
      ret (num_errors + e, num_warnings + w)) entries (0, 0).

(** The check of the [instances] entry of a folder. *)
Definition check_instances (key : string) (value : yaml)
                           (num_errors : nat) : V nat :=
  has_instances <- contains_key "instances" value ;;
  if has_instances then
    instances <- item value "instances" ;;
    has_number <- contains_key "number" instances ;;
    if has_number then
      number <- item instances "number" ;;
      if negb (is_int number) then
        logging ERROR "Number of instances for folder %s must be an Integer"
                [YStr key] ;;
        ret (num_errors + 1)
      else ret num_errors
    else
      has_size <- contains_key "size-of" instances ;;
      if has_size then ret num_errors
      else
        logging ERROR "Must specify number of instances for folder %s"
                [YStr key] ;;
        ret (num_errors + 1)
  else ret num_errors.

(** The checks of a base folder: its group and its services. *)
Definition check_base (key : string) (value : yaml)
                      (num_errors : nat) : V nat :=
  has_group <- contains_key "group" value ;;
  num_errors <-
    (if negb has_group then
       logging ERROR "No group specified for folder %s" [YStr key] ;;
       ret (num_errors + 1)
     else ret num_errors) ;;
  services <- item value "services" ;;
  entries <- lift (items services) ;;
  for_each (fun '(skey, svalue) num_errors =>
    named <- contains_key "service" svalue ;;
    num_errors <-
      (if negb named then
         logging ERROR "Service %s is unnamed in folder %s"
                 [YStr skey; YStr key] ;;
         ret (num_errors + 1)
       else ret num_errors) ;;
    has_networks <- contains_key "networks" svalue ;;
    bad_networks <-
      (if has_networks then
         networks <- item svalue "networks" ;;
         ret (negb (is_list networks))
       else ret false) ;;
    if bad_networks then
      logging ERROR
        "Network specifications must be a list for service %s in folder %s"
        [YStr skey; YStr key] ;;
      ret (num_errors + 1)
    else ret num_errors) entries num_errors.

(** Every entry is taken for a folder; the result of a parent folder
    replaces the counts so far. *)
Fixpoint _verify_folders_syntax (folders : yaml) {struct folders}
  : V (nat * nat) :=
  match folders with
  | YDict entries =>
      for_each (fun '(key, value) '(num_errors, num_warnings) =>
        num_errors <- check_instances key value num_errors ;;
        base <- contains_key "services" value ;;
        if base then
          num_errors <- check_base key value num_errors ;;
          ret (num_errors, num_warnings)
        else _verify_folders_syntax value) entries (0, 0)
  | _ => raise AttributeError
  end.

Variable os : host.

Definition parse_file (filename : yaml) : V yaml :=
  r <- lift (open_load os filename) ;;
  match r with
  | Loaded doc => ret doc
  | YAMLError problem_mark exc =>
      logging ERROR "Could not parse file %s" [filename] ;;
      match problem_mark with
      | Some (line, column) =>
          logging ERROR "Error position: (%s:%s)"
                  [YInt (line + 1); YInt (column + 1)]
      | None => logging ERROR "Error: %s" [exc]
      end ;;
      ret YNull
  end.

Definition _verify_infra_syntax (infra : yaml) : V (nat * nat) :=
  let warnings := ["datacenter"; "datastore"] in
  let errors := ["platform"; "server-hostname"; "server-port"; "login-file";
                 "template-folder"] in
  num_warnings <- _checker warnings "infrastructure" infra "warnings" ;;
  num_errors <- _checker errors "infrastructure" infra "errors" ;;
  ret (num_errors, num_warnings).

Definition _verify_metadata_syntax (metadata : yaml) : V (nat * nat) :=
  let warnings := ["description"; "date-created"; "folder-name"; "root-path";
                   "template-path"] in
  let errors := ["name"; "infrastructure-config-file"] in
  num_warnings <- _checker warnings "metadata" metadata "warnings" ;;
  num_errors <- _checker errors "metadata" metadata "errors" ;;
  has_infra <- contains_key "infrastructure-config-file" metadata ;;
  if has_infra then
    infra_file <- item metadata "infrastructure-config-file" ;;
    infra_contents <- parse_file infra_file ;;
    '(e, w) <- _verify_infra_syntax infra_contents ;;
    ret (num_errors + e, num_warnings + w)
  else ret (num_errors, num_warnings).

Definition _verify_services_syntax (services : yaml) : V (nat * nat) :=
  entries <- lift (items services) ;;
  for_each (fun '(key, value) '(num_errors, num_warnings) =>
    has_template <- contains_key "template" value ;;
    if has_template then ret (num_errors, num_warnings)
    else
      has_image <- contains_key "image" value ;;
      if has_image then ret (num_errors, num_warnings)
      else
        has_compose <- contains_key "compose-file" value ;;
        if has_compose then ret (num_errors, num_warnings)
        else
          logging ERROR "Invalid service definition: %s" [YStr key] ;;
          ret (num_errors + 1, num_warnings)) entries (0, 0).

Definition _verify_resources_syntax (resources : yaml) : V (nat * nat) :=
  let warnings := [] in
  let errors := [] in
  num_warnings <- _checker warnings "resources" resources "warnings" ;;
  num_errors <- _checker errors "resources" resources "errors" ;;
  ret (num_errors, num_warnings).

(** The format string [Optional definition "%s" was not found]. *)
Definition optional_not_found : string :=
  ("Optional definition " ++ String (ascii_of_nat 34) "%s"
   ++ String (ascii_of_nat 34) " was not found")%string.

Definition required : list string :=
  ["metadata"; "groups"; "services"; "networks"; "folders"].
Definition optional : list string := ["resources"].

Definition funcs : list (string * (yaml -> V (nat * nat))) :=
  [("metadata", _verify_metadata_syntax);
   ("groups", _verify_groups_syntax);
   ("services", _verify_services_syntax);
   ("resources", _verify_resources_syntax);
   ("networks", _verify_networks_syntax);
   ("folders", _verify_folders_syntax)].

(** Body of the loop of [verify_syntax], for one entry of [funcs]: the
    pair a section checker returns is unpacked as [w, e]. *)
Definition section_body (spec : yaml) (key : string)
                        (func : yaml -> V (nat * nat))
                        (counts : nat * nat) : V (nat * nat) :=
  let '(num_errors, num_warnings) := counts in
  present <- contains_key key spec ;;
  if negb present then
    if mem key required then
      logging ERROR "Required definition %s was not found" [YStr key] ;;
      ret (num_errors + 1, num_warnings)
    else if mem key optional then
      logging DEBUG optional_not_found [YStr key] ;;
      ret (num_errors, num_warnings)
    else
      logging WARNING "Unknown definition found: %s" [YStr key] ;;
      ret (num_errors, num_warnings + 1)
  else
    section <- item spec key ;;
    '(w, e) <- func section ;;
    ret (num_errors + e, num_warnings + w).

(** [verify_syntax], under its decorator [@time_execution] of
    [automation.utils]. *)
Definition verify_syntax (spec : yaml) : V (nat * nat) :=
  for_each (fun '(key, func) => section_body spec key func) funcs (0, 0).

End Checker.
End Automation.

(** ** The platform monad: a world, log output and exceptions *)

Definition P (W A : Type) : Type := W -> W * V A.

Definition retP {W A} (a : A) : P W A := fun w => (w, ret a).
Definition raiseP {W A} (e : exn) : P W A := fun w => (w, raise e).
Definition bindP {W A B} (m : P W A) (f : A -> P W B) : P W B :=
  fun w =>
    let '(w1, (log1, r1)) := m w in
    match r1 with
    | inl e => (w1, (log1, inl e))
    | inr a => let '(w2, (log2, r2)) := f a w1 in (w2, (log1 ++ log2, r2))
    end.
(** A computation that does not touch the world. *)
Definition pure {W A} (m : V A) : P W A := fun w => (w, m).

Declare Scope plat_scope.
Delimit Scope plat_scope with plat.
Notation "x <- m ;; k" := (bindP m (fun x => k))
  (at level 61, m at next level, right associativity) : plat_scope.
Notation "' pat <- m ;; k" := (bindP m (fun x => match x with pat => k end))
  (at level 61, pat pattern, m at next level, right associativity) : plat_scope.
Notation "m ;; k" := (bindP m (fun _ => k))
  (at level 61, right associativity) : plat_scope.

(** [for x in l: body x] *)
Definition for_eachP {W A : Type} (body : A -> P W unit) : list A -> P W unit :=
  fix loop (l : list A) : P W unit :=
    match l with
    | [] => retP tt
    | x :: rest => bindP (body x) (fun _ => loop rest)
    end.

(** [try: m  except catches: handler e] *)
Definition try_exceptP {W A} (m : P W A) (handler : exn -> option (P W A))
  : P W A :=
  fun w =>
    let '(w1, (log1, r1)) := m w in
    match r1 with
    | inl e => match handler e with
               | Some h => let '(w2, (log2, r2)) := h w1 in
                           (w2, (log1 ++ log2, r2))
               | None => (w1, (log1, inl e))
               end
    | inr a => (w1, (log1, inr a))
    end.

(** ** [adles/vsphere/folder_utils.py] *)

Module FolderUtils.

(** The inventory below a folder, as its properties read: every managed
    object has a reference ([moid]); folders have children.  The functions
    of this file are decorated with [@check(vim.Folder, "folder")] and take
    a folder. *)
Inductive entity : Type :=
| Folder (f : folder)
| VirtualMachine (moid : N) (name : string)
| Other (moid : N) (name : option string)
with folder : Type :=
| MkFolder (moid : N) (name : string) (childEntity : list entity).

Definition childEntity (f : folder) : list entity :=
  match f with MkFolder _ _ children => children end.
Definition folder_name (f : folder) : string :=
  match f with MkFolder _ n _ => n end.

(** [item.name] where [hasattr(item, 'name')]. *)
Definition name (item : entity) : option string :=
  match item with
  | Folder f => Some (folder_name f)
  | VirtualMachine _ n => Some n
  | Other _ n => n
  end.

Inductive vimtype : Type :=
| vim_ManagedEntity
| vim_Folder
| vim_VirtualMachine.

Definition isinstance (item : entity) (t : vimtype) : bool :=
  match t, item with
  | vim_ManagedEntity, _ => true
  | vim_Folder, Folder _ => true
  | vim_VirtualMachine, VirtualMachine _ _ => true
  | _, _ => false
  end.

Definition is_folder (item : entity) : bool :=
  match item with Folder _ => true | _ => false end.

Section Text.

(** The case mapping behind [str.lower]. *)
Variable py : unicode.

(** [hasattr(item, 'name') and item.name.lower() == name] *)
Definition name_matches (item : entity) (name' : string) : bool :=
  match name item with
  | Some n => String.eqb (lower py n) name'
  | None => false
  end.

(** The value of the recursive call in the [elif] branch is dropped, as in
    the source, where the call is a statement. *)
Fixpoint find_in_folder (folder : folder) (name : string) (recursive : bool)
                        (vimtype : option vimtype) {struct folder}
  : option entity :=
  match folder with
  | MkFolder _ _ children =>
      let name := lower py name in
      (fix loop (l : list entity) : option entity :=
         match l with
         | [] => None
         | item :: rest =>
             if name_matches item name then
               match vimtype with
               | Some t => if negb (isinstance item t) then loop rest
                           else Some item
               | None => Some item
               end
             else if recursive && is_folder item then
               match item with
               | Folder sub =>
                   let _ := find_in_folder sub name recursive vimtype in
                   loop rest
               | _ => loop rest
               end
             else loop rest
         end) children
  end.

Section Platform.

Variable W : Type.
(** What the properties of the folder with this reference read now. *)
Variable view : W -> N -> folder.
(** [folder.CreateFolder(name)] *)
Variable CreateFolder : N -> string -> P W entity.

Local Open Scope plat_scope.

(** [create_folder] returns the folder or [None]. *)
Definition create_folder (folder : N) (folder_name' : string)
  : P W (option entity) :=
  fun w =>
    let exists_ := find_in_folder (view w folder) folder_name' false None in
    match exists_ with
    | Some found =>
        (pure (logging WARNING "Folder '%s' already exists in folder '%s'"
                 [YStr folder_name'; YStr (folder_name (view w folder))]) ;;
         retP (Some found)) w
    | None =>
        (pure (logging DEBUG "Creating folder '%s' in folder '%s'"
                 [YStr folder_name'; YStr (folder_name (view w folder))]) ;;
         try_exceptP
           (created <- CreateFolder folder folder_name' ;;
            retP (Some created))
           (fun e =>
              match e with
              | DuplicateName dupe =>
                  Some (fun w' =>
                    (pure (logging ERROR
                       "Could not create folder '%s' in '%s': folder already exists as '%s'"
                       [YStr folder_name'; YStr (folder_name (view w' folder));
                        YStr dupe]) ;;
                     retP None) w')
              | InvalidName invalid =>
                  Some (fun w' =>
                    (pure (logging ERROR
                       "Could not create folder '%s' in '%s': Invalid folder name '%s'"
                       [YStr folder_name'; YStr (folder_name (view w' folder));
                        YStr invalid]) ;;
                     retP None) w')
              | _ => None
              end)) w
    end.

End Platform.

Definition is_vm (item : entity) : bool :=
  match item with VirtualMachine _ _ => true | _ => false end.

(** [vimtype.__name__] *)
Definition vimtype_name (t : vimtype) : string :=
  match t with
  | vim_ManagedEntity => "ManagedEntity"
  | vim_Folder => "Folder"
  | vim_VirtualMachine => "VirtualMachine"
  end.

(** [if name:] for a name that is a string or [None]. *)
Definition truthy (name : option string) : bool :=
  match name with
  | Some (String _ _) => true
  | Some EmptyString => false
  | None => false
  end.

Definition get_in_folder (folder : folder) (name : option string)
                         (recursive : bool) (vimtype : option vimtype)
  : V (option entity) :=
  let item :=
    match name with
    | Some n => if truthy name then find_in_folder folder n recursive vimtype
                else None
    | None => None
    end in
  match item with
  | None =>
      match childEntity folder, vimtype with
      | first :: _, None => ret (Some first)
      | _ :: _, Some t =>
          (fix loop (l : list entity) : V (option entity) :=
             match l with
             | [] =>
                 logging ERROR
                   "Could not find item of type '%s' in folder '%s'"
                   [YStr (vimtype_name t); YStr (folder_name folder)] ;;
                 ret None
             | item :: rest =>
                 if isinstance item t then ret (Some item) else loop rest
             end) (childEntity folder)
      | [], _ =>
          logging ERROR "There are no items in folder %s"
                  [YStr (folder_name folder)] ;;
          ret None
      end
  | Some item => ret (Some item)
  end.

(** [posixpath.split]: the head up to the last slash, without its
    trailing slashes unless it is made of slashes only, and the tail after
    the last slash. *)
Definition slash : ascii := "/"%char.

(** [(p[:i], p[i:])] for [i = p.rfind('/') + 1] *)
Fixpoint cut_last_slash (p : string) : string * string :=
  match p with
  | EmptyString => (EmptyString, EmptyString)
  | String c rest =>
      let '(head, tail) := cut_last_slash rest in
      match head with
      | String _ _ => (String c head, tail)
      | EmptyString =>
          if Ascii.eqb c slash then (String c EmptyString, tail)
          else (EmptyString, String c tail)
      end
  end.

Fixpoint all_slashes (s : string) : bool :=
  match s with
  | EmptyString => true
  | String c rest => Ascii.eqb c slash && all_slashes rest
  end.

(** [s.rstrip('/')] *)
Fixpoint rstrip_slash (s : string) : string :=
  match s with
  | EmptyString => EmptyString
  | String c rest =>
      match rstrip_slash rest with
      | EmptyString => if Ascii.eqb c slash then EmptyString
                       else String c EmptyString
      | stripped => String c stripped
      end
  end.

Definition split (p : string) : string * string :=
  let '(head, tail) := cut_last_slash p in
  match head with
  | EmptyString => (head, tail)
  | _ => if all_slashes head then (head, tail) else (rstrip_slash head, tail)
  end.

(** [s.split('/')] *)
Fixpoint split_slash (s : string) : list string :=
  match s with
  | EmptyString => [EmptyString]
  | String c rest =>
      if Ascii.eqb c slash then EmptyString :: split_slash rest
      else match split_slash rest with
           | first :: others => String c first :: others
           | [] => [String c EmptyString]
           end
  end.

(** The inner loop of [traverse_path]: the first child folder with that
    lowercased name becomes the current folder; without one it stays. *)
Fixpoint step_into (l : list entity) (name' : string) (current : folder)
  : folder :=
  match l with
  | [] => current
  | item :: rest =>
      match item with
      | Folder sub =>
          if String.eqb (lower py (folder_name sub)) name' then sub
          else step_into rest name' current
      | _ => step_into rest name' current
      end
  end.

(** [traverse_path], with [os.path.split] that of a POSIX host. *)
Definition traverse_path (root : folder) (path : string) : V (option entity) :=
  logging DEBUG "Traversing path '%s' from root '%s'"
          [YStr path; YStr (folder_name root)] ;;
  let '(folder_path, name') := split (lower py path) in
  let folder_path := split_slash folder_path in
  let current :=
    fold_left (fun current folder =>
                 step_into (childEntity current) folder current)
              folder_path root in
  if negb (String.eqb name' EmptyString) then
    (fix loop (l : list entity) : V (option entity) :=
       match l with
       | [] =>
           logging DEBUG
             "Could not find item %s while traversing path '%s' from root '%s'"
             [YStr name'; YStr path; YStr (folder_name root)] ;;
           ret None
       | item :: rest =>
           if name_matches item name' then ret (Some item) else loop rest
       end) (childEntity current)
  else ret (Some (Folder current)).

End Text.

(** What [enumerate_folder] builds and [format_structure] reads: tuples
    of a head and a rest, lists and strings; [SOther] is a value of another
    type, given by its [str] and the [str] of its type. *)
Inductive nested : Type :=
| STuple (head : string) (rest : nested)
| SList (l : list nested)
| SStr (s : string)
| SOther (repr type_repr : string).

Section Listing.

(** [str(item)] of a managed object *)
Variable str_of : entity -> string.

Fixpoint enumerate_folder (folder : folder) (recursive : bool) {struct folder}
  : nested :=
  match folder with
  | MkFolder _ fname children =>
      STuple ("+ " ++ fname)%string
        (SList
           ((fix loop (l : list entity) : list nested :=
               match l with
               | [] => []
               | item :: rest =>
                   match item with
                   | Folder sub =>
                       (if recursive then enumerate_folder sub recursive
                        else SStr ("- " ++ folder_name sub)%string)
                       :: loop rest
                   | VirtualMachine _ n => SStr ("* " ++ n)%string :: loop rest
                   | Other _ _ =>
                       SStr ("UNKNOWN ITEM: " ++ str_of item)%string
                       :: loop rest
                   end
               end) children))
  end.

End Listing.

(** [n * ' '] *)
Fixpoint spaces (n : nat) : string :=
  match n with
  | 0 => EmptyString
  | S n' => String " "%char (spaces n')
  end.

Definition newline_char : ascii := ascii_of_nat 10.

Fixpoint format_structure (structure : nested) (indent _depth : nat)
  {struct structure} : V string :=
  let newline := String newline_char (spaces (_depth * indent)) in
  match structure with
  | STuple head rest =>
      let fmat := (EmptyString ++ newline ++ head)%string in
      below <- format_structure rest indent (_depth + 1) ;;
      ret (fmat ++ below)%string
  | SList l =>
      (fix loop (l : list nested) (fmat : string) : V string :=
         match l with
         | [] => ret fmat
         | item :: rest =>
             formatted <- format_structure item indent _depth ;;
             loop rest (fmat ++ formatted)%string
         end) l EmptyString
  | SStr s => ret (EmptyString ++ newline ++ s)%string
  | SOther repr type_repr =>
      logging ERROR "Unexpected type in folder structure for item '%s': %s"
              [YStr repr; YStr type_repr] ;;
      ret EmptyString
  end.

(** [str(name).startswith(prefix)], or no prefix asked for *)
Definition has_prefix (prefix : option string) (name' : option string) : bool :=
  match prefix with
  | None => true
  | Some p => match name' with
              | Some n => String.prefix p n
              | None => false
              end
  end.

Fixpoint retrieve_items (folder : folder) (vm_prefix folder_prefix : option string)
                        (recursive : bool) {struct folder}
  : list entity * list entity :=
  match folder with
  | MkFolder _ _ children =>
      (fix loop (l : list entity) (vms folders : list entity)
         : list entity * list entity :=
         match l with
         | [] => (vms, folders)
         | item :: rest =>
             match item with
             | VirtualMachine _ _ =>
                 if has_prefix vm_prefix (name item)
                 then loop rest (vms ++ [item]) folders
                 else loop rest vms folders
             | Folder sub =>
                 let folders :=
                   if has_prefix folder_prefix (name item)
                   then folders ++ [item] else folders in
                 if recursive then
                   let '(v, f) :=
                     retrieve_items sub vm_prefix folder_prefix recursive in
                   loop rest (vms ++ v) (folders ++ f)
                 else loop rest vms folders
             | Other _ _ => loop rest vms folders
             end
         end) children [] []
  end.

Section Cleanup.

Variable W : Type.
Variable task : Type.
(** [vm_utils.destroy_vm(vm)] *)
Variable destroy_vm : entity -> P W unit.
(** [folder.UnregisterAndDestroy_Task()] *)
Variable UnregisterAndDestroy_Task : folder -> P W task.
Variable wait_for_task : task -> P W unit.
Variable str_of : entity -> string.

Local Open Scope plat_scope.

Fixpoint cleanup (folder : folder) (vm_prefix folder_prefix : option string)
                 (recursive destroy_folders destroy_self : bool)
                 {struct folder} : P W unit :=
  match folder with
  | MkFolder _ fname children =>
      pure (logging DEBUG "Cleaning folder '%s'" [YStr fname]) ;;
      (fix loop (l : list entity) : P W unit :=
         match l with
         | [] => retP tt
         | item :: rest =>
             match item with
             | VirtualMachine _ n =>
                 match vm_prefix with
                 | None => destroy_vm item
                 | Some p => if String.prefix p n then destroy_vm item
                             else retP tt
                 end
             | Folder sub =>
                 if has_prefix folder_prefix (name item) then
                   if destroy_folders then
                     cleanup sub None None true true true
                   else if recursive then
                     cleanup sub vm_prefix folder_prefix true false false
                   else retP tt
                 else retP tt
             | Other _ _ =>
                 pure (logging ERROR
                         "Unknown item encountered while cleaning folder '%s': %s"
                         [YStr fname; YStr (str_of item)])
             end ;;
             loop rest
         end) children ;;
      if destroy_self then
        pure (logging DEBUG "Destroying folder: '%s'" [YStr fname]) ;;
        destroying <- UnregisterAndDestroy_Task folder ;;
        wait_for_task destroying
      else retP tt
  end.

End Cleanup.
End FolderUtils.

(** ** [adles/vsphere/vm_utils.py] *)

Module VmUtils.

(** A node of the snapshot tree of a machine: its name, the snapshot it
    stands for (by reference) and the snapshots taken from it. *)
Inductive snapshot_tree : Type :=
| SnapshotTree (name : string) (snapshot : N)
               (childSnapshotList : list snapshot_tree).

Definition snap_name (s : snapshot_tree) : string :=
  match s with SnapshotTree n _ _ => n end.
Definition snap_snapshot (s : snapshot_tree) : N :=
  match s with SnapshotTree _ r _ => r end.
Definition childSnapshotList (s : snapshot_tree) : list snapshot_tree :=
  match s with SnapshotTree _ _ children => children end.

(** The properties of a machine that the functions below read;
    [snapshot] is [vm.snapshot.rootSnapshotList], and [None] when
    [vm.snapshot] is [None]: the machine has no snapshot. *)
Record VirtualMachine : Type := {
  name : string;
  toolsStatus : string;
  snapshot : option (list snapshot_tree)
}.

(** [_get_snapshots_recursive(snap.childSnapshotList)] *)
Fixpoint below (snap : snapshot_tree) : list snapshot_tree :=
  match snap with
  | SnapshotTree _ _ children => children ++ flat_map below children
  end.

(** The snapshots of the list first, then, for each of them in turn,
    what the call on its children gives. *)
Definition _get_snapshots_recursive (snap_tree : list snapshot_tree)
  : list snapshot_tree :=
  snap_tree ++ flat_map below snap_tree.

Definition get_all_snapshots (vm : VirtualMachine)
  : result (list snapshot_tree) :=
  match snapshot vm with
  | Some rootSnapshotList => inr (_get_snapshots_recursive rootSnapshotList)
  | None => inl AttributeError
  end.

Definition get_snapshot (vm : VirtualMachine) (snapshot_name : string)
  : result (option N) :=
  match get_all_snapshots vm with
  | inl e => inl e
  | inr snaps =>
      inr ((fix loop (l : list snapshot_tree) : option N :=
              match l with
              | [] => None
              | snap :: rest =>
                  if String.eqb (snap_name snap) snapshot_name
                  then Some (snap_snapshot snap)
                  else loop rest
              end) snaps)
  end.

Definition has_tools (vm : VirtualMachine) : bool :=
  let tools := toolsStatus vm in
  if String.eqb tools "toolsOK" || String.eqb tools "toolsOld"
  then true else false.

(** The methods of a machine that change its state. *)
Inductive method : Type :=
| PowerOnVM_Task
| PowerOffVM_Task
| ResetVM_Task
| SuspendVM_Task
| ShutdownGuest
| RebootGuest
| StandbyGuest.

Section State.

(** The case mapping behind [str.lower]. *)
Variable py : unicode.
Variable W : Type.
Variable task : Type.
(** [vm.<method>()] *)
Variable call : VirtualMachine -> method -> P W task.
Variable wait_for_task : task -> P W unit.

Local Open Scope plat_scope.

Definition change_power_state (vm : VirtualMachine) (power_state : string)
  : P W unit :=
  let state := lower py power_state in
  started <-
    (if String.eqb state "on" then
       t <- call vm PowerOnVM_Task ;; retP (Some t)
     else if String.eqb state "off" then
       t <- call vm PowerOffVM_Task ;; retP (Some t)
     else if String.eqb state "reset" then
       t <- call vm ResetVM_Task ;; retP (Some t)
     else if String.eqb state "suspend" then
       t <- call vm SuspendVM_Task ;; retP (Some t)
     else
       pure (logging ERROR "Invalid power_state %s for VM %s"
               [YStr state; YStr (name vm)]) ;;
       retP None) ;;
  match started with
  | None => retP tt
  | Some t =>
      pure (logging DEBUG "Changing power state of VM %s to: '%s'"
              [YStr (name vm); YStr state]) ;;
      wait_for_task t
  end.

Definition change_guest_state (vm : VirtualMachine) (guest_state : string)
  : P W unit :=
  let state := lower py guest_state in
  started <-
    (if String.eqb (toolsStatus vm) "toolsNotInstalled" then
       pure (logging ERROR
               "Cannot change a VM's guest power state without VMware Tools!"
               []) ;;
       retP None
     else if String.eqb state "shutdown" || String.eqb state "off" then
       t <- call vm ShutdownGuest ;; retP (Some t)
     else if String.eqb state "reboot" || String.eqb state "reset" then
       t <- call vm RebootGuest ;; retP (Some t)
     else if String.eqb state "standby" || String.eqb state "suspend" then
       t <- call vm StandbyGuest ;; retP (Some t)
     else
       pure (logging ERROR "Invalid guest_state argument: %s" [YStr state]) ;;
       retP None) ;;
  match started with
  | None => retP tt
  | Some t =>
      pure (logging DEBUG "Changing guest power state of VM %s to: '%s'"
              [YStr (name vm); YStr state]) ;;
      wait_for_task t
  end.

Definition change_vm_state (vm : VirtualMachine) (state : string)
                           (attempt_guest : bool) : P W unit :=
  if attempt_guest && has_tools vm && negb (String.eqb state "on")
  then change_guest_state vm state
  else change_power_state vm state.

End State.
End VmUtils.

(** ** [automation/interface.py] *)

(** The methods a platform-specific interface offers to [Interface]. *)
Module Platform.
Class PlatformInterface (W I : Type) : Type := {
  create_masters : I -> P W unit;
  deploy_environment : I -> P W unit;
  cleanup_masters : I -> bool -> P W unit;
  cleanup_environment : I -> bool -> P W unit
}.
End Platform.

Module Interface.
Section Generic.

Context {W I : Type} `{Platform.PlatformInterface W I}.

(** The attributes [__init__] sets. *)
Record Interface : Type := {
  metadata : yaml;
  interface : I
}.

Local Open Scope plat_scope.

Definition create_masters (self : Interface) : P W unit :=
  name <- pure (item (metadata self) "name") ;;
  pure (logging INFO "Creating Master instances for %s" [name]) ;;
  Platform.create_masters (interface self).

Definition deploy_environment (self : Interface) : P W unit :=
  name <- pure (item (metadata self) "name") ;;
  pure (logging INFO "Deploying environment for %s" [name]) ;;
  Platform.deploy_environment (interface self).

Definition cleanup_masters (self : Interface) (network_cleanup : bool)
  : P W unit :=
  name <- pure (item (metadata self) "name") ;;
  pure (logging INFO "Cleaning up Master instances for %s" [name]) ;;
  Platform.cleanup_masters (interface self) network_cleanup.

Definition cleanup_environment (self : Interface) (network_cleanup : bool)
  : P W unit :=
  name <- pure (item (metadata self) "name") ;;
  pure (logging INFO "Cleaning up environment for %s" [name]) ;;
  Platform.cleanup_masters (interface self) network_cleanup.

End Generic.
Arguments Interface : clear implicits.
End Interface.

(** ** [automation/vsphere_interface.py] *)

(** [len(v)] *)
Definition py_len (v : yaml) : result nat :=
  match v with
  | YList l => inr (List.length l)
  | YDict d => inr (List.length d)
  | YStr s => inr (String.length s)
  | YNull | YBool _ | YInt _ => inl TypeError
  end.

(** [zip(v, n)] with an [int] as second argument: an [int] is not
    iterable. *)
Definition zip_int (v : yaml) (n : nat) : result (list (yaml * nat)) :=
  inl TypeError.

Module VsphereInterface.

(** The [Vsphere] server object and the helpers of [automation.vsphere]
    that the interface calls.  Managed objects are given by reference. *)
Record Vsphere (W : Type) : Type := {
  server_create_folder : string -> N -> P W N;
  folder_name : N -> P W yaml;
  get_host : P W N;
  RefreshNetworkSystem : N -> P W unit;
  create_portgroup : string -> N -> yaml -> yaml -> P W unit;
  (** [get_vm] gives [None] when there is no such machine *)
  get_vm : yaml -> P W (option N);
  generate_clone_spec : P W yaml;
  clone_vm : option N -> N -> string -> yaml -> P W unit;
  (** [vm.network] *)
  vm_network : N -> P W (list N);
  get_portgroup : yaml -> P W (option N);
  edit_nic : N -> nat -> option N -> yaml -> P W unit;
  set_note : N -> yaml -> P W unit;
  create_snapshot : N -> string -> string -> P W unit;
  find_in_folder : N -> string -> P W (option N);
  is_template : N -> P W bool;
  convert_to_template : N -> P W unit
}.
Arguments server_create_folder {W}.
Arguments folder_name {W}.
Arguments get_host {W}.
Arguments RefreshNetworkSystem {W}.
Arguments create_portgroup {W}.
Arguments get_vm {W}.
Arguments generate_clone_spec {W}.
Arguments clone_vm {W}.
Arguments vm_network {W}.
Arguments get_portgroup {W}.
Arguments edit_nic {W}.
Arguments set_note {W}.
Arguments create_snapshot {W}.
Arguments find_in_folder {W}.
Arguments is_template {W}.
Arguments convert_to_template {W}.

Definition master_prefix : string := "(MASTER) ".
Definition master_folder_name : string := "MASTER_FOLDERS".

Section Methods.

Variable W : Type.

(** The attributes [__init__] sets that the methods read; [networks] is
    the mapping of the specification. *)
Record VsphereInterface : Type := {
  services : yaml;
  networks : list (string * yaml);
  server : Vsphere W;
  root_folder : N
}.

Local Open Scope plat_scope.

Definition _create_master_networks (self : VsphereInterface)
                                   (net_type : string) : P W unit :=
  host <- get_host (server self) ;;
  RefreshNetworkSystem (server self) host ;;
  nets <- pure (item (YDict (networks self)) net_type) ;;
  entries <- pure (lift (items nets)) ;;
  for_eachP (fun '(name, config) =>
    has_vlan <- pure (contains_key "vlan" config) ;;
    vlan <- (if has_vlan then pure (item config "vlan")
             else retP (YInt 0)) ;;
    vswitch <- pure (item config "vswitch") ;;
    create_portgroup (server self) name host vswitch vlan) entries.

(** The clone of the template of a service and the look-up of the new
    machine under its name: [None] when the clone does not show up. *)
Definition clone_master (self : VsphereInterface) (master_folder : N)
                        (vm_name : string) (template_name : yaml)
  : P W (option N) :=
  template <- get_vm (server self) template_name ;;
  clone_spec <- generate_clone_spec (server self) ;;
  clone_vm (server self) template master_folder vm_name clone_spec ;;
  get_vm (server self) (YStr vm_name).

(** Configuration of a master after its clone: interfaces, note and
    snapshot. *)
Definition configure_master (self : VsphereInterface) (new_vm : N)
                            (service_config : yaml) : P W unit :=
  declared <- pure (item service_config "networks") ;;
  n <- pure (lift (py_len declared)) ;;
  attached <- vm_network (server self) new_vm ;;
  (if Nat.eqb n (List.length attached) then
     declared <- pure (item service_config "networks") ;;
     n <- pure (lift (py_len declared)) ;;
     pairs <- pure (lift (zip_int declared n)) ;;
     for_eachP (fun '(net, i) =>
       port_group <- get_portgroup (server self) net ;;
       edit_nic (server self) new_vm i port_group net) pairs
   else retP tt) ;;
  has_note <- pure (contains_key "note" service_config) ;;
  (if has_note then
     note <- pure (item service_config "note") ;;
     set_note (server self) new_vm note
   else retP tt) ;;
  create_snapshot (server self) new_vm "post-clone"
    "Clean snapshot taken after cloning and configuration.".

(** Body of the service loop of [create_masters]. *)
Definition master_body (self : VsphereInterface) (master_folder : N)
                       (service_name : string) (service_config : yaml)
  : P W unit :=
  has_template <- pure (contains_key "template" service_config) ;;
  if has_template then
    template_name <- pure (item service_config "template") ;;
    pure (logging INFO "Creating master for service %s from template %s"
            [YStr service_name; template_name]) ;;
    let vm_name := (master_prefix ++ service_name)%string in
    new_vm <- clone_master self master_folder vm_name template_name ;;
    match new_vm with
    | None =>
        pure (logging ERROR "Did not successfully clone VM %s" [YStr vm_name])
    | Some new_vm => configure_master self new_vm service_config
    end
  else retP tt.

Definition create_masters (self : VsphereInterface) : P W unit :=
  master_folder <- server_create_folder (server self) master_folder_name
                                        (root_folder self) ;;
  root_name <- folder_name (server self) (root_folder self) ;;
  pure (logging INFO "Created master folder %s under folder %s"
          [YStr master_folder_name; root_name]) ;;
  for_eachP (fun '(net_type, _) => _create_master_networks self net_type)
            (networks self) ;;
  entries <- pure (lift (items (services self))) ;;
  for_eachP (fun '(service_name, service_config) =>
    master_body self master_folder service_name service_config) entries.

Definition deploy_environment (self : VsphereInterface) : P W unit :=
  pure (logging INFO "Verifying masters and converting to templates..." []) ;;
  entries <- pure (lift (items (services self))) ;;
  for_eachP (fun '(service_name, service_config) =>
    has_template <- pure (contains_key "template" service_config) ;;
    if has_template then
      vm <- get_vm (server self) (YStr (master_prefix ++ service_name)%string) ;;
      match vm with
      | Some vm =>
          pure (logging DEBUG
                  "Verified master %s exists. Converting to template..."
                  [YStr service_name]) ;;
          convert_to_template (server self) vm ;;
          pure (logging DEBUG "Converted master %s to template. Verifying..."
                  [YStr service_name]) ;;
          converted <- is_template (server self) vm ;;
          if negb converted then
            pure (logging ERROR "Master %s did not convert to template!"
                    [YStr service_name])
          else retP tt
      | None =>
          pure (logging ERROR "Could not find master %s" [YStr service_name])
      end
    else retP tt) entries.

Definition cleanup_masters (self : VsphereInterface) (network_cleanup : bool)
  : P W unit :=
  master_folder <- find_in_folder (server self) (root_folder self)
                                  master_folder_name ;;
  match master_folder with
  | None => raiseP AttributeError
  | Some master_folder =>
      master_name <- folder_name (server self) master_folder ;;
      root_name <- folder_name (server self) (root_folder self) ;;
      pure (logging INFO
              "Found master folder %s under folder %s, proceeding with cleanup..."
              [master_name; root_name]) ;;
      if network_cleanup then retP tt else retP tt
  end.

Definition cleanup_environment (self : VsphereInterface)
                               (network_cleanup : bool) : P W unit :=
  if network_cleanup then retP tt else retP tt.

#[export] Instance VsphereInterface_platform
  : Platform.PlatformInterface W VsphereInterface := {
  Platform.create_masters := create_masters;
  Platform.deploy_environment := deploy_environment;
  Platform.cleanup_masters := cleanup_masters;
  Platform.cleanup_environment := cleanup_environment
}.

End Methods.
End VsphereInterface.

(** ** Sample environments

    Small implementations of the libraries and of the platform, and a few
    documents, on which the examples below are evaluated. *)

Module Sample.

Inductive space : Type := Loopback | Multicast | Public | Private.

(** Five networks are known by their CIDR; other strings are malformed. *)
Definition parse (v : yaml) : result space :=
  match v with
  | YStr s =>
      if String.eqb s "127.0.0.0/8" then inr Loopback
      else if String.eqb s "224.0.0.0/4" then inr Multicast
      else if String.eqb s "8.8.8.0/24" then inr Public
      else if String.eqb s "10.0.0.0/8" then inr Private
      else if String.eqb s "192.168.1.0/24" then inr Private
      else inl AddrFormatError
  | _ => inl TypeError
  end.

Definition net : netaddr := {|
  network := space;
  IPNetwork := parse;
  is_reserved := fun _ => false;
  is_multicast := fun n => match n with Multicast => true | _ => false end;
  is_loopback := fun n => match n with Loopback => true | _ => false end;
  is_private := fun n => match n with Private => true | _ => false end
|}.

Definition infra : yaml :=
  YDict [("vmware-vsphere",
          YDict [("hostname", YStr "vcenter.example.org");
                 ("port", YInt 443);
                 ("login-file", YStr "logins.json");
                 ("datacenter", YStr "Lab");
                 ("datastore", YStr "Datastore");
                 ("server-root", YStr "ADLES");
                 ("vswitch", YStr "vSwitch0");
                 ("template-folder", YStr "Templates")])].

Definition sections : list (string * yaml) :=
        [("metadata",
          YDict [("name", YStr "Tutorial"); ("prefix", YStr "TUT");
                 ("infra-file", YStr "infra.yaml");
                 ("description", YStr "A first exercise");
                 ("version", YStr "0.1"); ("folder-name", YStr "tutorial")]);
         ("groups",
          YDict [("Students", YDict [("ad-group", YStr "Students")]);
                 ("Instructors", YDict [("user-list", YList [YStr "alice"])])]);
         ("services",
          YDict [("win10", YDict [("template", YStr "Windows 10")])]);
         ("resources", YDict [("lab", YStr "L1"); ("resource", YStr "R1")]);
         ("networks",
          YDict [("unique-networks",
                  YDict [("lan", YDict [("subnet", YStr "192.168.1.0/24");
                                        ("vlan", YInt 100)])]);
                 ("generic-networks",
                  YDict [("dmz", YDict [("subnet", YStr "10.0.0.0/8")])])]);
         ("folders",
          YDict [("exercise",
                  YDict [("description", YStr "Blue team");
                         ("workstations",
                          YDict [("group", YStr "Students");
                                 ("instances", YInt 5);
                                 ("services",
                                  YDict [("ws",
                                          YDict [("service", YStr "win10");
                                                 ("networks",
                                                  YList [YStr "lan"])])])])])])].

Definition exercise : yaml := YDict sections.

(** The same document with a section that is not one of the six. *)
Definition exercise_with_unknown : yaml :=
  YDict (sections ++ [("scoreboard", YDict [("url", YStr "http://sb")])]).

(** Decimal digits only. *)
Fixpoint digits (s : string) (acc : Z) : option Z :=
  match s with
  | EmptyString => Some acc
  | String c rest =>
      let n := nat_of_ascii c in
      if (48 <=? n)%nat && (n <=? 57)%nat
      then digits rest (10 * acc + Z.of_nat (n - 48))%Z
      else None
  end.

Definition os : host := {|
  path_exists := fun p =>
    inr (str_eq "infra.yaml" p || str_eq "exercise.yaml" p
         || str_eq "empty.yaml" p);
  basename := fun p => inr p;
  open_load := fun p =>
    if str_eq "infra.yaml" p then inr (Loaded infra)
    else if str_eq "exercise.yaml" p then inr (Loaded exercise)
    else if str_eq "empty.yaml" p then inr (Loaded (YDict []))
    else inl OSError;
  read_json := fun p =>
    if str_eq "logins.json" p
    then ret (YDict [("user", YStr "admin"); ("pass", YStr "secret")])
    else ret YNull;
  int_of_str := fun s =>
    match s with
    | EmptyString => None
    | _ => digits s 0
    end
|}.

(** A folder tree whose leaf, three levels deep, holds reserved keys
    only. *)
Definition folders : yaml :=
  YDict [("exercise",
          YDict [("teams",
                  YDict [("blue",
                          YDict [("group", YStr "Students");
                                 ("instances",
                                  YDict [("number", YInt 2)])])])])].

(** A case mapping for ASCII and for the accented capitals of Latin-1 in
    UTF-8: the two bytes [C3 80] to [C3 9E], the multiplication sign
    [C3 97] apart, stand for a capital, whose small letter is [C3 A0] to
    [C3 BE]. *)
Fixpoint latin_lower (s : string) : string :=
  match s with
  | EmptyString => EmptyString
  | String c rest =>
      if Nat.eqb (nat_of_ascii c) 195 then
        match rest with
        | String d rest' =>
            let n := nat_of_ascii d in
            String c
              (String (if (128 <=? n)%nat && (n <=? 158)%nat
                          && negb (Nat.eqb n 151)
                       then ascii_of_nat (n + 32) else d)
                      (latin_lower rest'))
        | EmptyString => String c EmptyString
        end
      else String (ascii_lower_char c) (latin_lower rest)
  end.

Definition latin : unicode.
Proof.
  refine {| lower := latin_lower; lower_ascii := _ |}.
  induction s as [| c rest IH]; [reflexivity |].
  cbn [ascii_only latin_lower ascii_lower]. intros H.
  apply andb_prop in H as [Hc Hrest].
  destruct (Nat.eqb_spec (nat_of_ascii c) 195) as [E | _].
  - rewrite E in Hc. discriminate Hc.
  - now rewrite (IH Hrest).
Defined.

(** A folder with one child folder and one machine. *)
Definition inventory : list FolderUtils.entity :=
  [FolderUtils.VirtualMachine 11 "router";
   FolderUtils.Folder
     (FolderUtils.MkFolder 12 "Masters"
        [FolderUtils.VirtualMachine 13 "Hidden";
         FolderUtils.Folder (FolderUtils.MkFolder 14 "deep" [])])].

(** [ECOLE] and [ecole] with an acute accent on the first letter, in
    UTF-8. *)
Definition ECOLE : string :=
  String (ascii_of_nat 195) (String (ascii_of_nat 137) "COLE").
Definition ecole : string :=
  String (ascii_of_nat 195) (String (ascii_of_nat 169) "cole").

(** A folder with a machine and a folder whose name is not ASCII. *)
Definition school : list FolderUtils.entity :=
  [FolderUtils.VirtualMachine 21 "x";
   FolderUtils.Folder
     (FolderUtils.MkFolder 22 ecole [FolderUtils.VirtualMachine 23 "x"])].

(** A platform with a single folder, whose children are the world. *)
Definition view (w : list FolderUtils.entity) (h : N) : FolderUtils.folder :=
  FolderUtils.MkFolder h "root" w.

Definition CreateFolder (h : N) (name : string)
  : P (list FolderUtils.entity) FolderUtils.entity :=
  fun w =>
    match name with
    | EmptyString => (w, raise (InvalidName name))
    | _ =>
        let created :=
          FolderUtils.Folder
            (FolderUtils.MkFolder (100 + N.of_nat (List.length w)) name []) in
        (w ++ [created], ret created)
    end.

(** A tracing platform interface: the world is the list of the platform
    methods called, with the flag they were given. *)
Inductive call : Type :=
| CreateMasters
| DeployEnvironment
| CleanupMasters (network_cleanup : bool)
| CleanupEnvironment (network_cleanup : bool).

#[export] Instance tracing : Platform.PlatformInterface (list call) unit := {
  Platform.create_masters := fun _ w => (w ++ [CreateMasters], ret tt);
  Platform.deploy_environment := fun _ w => (w ++ [DeployEnvironment], ret tt);
  Platform.cleanup_masters := fun _ nc w => (w ++ [CleanupMasters nc], ret tt);
  Platform.cleanup_environment :=
    fun _ nc w => (w ++ [CleanupEnvironment nc], ret tt)
}.

(** A server whose world is the list of its machines.  [clone_vm] follows
    [vm_utils.clone_vm]: a template is not cloned without a resource pool,
    which the clone specification of this server does not have. *)
Record machine : Type := {
  m_name : string;
  m_template : bool;
  m_network : list N
}.

Definition find_machine (name : yaml) (w : list machine) : option N :=
  (fix go (l : list machine) (i : N) : option N :=
     match l with
     | [] => None
     | m :: rest => if str_eq (m_name m) name then Some i
                    else go rest (i + 1)%N
     end) w 0%N.

Definition server : VsphereInterface.Vsphere (list machine) := {|
  VsphereInterface.server_create_folder := fun _ _ => retP 1%N;
  VsphereInterface.folder_name := fun _ => retP (YStr "root");
  VsphereInterface.get_host := retP 2%N;
  VsphereInterface.RefreshNetworkSystem := fun _ => retP tt;
  VsphereInterface.create_portgroup := fun _ _ _ _ => retP tt;
  VsphereInterface.get_vm := fun name w => (w, ret (find_machine name w));
  VsphereInterface.generate_clone_spec := retP YNull;
  VsphereInterface.clone_vm := fun vm _ name _ w =>
    match vm with
    | None => (w, raise AttributeError)
    | Some i =>
        match nth_error w (N.to_nat i) with
        | None => (w, raise AttributeError)
        | Some m =>
            if m_template m then
              (w, logging ERROR
                    "Cannot clone Template %s without specifying a resource pool"
                    [YStr (m_name m)])
            else
              (w ++ [{| m_name := name; m_template := false;
                        m_network := m_network m |}],
               logging INFO "Cloning VM %s to folder %s with name %s"
                 [YStr (m_name m); YStr "MASTER_FOLDERS"; YStr name])
        end
    end;
  VsphereInterface.vm_network := fun i w =>
    match nth_error w (N.to_nat i) with
    | Some m => (w, ret (m_network m))
    | None => (w, raise AttributeError)
    end;
  VsphereInterface.get_portgroup := fun _ => retP None;
  VsphereInterface.edit_nic := fun _ _ _ _ => retP tt;
  VsphereInterface.set_note := fun _ _ => retP tt;
  VsphereInterface.create_snapshot := fun _ _ _ => retP tt;
  VsphereInterface.find_in_folder := fun _ _ => retP None;
  VsphereInterface.is_template := fun _ => retP false;
  VsphereInterface.convert_to_template := fun _ => retP tt
|}.

Definition machines : list machine :=
  [{| m_name := "win-template"; m_template := true; m_network := [] |};
   {| m_name := "debian"; m_template := false; m_network := [] |}].

(** Three services: the template of the first is not cloned; the second
    declares no networks; the third is complete. *)
Definition services : yaml :=
  YDict [("dc", YDict [("template", YStr "win-template");
                       ("networks", YList [])]);
         ("web", YDict [("template", YStr "debian")]);
         ("db", YDict [("template", YStr "debian");
                       ("networks", YList [YStr "lan"])])].

Definition vsphere : VsphereInterface.VsphereInterface (list machine) := {|
  VsphereInterface.services := services;
  VsphereInterface.networks := [];
  VsphereInterface.server := server;
  VsphereInterface.root_folder := 0%N
|}.

End Sample.

(** ** Notions used in the statements *)

(** A mapping without the items of the given keys. *)
Definition without (ks : list string) (d : list (string * yaml))
  : list (string * yaml) :=
  filter (fun kv => negb (mem (fst kv) ks)) d.

(** How many of the three membership keys a group carries. *)
Definition mechanisms (g : list (string * yaml)) : nat :=
  List.length (filter (fun k => has_key k g)
                      ["ad-group"; "filename"; "user-list"]).

(** One when the group has an [instances] entry that is not an integer. *)
Definition bad_instances (g : list (string * yaml)) : nat :=
  match lookup "instances" g with
  | Some i => if is_int i then 0 else 1
  | None => 0
  end.

(** The checker [check_syntax] runs for a specification type. *)
Definition verifier (net : netaddr) (os : host) (spec_type : string)
  : option (yaml -> V (nat * nat)) :=
  if String.eqb spec_type "exercise"
  then Some (Adles.verify_exercise_syntax net os)
  else if String.eqb spec_type "package"
  then Some Adles.verify_package_syntax
  else if String.eqb spec_type "infra"
  then Some (Adles.verify_infra_syntax os)
  else None.

(** An item is the one [find_in_folder] looks for: its lowercased name is
    [name'] and it is of the type asked for, if one is. *)
Definition wanted (py : unicode) (name' : string)
                  (vimtype : option FolderUtils.vimtype)
                  (item : FolderUtils.entity) : bool :=
  match FolderUtils.name item with
  | Some n => String.eqb (lower py n) name'
  | None => false
  end
  && match vimtype with
     | Some t => FolderUtils.isinstance item t
     | None => true
     end.

(** Every record a computation logs satisfies [Q]. *)
Definition logs {A} (Q : record -> Prop) (m : V A) : Prop :=
  Forall Q (fst m).

(** The record is not an [Invalid configuration] error about a reserved
    key of the folder checker. *)
Definition not_invalid_reserved (r : record) : Prop :=
  fmt r = "Invalid configuration %s" ->
  forall k, args r = [YStr k] -> mem k Adles.keywords = false.

(** The log of a computation, before that of what follows it. *)
Definition prepend {A} (log : list record) (m : V A) : V A :=
  (log ++ fst m, snd m).

(** How many names of the list are not keys of the mapping. *)
Definition missing (value_list : list string) (d : list (string * yaml)) : nat :=
  List.length (filter (fun v => negb (has_key v d)) value_list).

(** The counts a computation returns, read through [proj], are the counts
    [(e0, w0)] plus the numbers of errors and of warnings it logs. *)
Definition tallied {A} (proj : A -> nat * nat) (e0 w0 : nat) (m : V A) : Prop :=
  forall log a, m = (log, inr a) ->
  proj a = (e0 + count_level ERROR log, w0 + count_level WARNING log).

(** The platforms [verify_infra_syntax] knows. *)
Definition platforms : list string :=
  ["vmware-vsphere"; "docker"; "amazon-aws"; "digital-ocean"; "hyper-v"].

(** The keys [verify_infra_syntax] looks for in a vSphere configuration. *)
Definition vsphere_warnings : list string :=
  ["port"; "login-file"; "datacenter"; "datastore"; "server-root"; "vswitch"].
Definition vsphere_errors : list string := ["hostname"; "template-folder"].

(** Every value a computation returns satisfies [Q]. *)
Definition ensures {A} (Q : A -> Prop) (m : V A) : Prop :=
  forall log a, m = (log, inr a) -> Q a.

(** Further sample documents and hosts. *)
Module Fixtures.

(** Folders with three faults: a folder that is not a mapping, and a base
    folder without group whose service is unnamed. *)
Definition faulty_folders : yaml :=
  YDict [("notes", YInt 5);
         ("lab", YDict [("services", YDict [("web", YDict [])])])].

(** A host where [broken.yaml] exists and is not YAML, and nothing else
    exists. *)
Definition broken_os : host := {|
  path_exists := fun p => inr (str_eq "broken.yaml" p);
  basename := fun p => inr p;
  open_load := fun p =>
    if str_eq "broken.yaml" p
    then inr (YAMLError (Some (2, 0)%Z) (YStr "mapping values are not allowed"))
    else inl OSError;
  read_json := fun _ => ret YNull;
  int_of_str := fun _ => None
|}.

End Fixtures.

(** The snapshot is in the forest: it is one of the list, or it is in the
    forest below one of the list. *)
Inductive within : VmUtils.snapshot_tree -> list VmUtils.snapshot_tree -> Prop :=
| within_here (s : VmUtils.snapshot_tree) (l : list VmUtils.snapshot_tree) :
    In s l -> within s l
| within_below (s t : VmUtils.snapshot_tree) (l : list VmUtils.snapshot_tree) :
    In t l -> within s (VmUtils.childSnapshotList t) -> within s l.

(** The number of snapshots of a forest. *)
Fixpoint snapshot_count (t : VmUtils.snapshot_tree) : nat :=
  match t with
  | VmUtils.SnapshotTree _ _ children =>
      S (list_sum (map snapshot_count children))
  end.

(** The item is somewhere below the folder: a child of it, or below one of
    its child folders. *)
Inductive inside : FolderUtils.entity -> FolderUtils.folder -> Prop :=
| inside_child (item : FolderUtils.entity) (f : FolderUtils.folder) :
    In item (FolderUtils.childEntity f) -> inside item f
| inside_deeper (item : FolderUtils.entity) (sub f : FolderUtils.folder) :
    In (FolderUtils.Folder sub) (FolderUtils.childEntity f) ->
    inside item sub -> inside item f.

(** What a platform computation leaves behind, its log apart: the world
    and the result. *)
Definition outcome {W A} (r : W * V A) : W * result A := (fst r, snd (snd r)).

(** A machine with three snapshots, each taken from the one before, and
    working tools. *)
Module Machines.

Definition snapshots : list VmUtils.snapshot_tree :=
  [VmUtils.SnapshotTree "base" 1
     [VmUtils.SnapshotTree "patched" 2
        [VmUtils.SnapshotTree "configured" 3 []]]].

Definition dc : VmUtils.VirtualMachine := {|
  VmUtils.name := "dc";
  VmUtils.toolsStatus := "toolsOK";
  VmUtils.snapshot := Some snapshots
|}.

End Machines.

(** The item is a folder whose name is [part] in lower case. *)
Definition folder_named (py : unicode) (part : string)
                        (item : FolderUtils.entity) : bool :=
  match item with
  | FolderUtils.Folder sub =>
      String.eqb (lower py (FolderUtils.folder_name sub)) part
  | _ => false
  end.

(** The machines below a folder whose names start with the prefix, in the
    order of the inventory, a folder standing for what is below it when
    [recursive] is set. *)
Fixpoint machines_below (vm_prefix : option string) (recursive : bool)
                        (f : FolderUtils.folder) : list FolderUtils.entity :=
  match f with
  | FolderUtils.MkFolder _ _ children =>
      flat_map (fun item =>
                  match item with
                  | FolderUtils.VirtualMachine _ _ =>
                      if FolderUtils.has_prefix vm_prefix
                           (FolderUtils.name item)
                      then [item] else []
                  | FolderUtils.Folder sub =>
                      if recursive
                      then machines_below vm_prefix recursive sub else []
                  | FolderUtils.Other _ _ => []
                  end) children
  end.

(** The folders below a folder whose names start with the prefix, each
    before what is below it. *)
Fixpoint folders_below (folder_prefix : option string) (recursive : bool)
                       (f : FolderUtils.folder) : list FolderUtils.entity :=
  match f with
  | FolderUtils.MkFolder _ _ children =>
      flat_map (fun item =>
                  match item with
                  | FolderUtils.Folder sub =>
                      (if FolderUtils.has_prefix folder_prefix
                            (FolderUtils.name item)
                       then [item] else [])
                      ++ (if recursive
                          then folders_below folder_prefix recursive sub
                          else [])
                  | _ => []
                  end) children
  end.

(** * Properties *)

(** ** The monads *)

Lemma bind_ret_l {A B} (a : A) (f : A -> V B) : bind (ret a) f = f a.
Proof. unfold bind, ret. now destruct (f a). Qed.

Lemma bind_raise {A B} (e : exn) (f : A -> V B) : bind (raise e) f = raise e.
Proof. reflexivity. Qed.

Lemma bind_ret_r {A} (m : V A) : bind m ret = m.
Proof.
  destruct m as [log [e | a]]; unfold bind, ret; [reflexivity |].
  now rewrite app_nil_r.
Qed.

Lemma bind_assoc {A B C} (m : V A) (f : A -> V B) (g : B -> V C) :
  bind (bind m f) g = bind m (fun a => bind (f a) g).
Proof.
  destruct m as [log [e | a]]; unfold bind; [reflexivity |].
  destruct (f a) as [log' [e | b]]; [reflexivity |].
  destruct (g b) as [log'' r]. now rewrite app_assoc.
Qed.

Lemma bind_logging {B} (l : level) (f : string) (a : list yaml)
      (k : unit -> V B) :
  bind (logging l f a) k = prepend [Log l f a] (k tt).
Proof. unfold bind, logging, prepend. now destruct (k tt). Qed.

Lemma bind_ok {A B} (log : list record) (a : A) (k : A -> V B) :
  bind (log, inr a) k = prepend log (k a).
Proof. unfold bind, prepend. now destruct (k a). Qed.

Lemma bind_err {A B} (log : list record) (e : exn) (k : A -> V B) :
  bind (log, inl e) k = (log, inl e).
Proof. reflexivity. Qed.

Lemma bind_prepend {A B} (log : list record) (m : V A) (k : A -> V B) :
  bind (prepend log m) k = prepend log (bind m k).
Proof.
  destruct m as [log' [e | a]]; unfold bind, prepend; cbn; [reflexivity |].
  destruct (k a) as [log'' r]; cbn. now rewrite app_assoc.
Qed.

Lemma prepend_nil {A} (m : V A) : prepend [] m = m.
Proof. now destruct m. Qed.

Lemma prepend_prepend {A} (l1 l2 : list record) (m : V A) :
  prepend l1 (prepend l2 m) = prepend (l1 ++ l2) m.
Proof. unfold prepend; cbn. now rewrite app_assoc. Qed.

Lemma bind_ext {A B} (m : V A) (f g : A -> V B) :
  (forall a, f a = g a) -> bind m f = bind m g.
Proof.
  intros E. destruct m as [log [e | a]]; unfold bind; [reflexivity |].
  now rewrite E.
Qed.

Lemma for_each_nil {A St} (body : A -> St -> V St) (st : St) :
  for_each body [] st = ret st.
Proof. reflexivity. Qed.

Lemma for_each_cons {A St} (body : A -> St -> V St) (x : A) (l : list A)
      (st : St) :
  for_each body (x :: l) st = bind (body x st) (for_each body l).
Proof. reflexivity. Qed.

Lemma for_each_single {A St} (body : A -> St -> V St) (x : A) (st : St) :
  for_each body [x] st = body x st.
Proof.
  rewrite for_each_cons. etransitivity; [| apply bind_ret_r].
  apply bind_ext. intros st'. apply for_each_nil.
Qed.

Lemma for_each_app {A St} (body : A -> St -> V St) (l1 l2 : list A) (st : St) :
  for_each body (l1 ++ l2) st = bind (for_each body l1 st) (for_each body l2).
Proof.
  revert st; induction l1 as [| x l1 IH]; intros st.
  - rewrite for_each_nil, bind_ret_l. reflexivity.
  - rewrite <- app_comm_cons, !for_each_cons, bind_assoc.
    apply bind_ext. intros st'. apply IH.
Qed.

(** ** Python operations on mappings *)

Lemma contains_key_dict (x : string) (d : list (string * yaml)) :
  contains_key x (YDict d)
  = ret (match lookup x d with Some _ => true | None => false end).
Proof. reflexivity. Qed.

Lemma item_dict (k : string) (d : list (string * yaml)) :
  item (YDict d) k = match lookup k d with
                     | Some v => ret v
                     | None => raise KeyError
                     end.
Proof. unfold item, lift, getitem, ret, raise. now destruct (lookup k d). Qed.

Lemma has_key_lookup (k : string) (d : list (string * yaml)) (v : yaml) :
  lookup k d = Some v -> has_key k d = true.
Proof. unfold has_key. now intros ->. Qed.

Lemma has_key_false (k : string) (d : list (string * yaml)) :
  has_key k d = false -> lookup k d = None.
Proof. unfold has_key. now destruct (lookup k d). Qed.

Lemma has_key_true (k : string) (d : list (string * yaml)) :
  has_key k d = true -> exists v, lookup k d = Some v.
Proof. unfold has_key. destruct (lookup k d) as [v |]; [now exists v | discriminate]. Qed.

Lemma lookup_without (k : string) (ks : list string) (d : list (string * yaml)) :
  lookup k (without ks d) = if mem k ks then None else lookup k d.
Proof.
  unfold without.
  induction d as [| [k' v] d IH]; cbn [filter lookup fst].
  - now destruct (mem k ks).
  - destruct (mem k' ks) eqn:Ek'; cbn [negb lookup].
    + rewrite IH. destruct (String.eqb_spec k k') as [-> | _]; [| reflexivity].
      now rewrite Ek'.
    + destruct (String.eqb_spec k k') as [-> | _].
      * now rewrite Ek'.
      * apply IH.
Qed.

Lemma lookup_app (k : string) (d1 d2 : list (string * yaml)) :
  lookup k (d1 ++ d2) = match lookup k d1 with
                        | Some v => Some v
                        | None => lookup k d2
                        end.
Proof.
  induction d1 as [| [k' v] d1 IH]; cbn; [reflexivity |].
  now destruct (String.eqb k k').
Qed.

Create Rewrite HintDb py.
#[local] Hint Rewrite @bind_ret_l @bind_raise @bind_logging @bind_prepend
  @prepend_nil @prepend_prepend contains_key_dict item_dict : py.

(** Evaluation of a checker on a mapping whose relevant items are known. *)
Ltac py_eval :=
  repeat (autorewrite with py; cbn [negb andb orb is_int is_str is_list
                                   is_dict is_bool is_none app fst snd]).

(** ** Groups *)

Lemma mechanisms_none (g : list (string * yaml)) :
  mechanisms g = 0 ->
  has_key "ad-group" g = false /\ has_key "filename" g = false
  /\ has_key "user-list" g = false.
Proof.
  unfold mechanisms; cbn [filter].
  destruct (has_key "ad-group" g), (has_key "filename" g),
    (has_key "user-list" g); cbn; intros E; try discriminate; auto.
Qed.

(** Evaluation of a checker by cases on the items it reads. *)
Ltac py_crush :=
  repeat (py_eval;
          try match goal with
              | H : lookup ?k ?g = _ |- context [lookup ?k ?g] => rewrite H
              | H : is_int ?x = _ |- context [is_int ?x] => rewrite H
              | H : is_str ?x = _ |- context [is_str ?x] => rewrite H
              | H : is_list ?x = _ |- context [is_list ?x] => rewrite H
              | |- context [match lookup ?k ?g with _ => _ end] =>
                  destruct (lookup k g) eqn:?
              | |- context [if is_int ?x then _ else _] =>
                  destruct (is_int x) eqn:?
              | |- context [if is_str ?x then _ else _] =>
                  destruct (is_str x) eqn:?
              | |- context [if is_list ?x then _ else _] =>
                  destruct (is_list x) eqn:?
              end);
  unfold prepend, ret, raise; cbn [fst snd app];
  try congruence; try (repeat f_equal; lia).
(** A group that names two mechanisms at once passes both checkers without
    an error and without a log record. *)
Lemma two_mechanisms_no_error :
  let g := [("ad-group", YStr "Blue Team");
            ("user-list", YList [YStr "alice"; YStr "bob"])] in
  mechanisms g = 2
  /\ Adles._verify_groups_syntax Sample.os (YDict [("Blue", YDict g)])
     = ([], inr (0, 0))
  /\ Automation._verify_groups_syntax (YDict [("Blue", YDict g)])
     = ([], inr (0, 0)).
Proof. repeat split; reflexivity. Qed.

(** C1, as the checkers have it.  For a group given as a mapping, in
    either checker, with the counts [(e, w)] reached so far:
    - with none of [ad-group], [filename], [user-list] the error count
      grows by exactly one for the membership (and by one more when a
      template group has an [instances] entry that is not an integer); for a
      group that is not a template the log is that single error;
    - with several of them only the first in the order [ad-group],
      [filename], [user-list] is read: the outcome is that of the group
      without the later ones, and an [ad-group] that is a string gives no
      membership error whatever else is present;
    - a group that is not a template, has neither [ad-group] nor
      [filename], and whose [user-list] is not a sequence gives exactly
      one error. *)
Theorem group_membership_rule (os : host) (key : string)
        (g : list (string * yaml)) (e w : nat) :
  (mechanisms g = 0 ->
   snd (Adles.group_body os key (YDict g) (e, w))
   = inr (e + bad_instances g + 1, w)
   /\ snd (Automation.group_body key (YDict g) (e, w))
      = inr (e + bad_instances g + 1, w)
   /\ (lookup "instances" g = None ->
       let log := [Log ERROR "Invalid user specification method for group %s"
                       [YStr key]] in
       Adles.group_body os key (YDict g) (e, w) = (log, inr (e + 1, w))
       /\ Automation.group_body key (YDict g) (e, w) = (log, inr (e + 1, w))))
  /\ (has_key "ad-group" g = true ->
      let g' := without ["filename"; "user-list"] g in
      Adles.group_body os key (YDict g) (e, w)
      = Adles.group_body os key (YDict g') (e, w)
      /\ Automation.group_body key (YDict g) (e, w)
         = Automation.group_body key (YDict g') (e, w)
      /\ snd (Automation.group_body key (YDict g) (e, w))
         = inr (e + bad_instances g, w)
      /\ (forall a, lookup "ad-group" g = Some a -> is_str a = true ->
          snd (Adles.group_body os key (YDict g) (e, w))
          = inr (e + bad_instances g, w)))
  /\ (has_key "ad-group" g = false -> has_key "filename" g = true ->
      let g' := without ["user-list"] g in
      Adles.group_body os key (YDict g) (e, w)
      = Adles.group_body os key (YDict g') (e, w)
      /\ Automation.group_body key (YDict g) (e, w)
         = Automation.group_body key (YDict g') (e, w)
      /\ snd (Automation.group_body key (YDict g) (e, w))
         = inr (e + bad_instances g, w))
  /\ (lookup "instances" g = None ->
      has_key "ad-group" g = false -> has_key "filename" g = false ->
      forall u, lookup "user-list" g = Some u -> is_list u = false ->
      let log := [Log ERROR
                      "Username specification must be a list for group %s"
                      [YStr key]] in
      Adles.group_body os key (YDict g) (e, w) = (log, inr (e + 1, w))
      /\ Automation.group_body key (YDict g) (e, w) = (log, inr (e + 1, w))).
Proof.
  split; [| split; [| split]].
  - intros (Ha & Hf & Hu)%mechanisms_none.
    apply has_key_false in Ha, Hf, Hu.
    unfold Adles.group_body, Automation.group_body, bad_instances.
    repeat split; try intros Hi; py_crush.
  - intros [a Ha]%has_key_true g'. subst g'.
    unfold Adles.group_body, Automation.group_body, bad_instances.
    repeat split;
      try (intros a' Ha' Hstr; rewrite Ha in Ha'; injection Ha' as <-);
      py_eval;
      rewrite ?lookup_without; cbn [mem existsb String.eqb Ascii.eqb
                                    Bool.eqb orb];
      py_crush.
  - intros Ha%has_key_false [f Hf]%has_key_true g'. subst g'.
    unfold Adles.group_body, Automation.group_body, bad_instances.
    repeat split; py_eval;
      rewrite ?lookup_without; cbn [mem existsb String.eqb Ascii.eqb
                                    Bool.eqb orb];
      py_crush.
  - intros Hi Ha%has_key_false Hf%has_key_false u Hu Hl log. subst log.
    unfold Adles.group_body, Automation.group_body.
    split; py_crush.
Qed.

Lemma group_membership_rule_witness :
  Adles.group_body Sample.os "Red" (YDict [("description", YStr "none")]) (0, 0)
  = ([Log ERROR "Invalid user specification method for group %s"
          [YStr "Red"]], inr (1, 0))
  /\ Automation.group_body "Red"
       (YDict [("user-list", YStr "alice")]) (2, 0)
     = ([Log ERROR "Username specification must be a list for group %s"
             [YStr "Red"]], inr (3, 0)).
Proof.
  split.
  - destruct (group_membership_rule Sample.os "Red"
                [("description", YStr "none")] 0 0) as [H _].
    destruct (H eq_refl) as (_ & _ & H'). apply (H' eq_refl).
  - destruct (group_membership_rule Sample.os "Red"
                [("user-list", YStr "alice")] 2 0) as (_ & _ & _ & H).
    apply (H eq_refl eq_refl eq_refl (YStr "alice") eq_refl eq_refl).
Defined.

(** Each group adds to the counts reached on the groups before it. *)
Lemma groups_step (os : host) (gs : list (string * yaml)) (k : string)
      (v : yaml) :
  Adles._verify_groups_syntax os (YDict (gs ++ [(k, v)]))
  = bind (Adles._verify_groups_syntax os (YDict gs)) (Adles.group_body os k v)
  /\ Automation._verify_groups_syntax (YDict (gs ++ [(k, v)]))
     = bind (Automation._verify_groups_syntax (YDict gs))
            (Automation.group_body k v).
Proof.
  unfold Adles._verify_groups_syntax, Automation._verify_groups_syntax, items,
    lift.
  change (@pair (list record) (result (list (string * yaml))) []
            (inr (gs ++ [(k, v)]))) with (ret (gs ++ [(k, v)])).
  change (@pair (list record) (result (list (string * yaml))) [] (inr gs))
    with (ret gs).
  rewrite !bind_ret_l, !for_each_app.
  split; apply bind_ext; intros st; exact (for_each_single _ (k, v) st).
Qed.

(** ** Networks: the VLAN rule *)

(** A [vlan] entry under [base-networks] gives no error, be it below
    2000 or not. *)
Lemma vlan_under_base_networks_no_error :
  Adles._verify_network Sample.net Sample.os "base-networks"
    (YDict [("lan", YDict [("subnet", YStr "10.0.0.0/8");
                           ("vlan", YInt 100)]);
            ("wan", YDict [("subnet", YStr "192.168.1.0/24");
                           ("vlan", YInt 2500)])])
  = ([], inr (0, 0)).
Proof. reflexivity. Qed.

(** C2, as the checker has it.  For a network entry with a [vlan] item,
    with the counts [(e, w)] reached so far: under [unique-networks] a value
    that [int] turns into [n] gives one error when [n >= 2000] and nothing
    otherwise; under [generic-networks] it gives one error whatever the
    value; under any other network class it gives nothing. *)
Theorem vlan_rule (os : host) (name key : string)
        (d : list (string * yaml)) (v : yaml) (e w : nat) :
  lookup "vlan" d = Some v ->
  (name = "unique-networks" -> forall n, py_int os v = inr n ->
   Adles.check_vlan os name key (YDict d) (e, w)
   = if (2000 <=? n)%Z
     then ([Log ERROR "VLAN must be less than 2000 for network %s"
                [YStr key]], inr (e + 1, w))
     else ([], inr (e, w)))
  /\ (name = "generic-networks" ->
      Adles.check_vlan os name key (YDict d) (e, w)
      = ([Log ERROR "VLAN specification is not allowed for network %s"
              [YStr key]], inr (e + 1, w)))
  /\ (name <> "unique-networks" -> name <> "generic-networks" ->
      Adles.check_vlan os name key (YDict d) (e, w) = ([], inr (e, w))).
Proof.
  intros Hv. unfold Adles.check_vlan. repeat split.
  - intros -> n Hn. py_eval. rewrite Hv. py_eval.
    cbn [String.eqb Ascii.eqb Bool.eqb]. py_eval.
    unfold lift. rewrite Hn. change (@pair (list record) (result Z) [] (inr n))
      with (ret n). py_eval.
    destruct (2000 <=? n)%Z; py_crush.
  - intros ->. py_eval. rewrite Hv. cbn [String.eqb Ascii.eqb Bool.eqb].
    py_crush.
  - intros Hu Hg. py_eval. rewrite Hv.
    apply String.eqb_neq in Hu, Hg. rewrite Hu, Hg. py_crush.
Qed.

Lemma vlan_rule_witness :
  Adles.check_vlan Sample.os "unique-networks" "lan"
    (YDict [("vlan", YInt 2500)]) (0, 0)
  = ([Log ERROR "VLAN must be less than 2000 for network %s" [YStr "lan"]],
     inr (1, 0))
  /\ Adles.check_vlan Sample.os "unique-networks" "lan"
       (YDict [("vlan", YInt 100)]) (0, 0)
     = ([], inr (0, 0))
  /\ Adles.check_vlan Sample.os "generic-networks" "dmz"
       (YDict [("vlan", YInt 100)]) (0, 0)
     = ([Log ERROR "VLAN specification is not allowed for network %s"
             [YStr "dmz"]], inr (1, 0)).
Proof.
  split; [| split].
  - apply (proj1 (vlan_rule Sample.os "unique-networks" "lan"
                    [("vlan", YInt 2500)] (YInt 2500) 0 0 eq_refl)
             eq_refl 2500%Z eq_refl).
  - apply (proj1 (vlan_rule Sample.os "unique-networks" "lan"
                    [("vlan", YInt 100)] (YInt 100) 0 0 eq_refl)
             eq_refl 100%Z eq_refl).
  - apply (proj1 (proj2 (vlan_rule Sample.os "generic-networks" "dmz"
                           [("vlan", YInt 100)] (YInt 100) 0 0 eq_refl))
             eq_refl).
Defined.

(** ** Networks: the subnet rule *)

(** X21.  The subnet check of [adles/parser.py], case by case: an entry
    without [subnet] is one warning; a subnet that [IPNetwork] rejects is
    one error; a reserved, multicast or loopback subnet is one error; a
    subnet that is not private is one warning; a private one is nothing. *)
Lemma adles_subnet_rule (net : netaddr) (name key : string)
      (d : list (string * yaml)) (e w : nat) :
  (lookup "subnet" d = None ->
   Adles.check_subnet net name key (YDict d) (e, w)
   = ([Log WARNING "No subnet specified for %s %s" [YStr name; YStr key]],
      inr (e, w + 1)))
  /\ (forall cidr, lookup "subnet" d = Some cidr ->
      (IPNetwork net cidr = inl AddrFormatError ->
       Adles.check_subnet net name key (YDict d) (e, w)
       = ([Log ERROR "Invalid format for subnet '%s'" [cidr]],
          inr (e + 1, w)))
      /\ (forall subnet, IPNetwork net cidr = inr subnet ->
          Adles.check_subnet net name key (YDict d) (e, w)
          = if is_reserved net subnet || is_multicast net subnet
               || is_loopback net subnet
            then ([Log ERROR "%s %s is in a invalid IP address space"
                       [YStr name; YStr key]], inr (e + 1, w))
            else if is_private net subnet then ([], inr (e, w))
            else ([Log WARNING "Non-private subnet used for %s %s"
                       [YStr name; YStr key]], inr (e, w + 1)))).
Proof.
  unfold Adles.check_subnet. split; [| intros cidr Hc; split].
  - intros Hs. py_crush.
  - intros Hp. py_eval. rewrite Hc. py_eval.
    unfold lift. rewrite Hp. cbn. reflexivity.
  - intros subnet Hp. py_eval. rewrite Hc. py_eval.
    unfold lift. rewrite Hp. cbn.
    destruct (is_reserved net subnet || is_multicast net subnet
              || is_loopback net subnet); [reflexivity |].
    destruct (is_private net subnet); reflexivity.
Qed.

(** The same entry in [automation/parser.py]: the exception of
    [IPNetwork] leaves the checker. *)
Lemma automation_subnet_malformed (net : netaddr) (name key : string)
      (d : list (string * yaml)) (cidr : yaml) (e w : nat) :
  lookup "subnet" d = Some cidr ->
  IPNetwork net cidr = inl AddrFormatError ->
  Automation.network_body net name key (YDict d) (e, w)
  = ([], inl AddrFormatError).
Proof.
  intros Hc Hp. unfold Automation.network_body. py_eval. rewrite Hc. py_eval.
  unfold lift. rewrite Hp. reflexivity.
Qed.

(** C3 at a malformed subnet.  [adles/parser.py] counts one error;
    [automation/parser.py] raises [AddrFormatError] and returns no counts. *)
Theorem malformed_subnet_automation_raises :
  let network := YDict [("lan", YDict [("subnet", YStr "not-a-subnet")])] in
  Automation._verify_network Sample.net "generic-networks" network
  = ([], inl AddrFormatError)
  /\ Adles._verify_network Sample.net Sample.os "generic-networks" network
     = ([Log ERROR "Invalid format for subnet '%s'" [YStr "not-a-subnet"]],
        inr (1, 0)).
Proof. split; reflexivity. Qed.

(** ** Top-level sections *)

Lemma for_each_ext {A St} (body1 body2 : A -> St -> V St) (l : list A) :
  (forall x, In x l -> forall st, body1 x st = body2 x st) ->
  forall st, for_each body1 l st = for_each body2 l st.
Proof.
  induction l as [| x l IH]; intros E st; [reflexivity |].
  rewrite !for_each_cons, (E x (or_introl eq_refl)).
  apply bind_ext. intros st'. apply IH. intros y Hy. apply E. now right.
Qed.

(** [verify_exercise_syntax] reads the document through the six keys of
    [funcs] only. *)
Lemma verify_exercise_syntax_reads_six (net : netaddr) (os : host)
      (d1 d2 : list (string * yaml)) :
  (forall key, In key (map fst (Adles.funcs net os)) ->
               lookup key d1 = lookup key d2) ->
  Adles.verify_exercise_syntax net os (YDict d1)
  = Adles.verify_exercise_syntax net os (YDict d2).
Proof.
  intros E. unfold Adles.verify_exercise_syntax.
  apply for_each_ext. intros [key func] Hin [e w].
  assert (Ek : lookup key d1 = lookup key d2)
    by (apply E; change key with (fst (key, func)); now apply in_map).
  unfold Adles.section_body. py_eval. rewrite Ek.
  destruct (lookup key d2) as [v |] eqn:E2; [| reflexivity].
  py_eval. reflexivity.
Qed.

(** X22.  A top-level key that is not one of the six changes neither the
    counts nor the log of [verify_exercise_syntax]. *)
Lemma unknown_key_ignored (net : netaddr) (os : host)
      (d : list (string * yaml)) (k : string) (v : yaml) :
  mem k (map fst (Adles.funcs net os)) = false ->
  Adles.verify_exercise_syntax net os (YDict (d ++ [(k, v)]))
  = Adles.verify_exercise_syntax net os (YDict d).
Proof.
  intros Hk. apply verify_exercise_syntax_reads_six. intros key Hin.
  rewrite lookup_app. destruct (lookup key d); [reflexivity |].
  cbn [lookup]. destruct (String.eqb_spec key k) as [-> | _]; [| reflexivity].
  exfalso. unfold mem in Hk.
  assert (existsb (String.eqb k) (map fst (Adles.funcs net os)) = true)
    by (apply existsb_exists; exists k; split;
        [assumption | apply String.eqb_refl]).
  congruence.
Qed.

(** A section that is missing counts one error when it is required and
    nothing when it is optional. *)
Lemma missing_section_rule (spec : list (string * yaml)) (key : string)
      (func : yaml -> V (nat * nat)) (e w : nat) :
  lookup key spec = None ->
  (mem key Adles.required = true ->
   Adles.section_body (YDict spec) key func (e, w)
   = ([Log ERROR "Required definition %s was not found" [YStr key]],
      inr (e + 1, w)))
  /\ (mem key Adles.required = false -> mem key Adles.optional = true ->
      Adles.section_body (YDict spec) key func (e, w)
      = ([Log INFO Adles.optional_not_found [YStr key]], inr (e, w))).
Proof.
  intros Hk. unfold Adles.section_body. py_eval. rewrite Hk. cbn [negb].
  split; [intros -> | intros -> ->]; py_crush.
Qed.

(** C5 at a document with an unknown section.  The document without it
    is valid; with it, the warning count stays zero and nothing is logged.
    A document that holds nothing but an unknown section gets the five
    errors of the required sections and no warning. *)
Theorem unknown_section_not_warned :
  Adles.verify_exercise_syntax Sample.net Sample.os Sample.exercise
  = ([], inr (0, 0))
  /\ Adles.verify_exercise_syntax Sample.net Sample.os
       Sample.exercise_with_unknown
     = ([], inr (0, 0))
  /\ (let r := Adles.verify_exercise_syntax Sample.net Sample.os
                 (YDict [("scoreboard", YInt 1)]) in
      snd r = inr (5, 0) /\ count_level WARNING (fst r) = 0).
Proof. repeat split; reflexivity. Qed.

(** ** Folders *)

(** The loop body of [_verify_folders_syntax] in [adles/parser.py]. *)
Lemma adles_folders_unfold (d : list (string * yaml)) :
  Adles._verify_folders_syntax (YDict d)
  = for_each (fun '(key, value) '(num_errors, num_warnings) =>
      if mem key Adles.keywords then ret (num_errors, num_warnings)
      else if negb (is_dict value) then
        bind (logging ERROR "Invalid configuration %s" [YStr key])
             (fun _ => ret (num_errors + 1, num_warnings))
      else
        bind (Adles.check_instances key value num_errors) (fun num_errors =>
        bind (contains_key "services" value) (fun base =>
        if base then Adles.check_base key value (num_errors, num_warnings)
        else
          if negb (is_dict value) then
            bind (logging ERROR
                    "Could not verify syntax of folder '%s': '%s' is not a folder!"
                    [YStr key; value])
                 (fun _ => ret (num_errors + 1, num_warnings))
          else
            bind (Adles._verify_folders_syntax value) (fun '(e, w) =>
            ret (num_errors + e, num_warnings + w))))) d (0, 0).
Proof. reflexivity. Qed.

(** X23.  In [adles/parser.py] an entry under a reserved key is skipped, at
    whatever place of whatever mapping the checker is called on, and so at
    every level it descends to. *)
Lemma adles_reserved_key_skipped (d1 d2 : list (string * yaml))
      (k : string) (v : yaml) :
  mem k Adles.keywords = true ->
  Adles._verify_folders_syntax (YDict (d1 ++ (k, v) :: d2))
  = Adles._verify_folders_syntax (YDict (d1 ++ d2)).
Proof.
  intros Hk. rewrite !adles_folders_unfold, !for_each_app.
  apply bind_ext. intros [e w]. rewrite for_each_cons, Hk, bind_ret_l.
  reflexivity.
Qed.

(** ** What the folder checker logs *)

Lemma logs_ret {A} (Q : record -> Prop) (a : A) : logs Q (ret a).
Proof. constructor. Qed.

Lemma logs_raise {A} (Q : record -> Prop) (e : exn) : logs Q (@raise A e).
Proof. constructor. Qed.

Lemma logs_lift {A} (Q : record -> Prop) (r : result A) : logs Q (lift r).
Proof. constructor. Qed.

Lemma logs_logging (Q : record -> Prop) (l : level) (f : string)
      (a : list yaml) :
  Q (Log l f a) -> logs Q (logging l f a).
Proof. intros H. constructor; [exact H | constructor]. Qed.

Lemma logs_bind {A B} (Q : record -> Prop) (m : V A) (k : A -> V B) :
  logs Q m -> (forall a, logs Q (k a)) -> logs Q (bind m k).
Proof.
  unfold logs. destruct m as [log [e | a]]; cbn; intros Hm Hk; [exact Hm |].
  specialize (Hk a). destruct (k a) as [log' r]; cbn in *.
  apply Forall_app. now split.
Qed.

Lemma logs_for_each {A St} (Q : record -> Prop) (body : A -> St -> V St)
      (l : list A) :
  (forall x, In x l -> forall st, logs Q (body x st)) ->
  forall st, logs Q (for_each body l st).
Proof.
  induction l as [| x l IH]; intros Hbody st.
  - apply logs_ret.
  - rewrite for_each_cons. apply logs_bind.
    + apply Hbody. now left.
    + intros st'. apply IH. intros y Hy. apply Hbody. now right.
Qed.

(** Induction on a document through the values of its mappings. *)
Lemma yaml_dict_ind (Q : yaml -> Prop) :
  (forall v, is_dict v = false -> Q v) ->
  (forall d, Forall (fun kv => Q (snd kv)) d -> Q (YDict d)) ->
  forall v, Q v.
Proof.
  intros Hleaf Hdict. fix IH 1.
  intros [| b | z | s | l | d]; try (apply Hleaf; reflexivity).
  apply Hdict. induction d as [| [k v] d IHd]; constructor.
  - apply IH.
  - exact IHd.
Qed.

(** The steps of a proof that every record of a log is fine. *)
Ltac logs_step :=
  match goal with
  | |- logs _ (bind _ _) => apply logs_bind; [| intros ?]
  | |- logs _ (ret _) => apply logs_ret
  | |- logs _ (raise _) => apply logs_raise
  | |- logs _ (lift _) => apply logs_lift
  | |- logs _ (contains_key _ _) => apply logs_lift
  | |- logs _ (item _ _) => apply logs_lift
  | |- logs _ (logging _ _ _) => apply logs_logging
  | |- logs _ (for_each _ _ _) => apply logs_for_each; intros ? ? ?
  | |- logs _ (if ?b then _ else _) => destruct b
  | |- logs _ (match ?x with (_, _) => _ end) => destruct x
  | |- logs _ (let '(_, _) := ?x in _) => destruct x
  | |- logs _ ((let '(_, _) := ?x in _) _) => destruct x
  | |- logs _ _ => progress cbn beta iota
  end.

Lemma logs_checker (Q : record -> Prop) (value_list : list string)
      (source : string) (data : yaml) (flag : string) :
  (forall l f a, (f = "Missing %s in %s" \/ f = "Invalid flag for _checker: %s"
                  \/ f = "Total number of %s in %s: %d") -> Q (Log l f a)) ->
  logs Q (Adles._checker value_list source data flag).
Proof.
  intros HQ. unfold Adles._checker. repeat logs_step; apply HQ; auto.
Qed.

(** In [adles/parser.py], whatever the folders and at whatever depth, no
    [Invalid configuration] error names a reserved key. *)
Lemma adles_no_invalid_reserved (folders : yaml) :
  logs (not_invalid_reserved) (Adles._verify_folders_syntax folders).
Proof.
  induction folders as [v Hv | d IH] using yaml_dict_ind.
  - destruct v; try discriminate Hv; apply logs_raise.
  - rewrite adles_folders_unfold. apply logs_for_each.
    intros [key value] Hin [e w].
    rewrite Forall_forall in IH. specialize (IH _ Hin). cbn [snd] in IH.
    destruct (mem key Adles.keywords) eqn:Hk; [apply logs_ret |].
    destruct (is_dict value); cbn [negb].
    + unfold Adles.check_instances, Adles.check_base,
        Adles._verify_scoring_syntax.
      repeat first
        [ apply logs_checker; intros ? ? ? [-> | [-> | ->]]
        | exact IH
        | logs_step ];
        try (intros E; discriminate E).
    + repeat logs_step. intros _ k [= <-]. exact Hk.
Qed.

(** C6 at a folder three levels deep that holds [group] and [instances].
    [adles/parser.py] skips both; [automation/parser.py] takes [group] for a
    folder and raises [AttributeError] on its value. *)
Theorem reserved_key_automation_raises :
  Adles._verify_folders_syntax Sample.folders = ([], inr (0, 0))
  /\ Automation._verify_folders_syntax Sample.folders
     = ([], inl AttributeError).
Proof. split; reflexivity. Qed.

(** ** Acceptance *)

Lemma verifier_types (net : netaddr) (os : host) (spec_type : string)
      (verify : yaml -> V (nat * nat)) :
  verifier net os spec_type = Some verify ->
  (spec_type = "exercise" /\ verify = Adles.verify_exercise_syntax net os)
  \/ (spec_type = "package" /\ verify = Adles.verify_package_syntax)
  \/ (spec_type = "infra" /\ verify = Adles.verify_infra_syntax os).
Proof.
  unfold verifier.
  destruct (String.eqb_spec spec_type "exercise") as [-> | _];
    [intros [= <-]; auto |].
  destruct (String.eqb_spec spec_type "package") as [-> | _];
    [intros [= <-]; auto |].
  destruct (String.eqb_spec spec_type "infra") as [-> | _];
    [intros [= <-]; auto | discriminate].
Qed.

(** C7.  For a specification file that exists and parses to [spec], and a
    specification type whose checker returns the counts [(e, w)]:
    [check_syntax] returns [spec] when [e] is zero, whatever [w] is, and
    [None] otherwise. *)
Theorem check_syntax_accepts_iff_no_errors (net : netaddr) (os : host)
        (path spec base : yaml) (spec_type : string)
        (verify : yaml -> V (nat * nat))
        (plog vlog : list record) (e w : nat) :
  path_exists os path = inr true ->
  Adles.parse_file os path = (plog, inr spec) ->
  is_none spec = false ->
  basename os path = inr base ->
  verifier net os spec_type = Some verify ->
  verify spec = (vlog, inr (e, w)) ->
  snd (Adles.check_syntax net os path spec_type)
  = inr (if Nat.eqb e 0 then spec else YNull)
  /\ (snd (Adles.check_syntax net os path spec_type) = inr spec <-> e = 0).
Proof.
  intros Hex Hparse Hnone Hbase Hver Hrun.
  assert (R : snd (Adles.check_syntax net os path spec_type)
              = inr (if Nat.eqb e 0 then spec else YNull)).
  { unfold Adles.check_syntax, lift. rewrite Hex, Hparse, Hbase.
    rewrite !bind_ok. rewrite Hnone. py_eval.
    destruct (verifier_types _ _ _ _ Hver) as [[-> ->] | [[-> ->] | [-> ->]]];
      cbn [String.eqb Ascii.eqb Bool.eqb]; rewrite Hrun, ?bind_ok;
      py_eval; destruct e as [| e'], w as [| w']; cbn [Nat.eqb andb];
      py_eval; reflexivity. }
  split; [exact R |]. rewrite R. split.
  - destruct e as [| e']; [reflexivity |]. cbn [Nat.eqb].
    intros [= <-]. discriminate.
  - now intros ->.
Qed.

Lemma check_syntax_accepts_iff_no_errors_witness :
  snd (Adles.check_syntax Sample.net Sample.os (YStr "exercise.yaml")
         "exercise") = inr Sample.exercise
  /\ snd (Adles.check_syntax Sample.net Sample.os (YStr "empty.yaml")
            "exercise") = inr YNull.
Proof.
  split.
  - apply (proj1 (check_syntax_accepts_iff_no_errors Sample.net Sample.os
             (YStr "exercise.yaml") Sample.exercise (YStr "exercise.yaml")
             "exercise" (Adles.verify_exercise_syntax Sample.net Sample.os)
             [] [] 0 0 eq_refl eq_refl eq_refl eq_refl eq_refl eq_refl)).
  - apply (proj1 (check_syntax_accepts_iff_no_errors Sample.net Sample.os
             (YStr "empty.yaml") (YDict []) (YStr "empty.yaml")
             "exercise" (Adles.verify_exercise_syntax Sample.net Sample.os)
             [] _ 5 0 eq_refl eq_refl eq_refl eq_refl eq_refl eq_refl)).
Defined.

(** ** Folders of the inventory *)

(** [find_in_folder] is the search for the first wanted item among the
    children of the folder; the flag [recursive] has no part in it. *)
Lemma wanted_name_matches (py : unicode) (name' : string)
      (vimtype : option FolderUtils.vimtype) (item : FolderUtils.entity) :
  wanted py name' vimtype item
  = FolderUtils.name_matches py item name'
    && match vimtype with
       | Some t => FolderUtils.isinstance item t
       | None => true
       end.
Proof. reflexivity. Qed.

Lemma find_in_folder_first (py : unicode) (f : FolderUtils.folder)
      (name : string) (recursive : bool)
      (vimtype : option FolderUtils.vimtype) :
  FolderUtils.find_in_folder py f name recursive vimtype
  = find (wanted py (lower py name) vimtype) (FolderUtils.childEntity f).
Proof.
  destruct f as [moid fname children]. cbn [FolderUtils.childEntity].
  induction children as [| item rest IH]; [reflexivity |].
  cbn [find]. rewrite wanted_name_matches.
  cbn [FolderUtils.find_in_folder] in IH |- *.
  destruct (FolderUtils.name_matches py item (lower py name)).
  - destruct vimtype as [t |]; cbn [andb]; [| reflexivity].
    destruct (FolderUtils.isinstance item t); cbn [negb]; [reflexivity |].
    exact IH.
  - cbn [andb]. destruct recursive; cbn [andb]; [| exact IH].
    destruct item; cbn [FolderUtils.is_folder]; exact IH.
Qed.



(** C8.  [create_folder] looks for a child of that name of whatever
    type.  In a folder that holds the machine [router], asked for the
    folder [Router] it returns the machine, with the warning that the
    folder already exists, and creates no folder: what it returns is not
    a folder.  Asked for [masters], it returns the folder [Masters]. *)
Theorem create_folder_returns_machine (py : unicode) :
  FolderUtils.create_folder py _ Sample.view Sample.CreateFolder 1 "Router"
    Sample.inventory
  = (Sample.inventory,
     ([Log WARNING "Folder '%s' already exists in folder '%s'"
           [YStr "Router"; YStr "root"]],
      inr (Some (FolderUtils.VirtualMachine 11 "router"))))
  /\ FolderUtils.is_folder (FolderUtils.VirtualMachine 11 "router") = false
  /\ FolderUtils.create_folder py _ Sample.view Sample.CreateFolder 1
       "masters" Sample.inventory
     = (Sample.inventory,
        ([Log WARNING "Folder '%s' already exists in folder '%s'"
              [YStr "masters"; YStr "root"]],
         inr (Some (FolderUtils.Folder
                      (FolderUtils.MkFolder 12 "Masters"
                         [FolderUtils.VirtualMachine 13 "Hidden";
                          FolderUtils.Folder
                            (FolderUtils.MkFolder 14 "deep" [])]))))).
Proof.
  split; [| split; [reflexivity |]];
    unfold FolderUtils.create_folder; rewrite find_in_folder_first;
    cbn [Sample.view Sample.inventory FolderUtils.childEntity find];
    unfold wanted; cbn [FolderUtils.name FolderUtils.folder_name];
    rewrite !(lower_ascii py) by reflexivity; reflexivity.
Qed.



(** ** The generic interface *)

(** C9.  [Interface.cleanup_environment] and [Interface.cleanup_masters]
    both read the name of the exercise, log one line and call the method
    [cleanup_masters] of the platform interface with the flag they were
    given: the platform ends in the same state with the same result, and
    the logs differ in the text of their first line only.  When the
    metadata has no name both raise before anything is done. *)
Theorem cleanup_environment_is_cleanup_masters
        {W I : Type} `{Platform.PlatformInterface W I}
        (self : Interface.Interface I) (network_cleanup : bool) (w : W) :
  match getitem (Interface.metadata self) "name" with
  | inl e =>
      Interface.cleanup_environment self network_cleanup w = (w, ([], inl e))
      /\ Interface.cleanup_masters self network_cleanup w = (w, ([], inl e))
  | inr name =>
      let '(w', (log, r)) :=
        Platform.cleanup_masters (Interface.interface self) network_cleanup w
      in
      Interface.cleanup_environment self network_cleanup w
      = (w', (Log INFO "Cleaning up environment for %s" [name] :: log, r))
      /\ Interface.cleanup_masters self network_cleanup w
         = (w', (Log INFO "Cleaning up Master instances for %s" [name] :: log,
                 r))
  end.
Proof.
  unfold Interface.cleanup_environment, Interface.cleanup_masters,
    bindP, pure, item, lift, logging.
  destruct (getitem (Interface.metadata self) "name") as [e | name].
  - split; reflexivity.
  - destruct (Platform.cleanup_masters (Interface.interface self)
                network_cleanup w) as [w' [log r]].
    split; reflexivity.
Qed.

(** On the tracing platform: the one method called is [cleanup_masters]. *)
Example cleanup_environment_trace :
  let self := {| Interface.metadata := YDict [("name", YStr "Tutorial")];
                 Interface.interface := tt |} in
  fst (Interface.cleanup_environment (H := Sample.tracing) self true [])
  = [Sample.CleanupMasters true]
  /\ fst (Interface.cleanup_masters (H := Sample.tracing) self true [])
     = [Sample.CleanupMasters true].
Proof. split; reflexivity. Qed.

(** ** Master creation *)

Lemma bindP_ok {W A B} (m : P W A) (k : A -> P W B) (w w1 : W)
      (log1 : list record) (a : A) :
  m w = (w1, (log1, inr a)) ->
  bindP m k w = let '(w2, (log2, r)) := k a w1 in (w2, (log1 ++ log2, r)).
Proof. unfold bindP. now intros ->. Qed.

Lemma bindP_err {W A B} (m : P W A) (k : A -> P W B) (w w1 : W)
      (log1 : list record) (e : exn) :
  m w = (w1, (log1, inl e)) -> bindP m k w = (w1, (log1, inl e)).
Proof. unfold bindP. now intros ->. Qed.

Lemma bindP_pure_ret {W A B} (a : A) (k : A -> P W B) (w : W) :
  bindP (pure (ret a)) k w = k a w.
Proof. unfold bindP, pure, ret. now destruct (k a w) as [w' [log r]]. Qed.

Lemma bindP_pure_logging {W B} (l : level) (f : string) (a : list yaml)
      (k : unit -> P W B) (w : W) :
  bindP (pure (logging l f a)) k w
  = let '(w', (log, r)) := k tt w in (w', (Log l f a :: log, r)).
Proof. reflexivity. Qed.

Lemma for_eachP_cons {W A} (body : A -> P W unit) (x : A) (l : list A) :
  for_eachP body (x :: l) = bindP (body x) (fun _ => for_eachP body l).
Proof. reflexivity. Qed.

(** After a service whose clone fails, which is skipped, a service
    that declares no networks ends the call with a [KeyError]: the third
    service is not reached. *)
Lemma create_masters_stops_at_exception :
  VsphereInterface.create_masters _ Sample.vsphere Sample.machines
  = (Sample.machines
       ++ [{| Sample.m_name := "(MASTER) web"; Sample.m_template := false;
              Sample.m_network := [] |}],
     ([Log INFO "Created master folder %s under folder %s"
           [YStr "MASTER_FOLDERS"; YStr "root"];
       Log INFO "Creating master for service %s from template %s"
           [YStr "dc"; YStr "win-template"];
       Log ERROR "Cannot clone Template %s without specifying a resource pool"
           [YStr "win-template"];
       Log ERROR "Did not successfully clone VM %s" [YStr "(MASTER) dc"];
       Log INFO "Creating master for service %s from template %s"
           [YStr "web"; YStr "debian"];
       Log INFO "Cloning VM %s to folder %s with name %s"
           [YStr "debian"; YStr "MASTER_FOLDERS"; YStr "(MASTER) web"]],
      inl KeyError)).
Proof. reflexivity. Qed.


(** C4, as the interface has it.  When the clone of the template of a
    service does not show up under the name of the master, the service is
    logged as an error and nothing more is done for it: the platform is as
    the clone attempt left it.  The loop then goes on with the services that
    follow, from that state.  An exception raised for a service is not
    caught: it ends the loop, and the services that follow are not
    processed. *)
Theorem clone_missing_skips_service (W : Type)
        (self : VsphereInterface.VsphereInterface W) (master_folder : N)
        (service_name : string) (d : list (string * yaml))
        (template_name : yaml) (rest : list (string * yaml))
        (w w1 : W) (log1 : list record) :
  lookup "template" d = Some template_name ->
  VsphereInterface.clone_master W self master_folder
    (VsphereInterface.master_prefix ++ service_name)%string template_name w
  = (w1, (log1, inr None)) ->
  let log :=
    Log INFO "Creating master for service %s from template %s"
        [YStr service_name; template_name]
    :: log1
    ++ [Log ERROR "Did not successfully clone VM %s"
            [YStr (VsphereInterface.master_prefix ++ service_name)%string]] in
  let body := fun '(n, c) =>
    VsphereInterface.master_body W self master_folder n c in
  VsphereInterface.master_body W self master_folder service_name (YDict d) w
  = (w1, (log, inr tt))
  /\ for_eachP body ((service_name, YDict d) :: rest) w
     = (let '(w2, (log2, r)) := for_eachP body rest w1 in
        (w2, (log ++ log2, r)))
  /\ (forall name config w' w'' log' e,
      VsphereInterface.master_body W self master_folder name config w'
      = (w'', (log', inl e)) ->
      for_eachP body ((name, config) :: rest) w' = (w'', (log', inl e))).
Proof.
  intros Ht Hclone log body.
  assert (R : VsphereInterface.master_body W self master_folder service_name
                (YDict d) w = (w1, (log, inr tt))).
  { unfold VsphereInterface.master_body.
    rewrite contains_key_dict, Ht, bindP_pure_ret.
    rewrite item_dict, Ht, bindP_pure_ret, bindP_pure_logging.
    rewrite (bindP_ok _ _ _ _ _ _ Hclone). reflexivity. }
  split; [exact R | split].
  - rewrite for_eachP_cons. subst body. cbn beta iota.
    rewrite (bindP_ok _ _ _ _ _ _ R). reflexivity.
  - intros name config w' w'' log' e Hraise.
    rewrite for_eachP_cons. subst body. cbn beta iota.
    apply (bindP_err _ _ _ _ _ _ Hraise).
Qed.

Lemma clone_missing_skips_service_witness :
  VsphereInterface.master_body _ Sample.vsphere 1 "dc"
    (YDict [("template", YStr "win-template"); ("networks", YList [])])
    Sample.machines
  = (Sample.machines,
     ([Log INFO "Creating master for service %s from template %s"
           [YStr "dc"; YStr "win-template"];
       Log ERROR "Cannot clone Template %s without specifying a resource pool"
           [YStr "win-template"];
       Log ERROR "Did not successfully clone VM %s" [YStr "(MASTER) dc"]],
      inr tt)).
Proof.
  apply (proj1 (clone_missing_skips_service _ Sample.vsphere 1 "dc"
                  [("template", YStr "win-template"); ("networks", YList [])]
                  (YStr "win-template") [] Sample.machines Sample.machines
                  [Log ERROR
                     "Cannot clone Template %s without specifying a resource pool"
                     [YStr "win-template"]]
                  eq_refl eq_refl)).
Defined.

(** * Further properties *)

(** ** The presence checker *)

Lemma count_level_app (l : level) (log1 log2 : list record) :
  count_level l (log1 ++ log2) = count_level l log1 + count_level l log2.
Proof. unfold count_level. now rewrite filter_app, length_app. Qed.

Lemma missing_cons (value : string) (rest : list string)
      (d : list (string * yaml)) :
  missing (value :: rest) d
  = match lookup value d with
    | Some _ => missing rest d
    | None => S (missing rest d)
    end.
Proof.
  unfold missing, has_key. cbn [filter].
  now destruct (lookup value d).
Qed.

Lemma checker_loop (source flag : string) (d : list (string * yaml))
      (value_list : list string) (n : nat) :
  let body := fun value num_hits =>
    bind (contains_key value (YDict d)) (fun present =>
      if negb present then
        bind (if String.eqb flag "warnings" then
                logging WARNING "Missing %s in %s" [YStr value; YStr source]
              else if String.eqb flag "errors" then
                logging ERROR "Missing %s in %s" [YStr value; YStr source]
              else
                logging ERROR "Invalid flag for _checker: %s" [YStr flag])
             (fun _ => ret (num_hits + 1))
      else ret num_hits) in
  exists log,
    for_each body value_list n = (log, inr (n + missing value_list d))
    /\ count_level WARNING log
       = (if String.eqb flag "warnings" then missing value_list d else 0)
    /\ count_level ERROR log
       = (if String.eqb flag "warnings" then 0 else missing value_list d)
    /\ count_level INFO log = 0.
Proof.
  intros body. revert n.
  induction value_list as [| value rest IH]; intros n.
  - exists []. unfold missing. cbn. rewrite Nat.add_0_r.
    destruct (String.eqb flag "warnings"); auto.
  - rewrite for_each_cons. unfold body at 1.
    rewrite contains_key_dict, bind_ret_l, missing_cons.
    destruct (lookup value d) as [v |]; cbn [negb].
    + rewrite bind_ret_l. exact (IH n).
    + destruct (IH (n + 1)) as (log & E & Hw & He & Hi). fold body.
      destruct (String.eqb flag "warnings") eqn:Fw;
        [| destruct (String.eqb flag "errors") eqn:Fe];
        autorewrite with py; rewrite E;
        eexists;
        (split; [unfold prepend; cbn [fst snd app];
                 apply f_equal2; [reflexivity | f_equal; lia] |]);
        unfold count_level in *; cbn; rewrite ?Hw, ?He, ?Hi; auto.
Qed.

Lemma checker_result (value_list : list string) (source flag : string)
      (d : list (string * yaml)) :
  exists log,
    Adles._checker value_list source (YDict d) flag
    = (log, inr (missing value_list d))
    /\ count_level WARNING log
       = (if String.eqb flag "warnings" then missing value_list d else 0)
    /\ count_level ERROR log
       = (if String.eqb flag "warnings" then 0 else missing value_list d).
Proof.
  unfold Adles._checker.
  destruct (checker_loop source flag d value_list 0) as (log & E & Hw & He & Hi).
  cbn beta zeta in E. rewrite E, bind_ok. cbn [Nat.add].
  destruct (Nat.ltb 0 (missing value_list d));
    rewrite ?bind_logging, ?bind_ret_l; unfold prepend, ret; cbn [fst snd];
    eexists; (split; [reflexivity |]);
    rewrite ?count_level_app, ?Hw, ?He; unfold count_level; cbn; lia.
Qed.

(** X1.  On a mapping, [_checker] returns the number of names of the
    list that are not keys of it, whatever the flag, and logs as many
    records: warnings for the flag [warnings], errors for any other flag.
    The two parsers have the same function. *)
Theorem checker_counts_missing (value_list : list string)
        (source flag : string) (d : list (string * yaml)) :
  let r := Adles._checker value_list source (YDict d) flag in
  snd r = inr (missing value_list d)
  /\ count_level WARNING (fst r)
     = (if String.eqb flag "warnings" then missing value_list d else 0)
  /\ count_level ERROR (fst r)
     = (if String.eqb flag "warnings" then 0 else missing value_list d)
  /\ Automation._checker value_list source (YDict d) flag = r.
Proof.
  intros r. subst r.
  destruct (checker_result value_list source flag d) as (log & E & Hw & He).
  change (Automation._checker value_list source (YDict d) flag)
    with (Adles._checker value_list source (YDict d) flag).
  rewrite E. auto.
Qed.

(** ** Counts and log *)

Lemma tallied_ret {A} (proj : A -> nat * nat) (e0 w0 : nat) (a : A) :
  proj a = (e0, w0) -> tallied proj e0 w0 (ret a).
Proof.
  intros E log a' [= <- <-]. unfold count_level; cbn.
  now rewrite !Nat.add_0_r.
Qed.

Lemma tallied_raise {A} (proj : A -> nat * nat) (e0 w0 : nat) (e : exn) :
  tallied proj e0 w0 (raise e).
Proof. intros log a [=]. Qed.

Lemma tallied_lift {A} (e0 w0 : nat) (r : result A) :
  tallied (fun _ => (e0, w0)) e0 w0 (lift r).
Proof.
  intros log a [= <- _]. unfold count_level; cbn. now rewrite !Nat.add_0_r.
Qed.

Lemma tallied_logging (l : level) (f : string) (a : list yaml) (e0 w0 : nat) :
  tallied (fun _ => match l with
                    | ERROR => (e0 + 1, w0)
                    | WARNING => (e0, w0 + 1)
                    | _ => (e0, w0)
                    end) e0 w0 (logging l f a).
Proof.
  intros log u [= <- _]. unfold count_level.
  destruct l; cbn; now rewrite ?Nat.add_0_r.
Qed.

Lemma tallied_bind {A B} (projA : A -> nat * nat) (projB : B -> nat * nat)
      (e0 w0 : nat) (m : V A) (k : A -> V B) :
  tallied projA e0 w0 m ->
  (forall a, tallied projB (fst (projA a)) (snd (projA a)) (k a)) ->
  tallied projB e0 w0 (bind m k).
Proof.
  intros Hm Hk log b E. destruct m as [log1 [e | a]]; [discriminate E |].
  rewrite bind_ok in E. specialize (Hm log1 a eq_refl).
  specialize (Hk a). destruct (k a) as [log2 r] eqn:Ek.
  unfold prepend in E. cbn [fst snd] in E. injection E as <- ->.
  rewrite (Hk log2 b eq_refl), Hm. cbn [fst snd].
  rewrite !count_level_app. f_equal; lia.
Qed.

Lemma tallied_shift {A} (proj : A -> nat * nat) (e0 w0 : nat) (m : V A) :
  tallied proj 0 0 m ->
  tallied (fun a => (e0 + fst (proj a), w0 + snd (proj a))) e0 w0 m.
Proof.
  intros Hm log a E. rewrite (Hm log a E). reflexivity.
Qed.

Lemma tallied_for_each {A St} (proj : St -> nat * nat)
      (body : A -> St -> V St) (l : list A) :
  (forall x, In x l ->
             forall st, tallied proj (fst (proj st)) (snd (proj st)) (body x st)) ->
  forall st e w, proj st = (e, w) -> tallied proj e w (for_each body l st).
Proof.
  induction l as [| x l IH]; intros Hbody st e w Est.
  - now apply tallied_ret.
  - rewrite for_each_cons.
    apply (tallied_bind proj).
    + specialize (Hbody x (or_introl eq_refl) st). now rewrite Est in Hbody.
    + intros st'. apply IH; [| now destruct (proj st')].
      intros y Hy. apply Hbody. now right.
Qed.

(** The steps of a proof that counts and log agree. *)
Ltac tally_step :=
  match goal with
  | |- tallied _ _ _ (bind (bind _ _) _) => rewrite bind_assoc
  | |- tallied _ _ _ (bind (ret _) _) => rewrite bind_ret_l
  | |- tallied _ _ _ (bind (raise _) _) => rewrite bind_raise
  | |- tallied _ _ _ (bind (contains_key _ _) _) =>
      eapply tallied_bind; [apply tallied_lift | intros ?; cbn [fst snd]]
  | |- tallied _ _ _ (bind (item _ _) _) =>
      eapply tallied_bind; [apply tallied_lift | intros ?; cbn [fst snd]]
  | |- tallied _ _ _ (bind (lift _) _) =>
      eapply tallied_bind; [apply tallied_lift | intros ?; cbn [fst snd]]
  | |- tallied _ _ _ (bind (logging _ _ _) _) =>
      eapply tallied_bind; [apply tallied_logging | intros ?; cbn [fst snd]]
  | |- tallied _ _ _ (bind (if ?b then _ else _) _) => destruct b
  | |- tallied _ _ _ (bind (match ?x with (_, _) => _ end) _) => destruct x
  | |- tallied _ _ _ (if ?b then _ else _) => destruct b
  | |- tallied _ _ _ (match ?x with (_, _) => _ end) => destruct x
  | |- tallied _ _ _ ((let '(_, _) := ?x in _) _) => destruct x
  | |- tallied _ _ _ (ret _) =>
      apply tallied_ret; cbn [fst snd]; try reflexivity; f_equal; lia
  | |- tallied _ _ _ (raise _) => apply tallied_raise
  | |- tallied _ _ _ (for_each _ _ _) =>
      eapply tallied_for_each;
      [intros ? ? ?; cbn [fst snd] | cbn [fst snd]; try reflexivity; f_equal; lia]
  | |- tallied _ _ _ _ => progress cbn beta iota
  end.

Lemma tallied_checker (value_list : list string) (source flag : string)
      (data : yaml) (e0 w0 : nat) :
  tallied (fun n => if String.eqb flag "warnings" then (e0, w0 + n)
                    else (e0 + n, w0))
          e0 w0 (Adles._checker value_list source data flag).
Proof.
  unfold Adles._checker.
  apply (tallied_bind (fun n => if String.eqb flag "warnings"
                                then (e0, w0 + n) else (e0 + n, w0))).
  - apply (tallied_for_each
             (fun n => if String.eqb flag "warnings"
                       then (e0, w0 + n) else (e0 + n, w0)));
      [| destruct (String.eqb flag "warnings"); f_equal; lia].
    intros value _ n.
    destruct (String.eqb flag "warnings") eqn:Fw; cbn [fst snd];
      repeat tally_step.
  - intros n. destruct (String.eqb flag "warnings"); cbn [fst snd];
      repeat tally_step.
Qed.

Lemma tallied_checker_errors (value_list : list string) (source : string)
      (data : yaml) (e0 w0 : nat) :
  tallied (fun n => (e0 + n, w0)) e0 w0
          (Adles._checker value_list source data "errors").
Proof. exact (tallied_checker value_list source "errors" data e0 w0). Qed.

Lemma tallied_checker_warnings (value_list : list string) (source : string)
      (data : yaml) (e0 w0 : nat) :
  tallied (fun n => (e0, w0 + n)) e0 w0
          (Adles._checker value_list source data "warnings").
Proof. exact (tallied_checker value_list source "warnings" data e0 w0). Qed.

Ltac tally :=
  repeat first
    [ eapply tallied_bind;
      [apply tallied_checker_errors | intros ?; cbn [fst snd]]
    | eapply tallied_bind;
      [apply tallied_checker_warnings | intros ?; cbn [fst snd]]
    | tally_step ].

Lemma tallied_scoring (service_name : string) (scoring : yaml) :
  tallied (fun c => c) 0 0 (Adles._verify_scoring_syntax service_name scoring).
Proof. unfold Adles._verify_scoring_syntax. tally. Qed.

Lemma tallied_folders (folders : yaml) :
  tallied (fun c => c) 0 0 (Adles._verify_folders_syntax folders).
Proof.
  induction folders as [v Hv | d IH] using yaml_dict_ind.
  - destruct v; try discriminate Hv; apply tallied_raise.
  - rewrite adles_folders_unfold.
    apply (tallied_for_each (fun c => c)); [| reflexivity].
    intros [key value] Hin [e w]. cbn [fst snd].
    rewrite Forall_forall in IH. specialize (IH _ Hin). cbn [snd] in IH.
    unfold Adles.check_instances, Adles.check_base,
      Adles._verify_scoring_syntax.
    repeat first
      [ eapply tallied_bind;
        [exact (tallied_shift (fun c => c) _ _ _ IH)
        | intros [? ?]; cbn [fst snd] ]
      | progress tally ].
Qed.

Lemma tallied_services (services : yaml) :
  tallied (fun c => c) 0 0 (Adles._verify_services_syntax services).
Proof. unfold Adles._verify_services_syntax. tally. Qed.

Lemma tallied_resources (resources : yaml) :
  tallied (fun c => c) 0 0 (Adles._verify_resources_syntax resources).
Proof. unfold Adles._verify_resources_syntax. tally. Qed.

Lemma tallied_package (package : yaml) :
  tallied (fun c => c) 0 0 (Adles.verify_package_syntax package).
Proof. unfold Adles.verify_package_syntax. tally. Qed.

Lemma tallied_check_subnet (net : netaddr) (name key : string) (value : yaml)
      (e w : nat) :
  tallied (fun c => c) e w (Adles.check_subnet net name key value (e, w)).
Proof.
  unfold Adles.check_subnet. tally.
  eapply (tallied_bind
            (fun r : option (network net) =>
               match r with None => (e + 1, w) | Some _ => (e, w) end)).
  - unfold item, lift.
    destruct (getitem value "subnet") as [ex | cidr]; cbn;
      [| destruct (IPNetwork net cidr) as [ex | subnet]; cbn];
      try destruct ex; cbn; intros log r E; try discriminate E;
      injection E as <- <-; unfold count_level; cbn; f_equal; lia.
  - intros [subnet |]; cbn [fst snd]; tally.
Qed.

Lemma tallied_check_vlan (os : host) (name key : string) (value : yaml)
      (e w : nat) :
  tallied (fun c => c) e w (Adles.check_vlan os name key value (e, w)).
Proof. unfold Adles.check_vlan. tally. Qed.

Lemma tallied_check_increment (name key : string) (value : yaml) (e w : nat) :
  tallied (fun c => c) e w (Adles.check_increment name key value (e, w)).
Proof. unfold Adles.check_increment. tally. Qed.

Lemma tallied_network (net : netaddr) (os : host) (name : string)
      (network : yaml) :
  tallied (fun c => c) 0 0 (Adles._verify_network net os name network).
Proof.
  unfold Adles._verify_network.
  eapply tallied_bind; [apply tallied_lift | intros entries; cbn [fst snd]].
  apply (tallied_for_each (fun c => c)); [| reflexivity].
  intros [key value] _ [e w]. cbn [fst snd]. unfold Adles.network_body.
  apply (tallied_bind (fun c => c)); [apply tallied_check_subnet |].
  intros [e' w']. cbn [fst snd].
  apply (tallied_bind (fun c => c)); [apply tallied_check_vlan |].
  intros [e'' w'']. cbn [fst snd]. apply tallied_check_increment.
Qed.

Lemma tallied_networks (net : netaddr) (os : host) (networks : yaml) :
  tallied (fun c => c) 0 0 (Adles._verify_networks_syntax net os networks).
Proof.
  unfold Adles._verify_networks_syntax.
  eapply (tallied_bind (fun _ : bool => (0, 0))).
  - apply (tallied_for_each (fun _ : bool => (0, 0))); [| reflexivity].
    intros x _ st. cbn [fst snd]. destruct st; [now apply tallied_ret |].
    apply tallied_lift.
  - intros any. cbn [fst snd]. destruct any; cbn [negb]; [| tally].
    eapply tallied_bind; [apply tallied_lift | intros entries; cbn [fst snd]].
    apply (tallied_for_each (fun c => c)); [| reflexivity].
    intros [name network] _ [e w]. cbn [fst snd].
    eapply tallied_bind;
      [exact (tallied_shift (fun c => c) _ _ _ (tallied_network net os _ _)) |].
    intros [? ?]. cbn [fst snd]. tally.
Qed.

(** X2.  For the checkers of folders, services, resources, networks and
    packages of [adles/parser.py], the counts returned are the numbers of
    error records and of warning records in the log: nothing is counted
    without being logged, and no error or warning is logged without being
    counted. *)
Theorem counts_match_log (net : netaddr) (os : host)
        (check : yaml -> V (nat * nat)) (section : yaml)
        (log : list record) (e w : nat) :
  In check [Adles._verify_folders_syntax; Adles._verify_services_syntax;
            Adles._verify_resources_syntax;
            Adles._verify_networks_syntax net os;
            Adles.verify_package_syntax] ->
  check section = (log, inr (e, w)) ->
  e = count_level ERROR log /\ w = count_level WARNING log.
Proof.
  intros Hin E.
  assert (T : tallied (fun c => c) 0 0 (check section)).
  { destruct Hin as [<- | [<- | [<- | [<- | [<- | []]]]]].
    - apply tallied_folders.
    - apply tallied_services.
    - apply tallied_resources.
    - apply tallied_networks.
    - apply tallied_package. }
  specialize (T log (e, w) E). now injection T.
Qed.

Lemma counts_match_log_witness :
  exists log,
    Adles._verify_folders_syntax Fixtures.faulty_folders = (log, inr (3, 0))
    /\ 3 = count_level ERROR log /\ 0 = count_level WARNING log.
Proof.
  eexists. split; [reflexivity |].
  apply (counts_match_log Sample.net Sample.os Adles._verify_folders_syntax
           Fixtures.faulty_folders _ 3 0 (or_introl eq_refl) eq_refl).
Defined.

(** ** Networks: classes and increment *)

(** X3.  A networks mapping with neither [unique-networks] nor
    [generic-networks] gets exactly one error from [adles/parser.py], and
    its entries are not looked at; so does, in [automation/parser.py], one
    that has no [base-networks] either. *)
Theorem networks_without_class (net : netaddr) (os : host)
        (d : list (string * yaml)) :
  has_key "unique-networks" d = false ->
  has_key "generic-networks" d = false ->
  let log := [Log ERROR "Network specification exists but is empty!" []] in
  Adles._verify_networks_syntax net os (YDict d) = (log, inr (1, 0))
  /\ (has_key "base-networks" d = false ->
      Automation._verify_networks_syntax net (YDict d) = (log, inr (1, 0))).
Proof.
  intros Hu%has_key_false Hg%has_key_false log. subst log. split.
  - unfold Adles._verify_networks_syntax. cbn [for_each]. py_crush.
  - intros Hb%has_key_false.
    unfold Automation._verify_networks_syntax. cbn [for_each]. py_crush.
Qed.

Lemma networks_without_class_witness :
  Adles._verify_networks_syntax Sample.net Sample.os
    (YDict [("base-networks",
             YDict [("lan", YDict [("subnet", YStr "not-a-subnet")])])])
  = ([Log ERROR "Network specification exists but is empty!" []], inr (1, 0)).
Proof.
  apply (proj1 (networks_without_class Sample.net Sample.os
                  [("base-networks",
                    YDict [("lan", YDict [("subnet", YStr "not-a-subnet")])])]
                  eq_refl eq_refl)).
Defined.

(** X4.  For a network entry with an [increment] item, with the counts
    [(e, w)] reached so far: under [unique-networks] it gives one error
    whatever its value; under any other network class it gives one error
    when the value is not a boolean and nothing when it is. *)
Theorem increment_rule (name key : string) (d : list (string * yaml))
        (v : yaml) (e w : nat) :
  lookup "increment" d = Some v ->
  (name = "unique-networks" ->
   Adles.check_increment name key (YDict d) (e, w)
   = ([Log ERROR "Increment cannot be used for network %s" [YStr key]],
      inr (e + 1, w)))
  /\ (name <> "unique-networks" ->
      Adles.check_increment name key (YDict d) (e, w)
      = if is_bool v then ([], inr (e, w))
        else ([Log ERROR "Increment must be a boolean for network %s"
                   [YStr key]], inr (e + 1, w))).
Proof.
  intros Hv. unfold Adles.check_increment. split.
  - intros ->. py_eval. rewrite Hv. cbn [String.eqb Ascii.eqb Bool.eqb].
    py_crush.
  - intros Hu%String.eqb_neq. py_eval. rewrite Hv, Hu. py_eval.
    destruct (is_bool v); py_crush.
Qed.

Lemma increment_rule_witness :
  Adles.check_increment "unique-networks" "lan"
    (YDict [("increment", YBool true)]) (0, 0)
  = ([Log ERROR "Increment cannot be used for network %s" [YStr "lan"]],
     inr (1, 0))
  /\ Adles.check_increment "generic-networks" "dmz"
       (YDict [("increment", YInt 1)]) (0, 0)
     = ([Log ERROR "Increment must be a boolean for network %s" [YStr "dmz"]],
        inr (1, 0)).
Proof.
  split.
  - apply (proj1 (increment_rule "unique-networks" "lan"
                    [("increment", YBool true)] (YBool true) 0 0 eq_refl)
             eq_refl).
  - apply (proj2 (increment_rule "generic-networks" "dmz"
                    [("increment", YInt 1)] (YInt 1) 0 0 eq_refl)).
    discriminate.
Defined.

(** ** Infrastructure, metadata, packages and acceptance *)

Lemma ensures_ret {A} (Q : A -> Prop) (a : A) : Q a -> ensures Q (ret a).
Proof. intros H log a' [= _ <-]. exact H. Qed.

Lemma ensures_bind {A B} (Q : B -> Prop) (m : V A) (k : A -> V B) :
  (forall a, ensures Q (k a)) -> ensures Q (bind m k).
Proof.
  intros Hk log b E. destruct m as [log1 [e | a]]; [discriminate E |].
  rewrite bind_ok in E. specialize (Hk a).
  destruct (k a) as [log2 [e | b']]; [discriminate E |].
  injection E as _ <-. exact (Hk log2 b' eq_refl).
Qed.

Lemma bind_inr_inv {A B} (m : V A) (k : A -> V B) (log : list record) (b : B) :
  bind m k = (log, inr b) ->
  exists log1 a log2,
    m = (log1, inr a) /\ k a = (log2, inr b) /\ log = log1 ++ log2.
Proof.
  destruct m as [log1 [e | a]]; [discriminate |]. rewrite bind_ok.
  destruct (k a) as [log2 r] eqn:Ek. unfold prepend; cbn [fst snd].
  intros [= <- ->]. now exists log1, a, log2.
Qed.

Lemma unknown_platform (p : string) :
  mem p platforms = false ->
  String.eqb p "vmware-vsphere" = false /\ String.eqb p "docker" = false
  /\ String.eqb p "amazon-aws" = false /\ String.eqb p "digital-ocean" = false
  /\ String.eqb p "hyper-v" = false.
Proof.
  unfold mem, platforms. cbn [existsb]. rewrite !orb_false_iff. tauto.
Qed.

(** X5.  [verify_infra_syntax] logs an error for a platform it does not
    know and skips it without counting the error: an infrastructure
    document that names unknown platforms only comes out with no error and
    no warning, one error record per platform notwithstanding. *)
Theorem infra_unknown_platforms_not_counted (os : host)
        (entries : list (string * yaml)) :
  Forall (fun kv => mem (fst kv) platforms = false) entries ->
  Adles.verify_infra_syntax os (YDict entries)
  = (map (fun kv => Log ERROR "Unknown infrastructure platform: %s"
                        [YStr (fst kv)]) entries,
     inr (0, 0)).
Proof.
  intros Hall. unfold Adles.verify_infra_syntax, items, lift.
  change (@pair (list record) (result (list (string * yaml))) [] (inr entries))
    with (ret entries).
  rewrite bind_ret_l.
  match goal with |- context [for_each ?b _ _] => set (body := b) end.
  assert (L : forall st,
             for_each body entries st
             = (map (fun kv => Log ERROR "Unknown infrastructure platform: %s"
                                   [YStr (fst kv)]) entries, inr st)).
  { induction Hall as [| [p config] rest Hp _ IH]; intros st; [reflexivity |].
    rewrite for_each_cons. cbn [fst] in Hp.
    destruct (unknown_platform p Hp) as (E1 & E2 & E3 & E4 & E5).
    destruct st as [[[e w] ws] es]. unfold body at 1.
    rewrite E1, E2, E3, E4, E5. py_eval. rewrite IH. reflexivity. }
  rewrite L, bind_ok. unfold prepend, ret. cbn [fst snd].
  now rewrite app_nil_r.
Qed.

Lemma infra_unknown_platforms_not_counted_witness :
  Adles.verify_infra_syntax Sample.os
    (YDict [("openstack", YDict []); ("proxmox", YNull)])
  = ([Log ERROR "Unknown infrastructure platform: %s" [YStr "openstack"];
      Log ERROR "Unknown infrastructure platform: %s" [YStr "proxmox"]],
     inr (0, 0)).
Proof.
  apply (infra_unknown_platforms_not_counted Sample.os
           [("openstack", YDict []); ("proxmox", YNull)]).
  repeat constructor.
Defined.

Lemma ensures_seq {A B} (Q1 : A -> Prop) (Q : B -> Prop) (m : V A)
      (k : A -> V B) :
  ensures Q1 m -> (forall a, Q1 a -> ensures Q (k a)) -> ensures Q (bind m k).
Proof.
  intros Hm Hk log b E.
  apply bind_inr_inv in E as (log1 & a & log2 & Em & Ek & _).
  exact (Hk a (Hm _ _ Em) _ _ Ek).
Qed.

(** The steps of a proof that every value returned satisfies a property. *)
Ltac ensures_step :=
  match goal with
  | |- ensures _ (bind _ _) => apply ensures_bind; intros ?
  | |- ensures _ (ret _) => apply ensures_ret
  | |- ensures _ (if ?b then _ else _) => destruct b
  | |- ensures _ (match ?x with (_, _) => _ end) => destruct x
  | |- ensures _ _ => progress cbn beta iota
  end.

(** X6.  The lists of keys [verify_infra_syntax] looks for are kept from
    one platform to the next.  A configuration of [amazon-aws],
    [digital-ocean] or [hyper-v] on its own is not checked at all; after a
    [vmware-vsphere] entry it is checked for the keys of vSphere, and every
    one it lacks is counted. *)
Theorem infra_lists_carry_over (os : host) (vsphere : yaml) (p : string)
        (c : list (string * yaml)) (e w : nat) :
  In p ["amazon-aws"; "digital-ocean"; "hyper-v"] ->
  snd (Adles.verify_infra_syntax os (YDict [("vmware-vsphere", vsphere)]))
  = inr (e, w) ->
  Adles.verify_infra_syntax os (YDict [(p, YDict c)]) = ([], inr (0, 0))
  /\ snd (Adles.verify_infra_syntax os
            (YDict [("vmware-vsphere", vsphere); (p, YDict c)]))
     = inr (e + missing vsphere_errors c, w + missing vsphere_warnings c).
Proof.
  intros Hp Hv.
  destruct (Adles.verify_infra_syntax os (YDict [("vmware-vsphere", vsphere)]))
    as [log r] eqn:Hv'.
  cbn [snd] in Hv. subst r. rename Hv' into Hv.
  assert (Ep : String.eqb p "vmware-vsphere" = false
               /\ String.eqb p "docker" = false
               /\ (String.eqb p "amazon-aws" || String.eqb p "digital-ocean"
                   || String.eqb p "hyper-v" = true)).
  { destruct Hp as [<- | [<- | [<- | []]]]; repeat split; reflexivity. }
  destruct Ep as (E1 & E2 & E3).
  unfold Adles.verify_infra_syntax, items, lift in *.
  change (@pair (list record) (result (list (string * yaml))) []
            (inr [(p, YDict c)])) with (ret [(p, YDict c)]).
  change (@pair (list record) (result (list (string * yaml))) []
            (inr [("vmware-vsphere", vsphere); (p, YDict c)]))
    with (ret [("vmware-vsphere", vsphere); (p, YDict c)]).
  change (@pair (list record) (result (list (string * yaml))) []
            (inr [("vmware-vsphere", vsphere)]))
    with (ret [("vmware-vsphere", vsphere)]) in Hv.
  rewrite !bind_ret_l. rewrite bind_ret_l in Hv.
  match goal with |- context [for_each ?b _ _] => set (body := b) in * end.
  (* the entry that has no rules of its own, from any state *)
  assert (B : forall e0 w0 ws es,
             exists logc,
               body (p, YDict c) (e0, w0, ws, es)
               = (logc, inr (e0 + missing es c, w0 + missing ws c, ws, es))).
  { intros e0 w0 ws es. unfold body.
    rewrite E1, E2.
    assert (R : (if String.eqb p "amazon-aws"
                 then ret (Some (e0, ws, es))
                 else if String.eqb p "digital-ocean"
                      then ret (Some (e0, ws, es))
                      else if String.eqb p "hyper-v"
                           then ret (Some (e0, ws, es))
                           else bind (logging ERROR
                                        "Unknown infrastructure platform: %s"
                                        [YStr p]) (fun _ => ret None))
                = ret (Some (e0, ws, es))).
    { destruct (String.eqb p "amazon-aws"); [reflexivity |].
      destruct (String.eqb p "digital-ocean"); [reflexivity |].
      destruct (String.eqb p "hyper-v"); [reflexivity | discriminate E3]. }
    rewrite R, bind_ret_l.
    destruct (checker_result ws "infrastructure" "warnings" c)
      as (lw & -> & _ & _).
    destruct (checker_result es "infrastructure" "errors" c)
      as (le & -> & _ & _).
    cbn. eexists. reflexivity. }
  split.
  - rewrite for_each_single.
    destruct (B 0 0 [] []) as (logc & Eb).
    assert (Ec : body (p, YDict c) (0, 0, [], []) = ([], inr (0, 0, [], []))).
    { unfold body. rewrite E1, E2.
      destruct (String.eqb p "amazon-aws"); [reflexivity |].
      destruct (String.eqb p "digital-ocean"); [reflexivity |].
      destruct (String.eqb p "hyper-v"); [reflexivity | discriminate E3]. }
    rewrite Ec. reflexivity.
  - rewrite for_each_single in Hv.
    apply bind_inr_inv in Hv as (log1 & [[[e1 w1] ws] es] & log2 & Eb & Ef & _).
    injection Ef as _ <- <-.
    assert (Hl : ensures (fun st => snd (fst st) = vsphere_warnings
                                    /\ snd st = vsphere_errors)
                         (body ("vmware-vsphere", vsphere) (0, 0, [], []))).
    { unfold body. cbn [String.eqb Ascii.eqb Bool.eqb].
      apply ensures_seq
        with (Q1 := fun a => exists n, a = Some (n, vsphere_warnings,
                                                 vsphere_errors)).
      - repeat ensures_step; eexists; reflexivity.
      - intros a [n ->]. repeat ensures_step; split; reflexivity. }
    destruct (Hl _ _ Eb) as [Hw He]. cbn [fst snd] in Hw, He. subst ws es.
    rewrite for_each_cons, Eb, bind_ok, for_each_single.
    destruct (B e1 w1 vsphere_warnings vsphere_errors) as (logc & ->).
    reflexivity.
Qed.

Lemma infra_lists_carry_over_witness :
  snd (Adles.verify_infra_syntax Sample.os
         (YDict [("vmware-vsphere",
                  YDict [("hostname", YStr "vcenter.example.org");
                         ("port", YInt 443);
                         ("datacenter", YStr "Lab")]);
                 ("amazon-aws", YDict [("hostname", YStr "eu-west-1")])]))
  = inr (1 + 1, 4 + 6).
Proof.
  apply (proj2 (infra_lists_carry_over Sample.os
                  (YDict [("hostname", YStr "vcenter.example.org");
                          ("port", YInt 443);
                          ("datacenter", YStr "Lab")])
                  "amazon-aws"
                  [("hostname", YStr "eu-west-1")] 1 4
                  (or_introl eq_refl) eq_refl)).
Defined.

Lemma snd_prepend {A} (log : list record) (m : V A) :
  snd (prepend log m) = snd m.
Proof. reflexivity. Qed.

(** X7.  For metadata that names an [infra-file]:
    [_verify_exercise_metadata_syntax] counts one more error than the keys
    that are missing when the file does not exist, and it raises
    [AttributeError] when the file exists and is not valid YAML, since
    [parse_file] then gives [None] to [verify_infra_syntax]. *)
Theorem metadata_infra_file (os : host) (d : list (string * yaml)) (f : yaml) :
  lookup "infra-file" d = Some f ->
  (path_exists os f = inr false ->
   snd (Adles._verify_exercise_metadata_syntax os (YDict d))
   = inr (missing ["name"; "prefix"; "infra-file"] d + 1,
          missing ["description"; "version"; "folder-name"] d))
  /\ (forall mark exc,
      path_exists os f = inr true ->
      open_load os f = inr (YAMLError mark exc) ->
      snd (Adles._verify_exercise_metadata_syntax os (YDict d))
      = inl AttributeError).
Proof.
  intros Hf. unfold Adles._verify_exercise_metadata_syntax.
  destruct (checker_result ["description"; "version"; "folder-name"]
              "metadata" "warnings" d) as (lw & -> & _).
  destruct (checker_result ["name"; "prefix"; "infra-file"]
              "metadata" "errors" d) as (le & -> & _).
  rewrite !bind_ok, !snd_prepend, contains_key_dict, bind_ret_l, Hf.
  rewrite item_dict, Hf, bind_ret_l.
  split.
  - intros ->. reflexivity.
  - intros mark exc -> Hl. unfold lift. rewrite bind_ok, snd_prepend.
    cbn [negb].
    unfold Adles.parse_file, lift. rewrite Hl.
    destruct mark as [[line column] |]; reflexivity.
Qed.

Lemma metadata_infra_file_witness :
  snd (Adles._verify_exercise_metadata_syntax Fixtures.broken_os
         (YDict [("name", YStr "lab"); ("infra-file", YStr "missing.yaml")]))
  = inr (1 + 1, 3)
  /\ snd (Adles._verify_exercise_metadata_syntax Fixtures.broken_os
            (YDict [("name", YStr "lab"); ("infra-file", YStr "broken.yaml")]))
     = inl AttributeError.
Proof.
  split.
  - apply (proj1 (metadata_infra_file Fixtures.broken_os
                    [("name", YStr "lab"); ("infra-file", YStr "missing.yaml")]
                    (YStr "missing.yaml") eq_refl) eq_refl).
  - apply (proj2 (metadata_infra_file Fixtures.broken_os
                    [("name", YStr "lab"); ("infra-file", YStr "broken.yaml")]
                    (YStr "broken.yaml") eq_refl)
             (Some (2, 0)%Z) (YStr "mapping values are not allowed")
             eq_refl eq_refl).
Defined.

(** ** [automation/parser.py]: how counts are passed on *)

Lemma automation_folders_unfold (d : list (string * yaml)) :
  Automation._verify_folders_syntax (YDict d)
  = for_each (fun '(key, value) '(num_errors, num_warnings) =>
      bind (Automation.check_instances key value num_errors) (fun num_errors =>
      bind (contains_key "services" value) (fun base =>
      if base then
        bind (Automation.check_base key value num_errors) (fun num_errors =>
        ret (num_errors, num_warnings))
      else Automation._verify_folders_syntax value))) d (0, 0).
Proof. reflexivity. Qed.

(** X8.  In [automation/parser.py], the counts of a parent folder replace
    the counts reached before it: when the last folder of a mapping has
    neither [services] nor [instances], [_verify_folders_syntax] returns
    for the mapping what it returns for that folder, whatever the errors
    of the folders before it. *)
Theorem automation_parent_folder_overwrites
        (before : list (string * yaml)) (key : string)
        (children : list (string * yaml)) (c0 : nat * nat) :
  snd (Automation._verify_folders_syntax (YDict before)) = inr c0 ->
  has_key "instances" children = false ->
  has_key "services" children = false ->
  snd (Automation._verify_folders_syntax
         (YDict (before ++ [(key, YDict children)])))
  = snd (Automation._verify_folders_syntax (YDict children)).
Proof.
  intros Hb Hi%has_key_false Hs%has_key_false.
  rewrite (automation_folders_unfold (before ++ _)), for_each_app.
  rewrite automation_folders_unfold in Hb.
  match type of Hb with snd ?m = _ => destruct m as [log0 r0] end.
  cbn [snd] in Hb. subst r0. destruct c0 as [e0 w0].
  rewrite bind_ok, snd_prepend, for_each_single.
  unfold Automation.check_instances.
  rewrite contains_key_dict, Hi, !bind_ret_l, contains_key_dict, Hs.
  rewrite bind_ret_l. reflexivity.
Qed.

Lemma automation_parent_folder_overwrites_witness :
  snd (Automation._verify_folders_syntax
         (YDict [("lab", YDict [("services", YDict [("web", YDict [])])]);
                 ("spare", YDict [])]))
  = inr (0, 0)
  /\ snd (Automation._verify_folders_syntax
            (YDict [("lab", YDict [("services", YDict [("web", YDict [])])])]))
     = inr (2, 0).
Proof.
  split; [| reflexivity].
  apply (automation_parent_folder_overwrites
           [("lab", YDict [("services", YDict [("web", YDict [])])])]
           "spare" [] (2, 0) eq_refl eq_refl eq_refl).
Defined.

Lemma sections_swapped (spec : yaml) (d : list (string * yaml))
      (l : list (string * (yaml -> V (nat * nat))))
      (counts : list (nat * nat)) :
  spec = YDict d ->
  Forall2 (fun kf c =>
             exists section, lookup (fst kf) d = Some section
                             /\ snd (snd kf section) = inr c) l counts ->
  forall e0 w0,
    snd (for_each (fun '(key, func) => Automation.section_body spec key func)
                  l (e0, w0))
    = inr (e0 + list_sum (map snd counts), w0 + list_sum (map fst counts)).
Proof.
  intros -> H. induction H as [| [key func] [e w] l counts Hx _ IH];
    intros e0 w0.
  - cbn. now rewrite !Nat.add_0_r.
  - destruct Hx as (section & Hk & Hf). cbn [fst snd] in Hk, Hf.
    rewrite for_each_cons. unfold Automation.section_body at 1.
    rewrite contains_key_dict, bind_ret_l, Hk. cbn [negb].
    rewrite item_dict, Hk, bind_ret_l.
    destruct (func section) as [log r]. cbn [snd] in Hf. subst r.
    rewrite bind_ok. cbn beta iota.
    rewrite bind_prepend, snd_prepend, bind_ret_l, IH.
    cbn [map list_sum fold_right fst snd]. now rewrite !Nat.add_assoc.
Qed.

(** X9.  [verify_syntax] of [automation/parser.py] unpacks the pair
    [(errors, warnings)] of a section checker as [w, e]: on a document that
    has the six sections, the errors it returns are the warnings of the
    sections and the warnings it returns are their errors. *)
Theorem verify_syntax_swaps_counts (net : netaddr) (os : host)
        (d : list (string * yaml)) (counts : list (nat * nat)) :
  Forall2 (fun kf c =>
             exists section, lookup (fst kf) d = Some section
                             /\ snd (snd kf section) = inr c)
          (Automation.funcs net os) counts ->
  snd (Automation.verify_syntax net os (YDict d))
  = inr (list_sum (map snd counts), list_sum (map fst counts)).
Proof.
  intros H. unfold Automation.verify_syntax.
  now rewrite (sections_swapped (YDict d) d _ counts eq_refl H 0 0).
Qed.

Lemma verify_syntax_swaps_counts_witness :
  snd (Automation.verify_syntax Sample.net Sample.os
         (YDict [("metadata", YDict [("name", YStr "lab")]);
                 ("groups", YDict [("students", YDict [])]);
                 ("services", YDict []);
                 ("resources", YDict []);
                 ("networks", YDict [("generic-networks", YDict [])]);
                 ("folders", YDict [])]))
  = inr (5, 2).
Proof.
  apply (verify_syntax_swaps_counts Sample.net Sample.os
           [("metadata", YDict [("name", YStr "lab")]);
            ("groups", YDict [("students", YDict [])]);
            ("services", YDict []);
            ("resources", YDict []);
            ("networks", YDict [("generic-networks", YDict [])]);
            ("folders", YDict [])]
           [(1, 5); (1, 0); (0, 0); (0, 0); (0, 0); (0, 0)]).
  repeat (constructor; [eexists; split; reflexivity |]). constructor.
Defined.

(** ** Snapshots *)

Lemma snapshot_tree_forest_ind (Q : VmUtils.snapshot_tree -> Prop) :
  (forall n r children, Forall Q children ->
                        Q (VmUtils.SnapshotTree n r children)) ->
  forall t, Q t.
Proof.
  intros H. fix IH 1. intros [n r children]. apply H.
  induction children as [| t children IHc]; constructor.
  - apply IH.
  - exact IHc.
Qed.

Lemma below_children (t : VmUtils.snapshot_tree) :
  VmUtils.below t
  = VmUtils._get_snapshots_recursive (VmUtils.childSnapshotList t).
Proof. now destruct t. Qed.

Lemma in_below_within (t s : VmUtils.snapshot_tree) :
  In s (VmUtils.below t) -> within s (VmUtils.childSnapshotList t).
Proof.
  induction t as [n r children IH] using snapshot_tree_forest_ind.
  cbn [VmUtils.below VmUtils.childSnapshotList].
  intros [Hc | Hd]%in_app_or; [now apply within_here |].
  apply in_flat_map in Hd as (t' & Ht' & Hs).
  rewrite Forall_forall in IH.
  exact (within_below s t' children Ht' (IH t' Ht' Hs)).
Qed.

Lemma in_snapshots_within (l : list VmUtils.snapshot_tree)
      (s : VmUtils.snapshot_tree) :
  In s (VmUtils._get_snapshots_recursive l) <-> within s l.
Proof.
  unfold VmUtils._get_snapshots_recursive. split.
  - intros [Hl | Hd]%in_app_or; [now apply within_here |].
    apply in_flat_map in Hd as (t & Ht & Hs).
    exact (within_below s t l Ht (in_below_within t s Hs)).
  - induction 1 as [s l Hin | s t l Hin _ IH].
    + apply in_or_app. now left.
    + apply in_or_app. right. apply in_flat_map. exists t. split; [exact Hin |].
      now rewrite below_children.
Qed.

Lemma list_sum_cons (x : nat) (l : list nat) :
  list_sum (x :: l) = x + list_sum l.
Proof. reflexivity. Qed.

Lemma length_below (t : VmUtils.snapshot_tree) :
  S (List.length (VmUtils.below t)) = snapshot_count t.
Proof.
  induction t as [n r children IH] using snapshot_tree_forest_ind.
  cbn [VmUtils.below snapshot_count]. f_equal. rewrite length_app.
  induction IH as [| t children Ht _ IHc]; [reflexivity |].
  cbn [flat_map map List.length]. rewrite list_sum_cons, length_app. lia.
Qed.

(** X10.  [get_all_snapshots] lists every snapshot of the machine, at
    whatever depth, and nothing else; the root snapshots come first, and
    the list has one entry per snapshot.  A machine whose [snapshot]
    property is [None] makes it raise [AttributeError]. *)
Theorem get_all_snapshots_complete (vm : VmUtils.VirtualMachine) :
  match VmUtils.snapshot vm with
  | Some roots =>
      exists snaps,
        VmUtils.get_all_snapshots vm = inr snaps
        /\ (forall s, In s snaps <-> within s roots)
        /\ firstn (List.length roots) snaps = roots
        /\ List.length snaps = list_sum (map snapshot_count roots)
  | None => VmUtils.get_all_snapshots vm = inl AttributeError
  end.
Proof.
  unfold VmUtils.get_all_snapshots.
  destruct (VmUtils.snapshot vm) as [roots |]; [| reflexivity].
  eexists. split; [reflexivity |]. split; [| split].
  - intros s. apply in_snapshots_within.
  - unfold VmUtils._get_snapshots_recursive.
    now rewrite firstn_app, Nat.sub_diag, firstn_all, app_nil_r.
  - unfold VmUtils._get_snapshots_recursive. rewrite length_app.
    induction roots as [| t roots IH]; [reflexivity |].
    cbn [flat_map map List.length].
    rewrite list_sum_cons, length_app, <- (length_below t). lia.
Qed.

Lemma get_snapshot_loop (l : list VmUtils.snapshot_tree) (n : string) :
  (fix loop (l : list VmUtils.snapshot_tree) : option N :=
     match l with
     | [] => None
     | snap :: rest =>
         if String.eqb (VmUtils.snap_name snap) n
         then Some (VmUtils.snap_snapshot snap)
         else loop rest
     end) l
  = option_map VmUtils.snap_snapshot
      (find (fun snap => String.eqb (VmUtils.snap_name snap) n) l).
Proof.
  induction l as [| snap rest IH]; [reflexivity |].
  cbn [find]. destruct (String.eqb (VmUtils.snap_name snap) n);
    [reflexivity | exact IH].
Qed.

(** X11.  For a machine that has snapshots, [get_snapshot] returns the
    reference of a snapshot of that very name, found at whatever depth of
    the tree, and [None] exactly when no snapshot of the machine has the
    name; names are compared as they are, case included. *)
Theorem get_snapshot_by_name (vm : VmUtils.VirtualMachine)
        (roots : list VmUtils.snapshot_tree) (snapshot_name : string) :
  VmUtils.snapshot vm = Some roots ->
  (forall r, VmUtils.get_snapshot vm snapshot_name = inr (Some r) ->
             exists s, within s roots
                       /\ VmUtils.snap_name s = snapshot_name
                       /\ VmUtils.snap_snapshot s = r)
  /\ (VmUtils.get_snapshot vm snapshot_name = inr None
      <-> forall s, within s roots -> VmUtils.snap_name s <> snapshot_name).
Proof.
  intros Hs. unfold VmUtils.get_snapshot, VmUtils.get_all_snapshots.
  rewrite Hs, get_snapshot_loop.
  destruct (find _ _) as [s |] eqn:E; cbn [option_map].
  - apply find_some in E as [Hin Hn].
    apply in_snapshots_within in Hin. apply String.eqb_eq in Hn.
    split.
    + intros r [= <-]. now exists s.
    + split; [discriminate |]. intros Hnone. now destruct (Hnone s Hin).
  - split; [discriminate |]. split; [| reflexivity].
    intros _ s Hin%in_snapshots_within Hn.
    apply (find_none _ _ E) in Hin. apply String.eqb_neq in Hin.
    contradiction.
Qed.

Lemma get_snapshot_by_name_witness :
  exists s, within s Machines.snapshots
            /\ VmUtils.snap_name s = "configured"
            /\ VmUtils.snap_snapshot s = 3%N.
Proof.
  apply (proj1 (get_snapshot_by_name Machines.dc Machines.snapshots
                  "configured" eq_refl) 3%N eq_refl).
Defined.

(** ** Power states *)

Lemma has_tools_installed (vm : VmUtils.VirtualMachine) :
  VmUtils.has_tools vm = true ->
  String.eqb (VmUtils.toolsStatus vm) "toolsNotInstalled" = false.
Proof.
  unfold VmUtils.has_tools.
  destruct (String.eqb_spec (VmUtils.toolsStatus vm) "toolsOK") as [-> | _];
    [reflexivity |].
  destruct (String.eqb_spec (VmUtils.toolsStatus vm) "toolsOld") as [-> | _];
    [reflexivity | discriminate].
Qed.

(** X12.  [change_vm_state] compares the state with ["on"] as it is
    given, and the two functions it calls compare it in lower case.  For a
    machine with working tools, a state that is ["on"] up to case goes to
    the guest operations, which know no such state: an error is logged and
    the machine is not touched.  Without the guest attempt the same state
    powers the machine on. *)
Theorem change_vm_state_on_by_case (py : unicode) (W task : Type)
        (call : VmUtils.VirtualMachine -> VmUtils.method -> P W task)
        (wait_for_task : task -> P W unit)
        (vm : VmUtils.VirtualMachine) (state : string) (w : W) :
  VmUtils.has_tools vm = true ->
  lower py state = "on" ->
  state <> "on" ->
  VmUtils.change_vm_state py W task call wait_for_task vm state true w
  = (w, ([Log ERROR "Invalid guest_state argument: %s" [YStr "on"]], inr tt))
  /\ VmUtils.change_vm_state py W task call wait_for_task vm state false w
     = VmUtils.change_power_state py W task call wait_for_task vm "on" w.
Proof.
  intros Ht Hl Hs%String.eqb_neq. unfold VmUtils.change_vm_state.
  rewrite Ht, Hs. cbn [andb negb]. split.
  - unfold VmUtils.change_guest_state.
    rewrite (has_tools_installed vm Ht), Hl. reflexivity.
  - unfold VmUtils.change_power_state.
    now rewrite Hl, (lower_ascii py "on" eq_refl).
Qed.

Lemma change_vm_state_on_by_case_witness :
  VmUtils.change_vm_state Sample.latin (list VmUtils.method) unit
    (fun _ m w => (w ++ [m], ret tt)) (fun _ => retP tt)
    Machines.dc "ON" true []
  = ([], ([Log ERROR "Invalid guest_state argument: %s" [YStr "on"]], inr tt)).
Proof.
  apply (proj1 (change_vm_state_on_by_case Sample.latin
                  (list VmUtils.method) unit
                  (fun _ m w => (w ++ [m], ret tt)) (fun _ => retP tt)
                  Machines.dc "ON" [] eq_refl eq_refl
                  (fun E => eq_ind "ON"%string
                              (fun s => match s with
                                        | String "O"%char _ => True
                                        | _ => False
                                        end) I _ E))).
Defined.

(** X13.  A state that, in lower case, is none of the seven the two
    functions know makes [change_vm_state] log one error and do nothing
    else: no method of the machine is called, whatever its tools and the
    guest attempt. *)
Theorem change_vm_state_unknown (py : unicode) (W task : Type)
        (call : VmUtils.VirtualMachine -> VmUtils.method -> P W task)
        (wait_for_task : task -> P W unit)
        (vm : VmUtils.VirtualMachine) (state : string) (attempt_guest : bool)
        (w : W) :
  mem (lower py state)
      ["on"; "off"; "reset"; "suspend"; "shutdown"; "reboot"; "standby"]
  = false ->
  exists f,
    VmUtils.change_vm_state py W task call wait_for_task vm state attempt_guest w
    = (w, ([Log ERROR f
              (YStr (lower py state)
               :: if attempt_guest && VmUtils.has_tools vm
                     && negb (String.eqb state "on")
                  then [] else [YStr (VmUtils.name vm)])],
           inr tt)).
Proof.
  unfold mem. cbn [existsb]. rewrite !orb_false_iff.
  intros (E1 & E2 & E3 & E4 & E5 & E6 & E7 & _).
  unfold VmUtils.change_vm_state.
  destruct (attempt_guest && VmUtils.has_tools vm
            && negb (String.eqb state "on")) eqn:G.
  - apply andb_prop in G as [G _]. apply andb_prop in G as [_ Ht].
    unfold VmUtils.change_guest_state.
    rewrite (has_tools_installed vm Ht), E2, E3, E4, E5, E6, E7.
    eexists. reflexivity.
  - unfold VmUtils.change_power_state. rewrite E1, E2, E3, E4.
    eexists. reflexivity.
Qed.

Lemma change_vm_state_unknown_witness :
  exists f,
    VmUtils.change_vm_state Sample.latin (list VmUtils.method) unit
      (fun _ m w => (w ++ [m], ret tt)) (fun _ => retP tt)
      Machines.dc "Hibernate" true []
    = ([], ([Log ERROR f [YStr "hibernate"]], inr tt)).
Proof.
  apply (change_vm_state_unknown Sample.latin (list VmUtils.method) unit
           (fun _ m w => (w ++ [m], ret tt)) (fun _ => retP tt)
           Machines.dc "Hibernate" true [] eq_refl).
Defined.

(** ** Looking items up in folders *)

Lemma typed_loop (f : FolderUtils.folder) (t : FolderUtils.vimtype)
      (l : list FolderUtils.entity) :
  (fix loop (l : list FolderUtils.entity) : V (option FolderUtils.entity) :=
     match l with
     | [] =>
         bind (logging ERROR "Could not find item of type '%s' in folder '%s'"
                 [YStr (FolderUtils.vimtype_name t);
                  YStr (FolderUtils.folder_name f)])
              (fun _ => ret None)
     | item :: rest =>
         if FolderUtils.isinstance item t then ret (Some item) else loop rest
     end) l
  = match find (fun item => FolderUtils.isinstance item t) l with
    | Some item => ret (Some item)
    | None =>
        ([Log ERROR "Could not find item of type '%s' in folder '%s'"
              [YStr (FolderUtils.vimtype_name t);
               YStr (FolderUtils.folder_name f)]], inr None)
    end.
Proof.
  induction l as [| item rest IH]; [reflexivity |].
  cbn [find]. destruct (FolderUtils.isinstance item t); [reflexivity | exact IH].
Qed.

(** X14.  [get_in_folder] never raises.  What it returns is a child of
    the folder itself, also when asked to search recursively, and of the
    type asked for when one is; when it returns [None] it has logged one
    error. *)
Theorem get_in_folder_returns_child (py : unicode) (f : FolderUtils.folder)
        (name : option string) (recursive : bool)
        (vimtype : option FolderUtils.vimtype) :
  exists log r,
    FolderUtils.get_in_folder py f name recursive vimtype = (log, inr r)
    /\ match r with
       | Some item =>
           log = [] /\ In item (FolderUtils.childEntity f)
           /\ match vimtype with
              | Some t => FolderUtils.isinstance item t = true
              | None => True
              end
       | None => exists fmt args, log = [Log ERROR fmt args]
       end.
Proof.
  unfold FolderUtils.get_in_folder.
  assert (Fallback :
    exists log r,
      match FolderUtils.childEntity f, vimtype with
      | first :: _, None => ret (Some first)
      | _ :: _, Some t =>
          (fix loop (l : list FolderUtils.entity)
             : V (option FolderUtils.entity) :=
             match l with
             | [] =>
                 bind (logging ERROR
                         "Could not find item of type '%s' in folder '%s'"
                         [YStr (FolderUtils.vimtype_name t);
                          YStr (FolderUtils.folder_name f)])
                      (fun _ => ret None)
             | item :: rest =>
                 if FolderUtils.isinstance item t then ret (Some item)
                 else loop rest
             end) (FolderUtils.childEntity f)
      | [], _ =>
          bind (logging ERROR "There are no items in folder %s"
                  [YStr (FolderUtils.folder_name f)])
               (fun _ => ret None)
      end = (log, inr r)
      /\ match r with
         | Some item =>
             log = [] /\ In item (FolderUtils.childEntity f)
             /\ match vimtype with
                | Some t => FolderUtils.isinstance item t = true
                | None => True
                end
         | None => exists fmt args, log = [Log ERROR fmt args]
         end).
  { destruct vimtype as [t |].
    - rewrite typed_loop.
      destruct (FolderUtils.childEntity f) as [| first rest] eqn:Ec.
      + do 2 eexists. split; [reflexivity |]. do 2 eexists. reflexivity.
      + destruct (find _ (first :: rest)) as [item |] eqn:E.
        * apply find_some in E as [Hin Ht].
          do 2 eexists. split; [reflexivity |]. cbn beta iota. auto.
        * do 2 eexists. split; [reflexivity |]. do 2 eexists. reflexivity.
    - destruct (FolderUtils.childEntity f) as [| first rest] eqn:Ec.
      + do 2 eexists. split; [reflexivity |]. do 2 eexists. reflexivity.
      + do 2 eexists. split; [reflexivity |]. cbn. auto. }
  assert (Found : forall n,
    match FolderUtils.find_in_folder py f n recursive vimtype with
    | Some item =>
        In item (FolderUtils.childEntity f)
        /\ match vimtype with
           | Some t => FolderUtils.isinstance item t = true
           | None => True
           end
    | None => True
    end).
  { intros n. rewrite find_in_folder_first.
    destruct (find _ _) as [item |] eqn:E; [| exact I].
    apply find_some in E as [Hin Hw]. split; [exact Hin |].
    unfold wanted in Hw. apply andb_prop in Hw as [_ Ht].
    destruct vimtype; [exact Ht | exact I]. }
  destruct name as [n |]; [| exact Fallback].
  destruct (FolderUtils.truthy (Some n)); [| exact Fallback].
  specialize (Found n).
  destruct (FolderUtils.find_in_folder py f n recursive vimtype) as [item |];
    [| exact Fallback].
  do 2 eexists. split; [reflexivity |]. split; [reflexivity | exact Found].
Qed.

(** X15.  Asked without a type for a name that no child of the folder
    has, or for no name, [get_in_folder] does not return [None]: it returns
    the first child of the folder, whatever that is called. *)
Theorem get_in_folder_falls_back (py : unicode) (f : FolderUtils.folder)
        (name : option string) (recursive : bool)
        (first : FolderUtils.entity) (rest : list FolderUtils.entity) :
  FolderUtils.childEntity f = first :: rest ->
  (forall n, name = Some n ->
             forallb (fun item => negb (wanted py (lower py n) None item))
                     (first :: rest) = true) ->
  FolderUtils.get_in_folder py f name recursive None = ([], inr (Some first)).
Proof.
  intros Hc Hn. unfold FolderUtils.get_in_folder.
  assert (E : match name with
              | Some n => if FolderUtils.truthy name
                          then FolderUtils.find_in_folder py f n recursive None
                          else None
              | None => None
              end = None).
  { destruct name as [n |]; [| reflexivity].
    destruct (FolderUtils.truthy (Some n)); [| reflexivity].
    rewrite find_in_folder_first, Hc.
    specialize (Hn n eq_refl). rewrite forallb_forall in Hn.
    destruct (find _ _) as [item |] eqn:E; [| reflexivity].
    apply find_some in E as [Hin Hw]. specialize (Hn item Hin).
    rewrite Hw in Hn. discriminate Hn. }
  rewrite E, Hc. reflexivity.
Qed.

Lemma get_in_folder_falls_back_witness :
  FolderUtils.get_in_folder Sample.latin (Sample.view Sample.inventory 1)
    (Some "switch") true None
  = ([], inr (Some (FolderUtils.VirtualMachine 11 "router")))
  /\ FolderUtils.get_in_folder Sample.latin (Sample.view Sample.school 1)
       (Some "COLE") false None
     = ([], inr (Some (FolderUtils.VirtualMachine 21 "x"))).
Proof.
  split.
  - apply (get_in_folder_falls_back Sample.latin
             (Sample.view Sample.inventory 1) (Some "switch") true _ _
             eq_refl).
    intros n [= <-]. reflexivity.
  - apply (get_in_folder_falls_back Sample.latin
             (Sample.view Sample.school 1) (Some "COLE") false _ _ eq_refl).
    intros n [= <-]. reflexivity.
Defined.

(** With the name of the folder in capitals, the folder is found and
    nothing falls back. *)
Lemma get_in_folder_accented :
  FolderUtils.get_in_folder Sample.latin (Sample.view Sample.school 1)
    (Some Sample.ECOLE) false None
  = ([], inr (Some (FolderUtils.Folder
                      (FolderUtils.MkFolder 22 Sample.ecole
                         [FolderUtils.VirtualMachine 23 "x"])))).
Proof. reflexivity. Qed.

(** ** Paths *)

Lemma inside_trans (x : FolderUtils.entity) (sub f : FolderUtils.folder) :
  inside (FolderUtils.Folder sub) f -> inside x sub -> inside x f.
Proof.
  intros H. remember (FolderUtils.Folder sub) as item eqn:Ei.
  induction H as [item f Hin | item mid f Hin _ IH]; intros Hx; subst item.
  - exact (inside_deeper x sub f Hin Hx).
  - exact (inside_deeper x mid f Hin (IH eq_refl Hx)).
Qed.

Lemma step_into_cases (py : unicode) (l : list FolderUtils.entity) (part : string)
      (current : FolderUtils.folder) :
  FolderUtils.step_into py l part current = current
  \/ In (FolderUtils.Folder (FolderUtils.step_into py l part current)) l.
Proof.
  induction l as [| item rest IH]; [now left |].
  cbn [FolderUtils.step_into].
  destruct item as [sub | |];
    try (destruct IH as [-> | IH]; [now left | right; now right]).
  destruct (String.eqb _ part); [right; now left |].
  destruct IH as [-> | IH]; [now left | right; now right].
Qed.

Lemma fold_step_inside (py : unicode) (root : FolderUtils.folder) (parts : list string)
      (current : FolderUtils.folder) :
  current = root \/ inside (FolderUtils.Folder current) root ->
  let reached :=
    fold_left (fun current folder =>
                 FolderUtils.step_into py (FolderUtils.childEntity current)
                   folder current) parts current in
  reached = root \/ inside (FolderUtils.Folder reached) root.
Proof.
  revert current. induction parts as [| part parts IH]; intros current Hc;
    [exact Hc |].
  cbn [fold_left]. apply IH.
  destruct (step_into_cases py (FolderUtils.childEntity current) part
              current)
    as [-> | Hin]; [exact Hc |].
  right. destruct Hc as [-> | Hc].
  - now apply inside_child.
  - apply (inside_trans _ current root Hc). now apply inside_child.
Qed.

Lemma named_loop (py : unicode) (root : FolderUtils.folder) (path name' : string)
      (l : list FolderUtils.entity) :
  (fix loop (l : list FolderUtils.entity) : V (option FolderUtils.entity) :=
     match l with
     | [] =>
         bind (logging DEBUG
                 "Could not find item %s while traversing path '%s' from root '%s'"
                 [YStr name'; YStr path; YStr (FolderUtils.folder_name root)])
              (fun _ => ret None)
     | item :: rest =>
         if FolderUtils.name_matches py item name' then ret (Some item)
         else loop rest
     end) l
  = match find (fun item => FolderUtils.name_matches py item name') l with
    | Some item => ret (Some item)
    | None =>
        ([Log DEBUG
              "Could not find item %s while traversing path '%s' from root '%s'"
              [YStr name'; YStr path; YStr (FolderUtils.folder_name root)]],
         inr None)
    end.
Proof.
  induction l as [| item rest IH]; [reflexivity |].
  cbn [find]. destruct (FolderUtils.name_matches py item name');
    [reflexivity | exact IH].
Qed.

(** X16.  [traverse_path] never raises, whatever the path, and what it
    returns is the root itself or an item somewhere below the root. *)
Theorem traverse_path_stays_inside (py : unicode) (root : FolderUtils.folder)
        (path : string) :
  exists log r,
    FolderUtils.traverse_path py root path = (log, inr r)
    /\ forall item, r = Some item ->
                    item = FolderUtils.Folder root \/ inside item root.
Proof.
  unfold FolderUtils.traverse_path. rewrite bind_logging.
  destruct (FolderUtils.split (lower py path)) as [dir name'].
  pose proof (fold_step_inside py root (FolderUtils.split_slash dir) root
                (or_introl eq_refl)) as Hr.
  cbn zeta in Hr.
  set (current := fold_left _ _ root) in *.
  destruct (String.eqb name' EmptyString); cbn [negb].
  - do 2 eexists. split; [reflexivity |]. intros item [= <-].
    destruct Hr as [-> | Hr]; [now left | now right].
  - rewrite named_loop.
    destruct (find _ _) as [found |] eqn:E.
    + apply find_some in E as [Hin _].
      do 2 eexists. split; [reflexivity |]. intros item [= <-]. right.
      destruct Hr as [-> | Hr].
      * now apply inside_child.
      * apply (inside_trans _ current root Hr). now apply inside_child.
    + do 2 eexists. split; [reflexivity |]. discriminate.
Qed.

Lemma step_into_none (py : unicode) (l : list FolderUtils.entity) (part : string)
      (current : FolderUtils.folder) :
  existsb (folder_named py part) l = false ->
  FolderUtils.step_into py l part current = current.
Proof.
  induction l as [| item rest IH]; [reflexivity |].
  cbn [existsb FolderUtils.step_into]. intros [Hi Hr]%orb_false_iff.
  destruct item as [sub | |]; try exact (IH Hr).
  cbn [folder_named] in Hi. rewrite Hi. exact (IH Hr).
Qed.

Lemma find_wanted (py : unicode) (name' : string)
      (l : list FolderUtils.entity) :
  find (fun item => FolderUtils.name_matches py item name') l
  = find (wanted py name' None) l.
Proof.
  induction l as [| item rest IH]; [reflexivity |].
  cbn [find]. now rewrite wanted_name_matches, andb_true_r, IH.
Qed.

(** X17.  A folder of the path that the current folder does not have is
    skipped without a word: when no child folder of the root has the name
    of any folder of the path, the last part of the path is looked up among
    the children of the root, and a path without a last part gives the
    root. *)
Theorem traverse_path_skips_unknown (py : unicode) (root : FolderUtils.folder)
        (path dir name' : string) :
  FolderUtils.split (lower py path) = (dir, name') ->
  forallb (fun part =>
             negb (existsb (folder_named py part) (FolderUtils.childEntity root)))
          (FolderUtils.split_slash dir) = true ->
  snd (FolderUtils.traverse_path py root path)
  = inr (if String.eqb name' EmptyString
         then Some (FolderUtils.Folder root)
         else find (wanted py name' None) (FolderUtils.childEntity root)).
Proof.
  intros Hs Hp. unfold FolderUtils.traverse_path.
  rewrite bind_logging, snd_prepend, Hs.
  assert (E : fold_left (fun current folder =>
                           FolderUtils.step_into py
                             (FolderUtils.childEntity current) folder current)
                        (FolderUtils.split_slash dir) root = root).
  { induction (FolderUtils.split_slash dir) as [| part parts IH];
      [reflexivity |].
    cbn [forallb] in Hp. apply andb_prop in Hp as [Hpart Hparts].
    cbn [fold_left]. rewrite step_into_none; [exact (IH Hparts) |].
    now apply negb_true_iff. }
  rewrite E. destruct (String.eqb name' EmptyString); cbn [negb];
    [reflexivity |].
  rewrite named_loop, find_wanted. now destruct (find _ _).
Qed.

Lemma traverse_path_skips_unknown_witness :
  snd (FolderUtils.traverse_path Sample.latin
         (Sample.view Sample.inventory 1) "Templates/Linux/Router")
  = inr (Some (FolderUtils.VirtualMachine 11 "router")).
Proof.
  apply (traverse_path_skips_unknown Sample.latin
           (Sample.view Sample.inventory 1)
           "Templates/Linux/Router" "templates/linux" "router"
           eq_refl eq_refl).
Defined.

(** A folder whose name is not ASCII is entered, with its name in
    capitals in the path. *)
Lemma traverse_path_accented :
  snd (FolderUtils.traverse_path Sample.latin (Sample.view Sample.school 1)
         (Sample.ECOLE ++ "/x")%string)
  = inr (Some (FolderUtils.VirtualMachine 23 "x")).
Proof. reflexivity. Qed.

(** ** The contents of a folder *)

Lemma folder_children_ind (Q : FolderUtils.folder -> Prop) :
  (forall moid name children,
     (forall sub, In (FolderUtils.Folder sub) children -> Q sub) ->
     Q (FolderUtils.MkFolder moid name children)) ->
  forall f, Q f.
Proof.
  intros H. fix IH 1. intros [moid name children]. apply H.
  induction children as [| item rest IHc]; intros sub Hin; [destruct Hin |].
  destruct Hin as [E | Hin]; [| exact (IHc sub Hin)].
  destruct item as [sub' | ? ? | ? ?]; try discriminate E.
  injection E as <-. apply IH.
Qed.

Lemma retrieve_items_lists (vm_prefix folder_prefix : option string)
      (recursive : bool) (f : FolderUtils.folder) :
  FolderUtils.retrieve_items f vm_prefix folder_prefix recursive
  = (machines_below vm_prefix recursive f,
     folders_below folder_prefix recursive f).
Proof.
  induction f as [moid name children IH] using folder_children_ind.
  cbn [FolderUtils.retrieve_items machines_below folders_below].
  match goal with
  | |- ?loop children [] [] = (flat_map ?gv children, flat_map ?gf children) =>
      enough (L : forall vms folders,
                 loop children vms folders
                 = (vms ++ flat_map gv children, folders ++ flat_map gf children))
        by apply L
  end.
  induction children as [| item rest IHc]; intros vms folders.
  - now rewrite !app_nil_r.
  - assert (IHrest : forall sub, In (FolderUtils.Folder sub) rest ->
                       FolderUtils.retrieve_items sub vm_prefix folder_prefix
                         recursive
                       = (machines_below vm_prefix recursive sub,
                          folders_below folder_prefix recursive sub))
      by (intros sub Hin; apply IH; now right).
    specialize (IHc IHrest). cbn [flat_map].
    destruct item as [sub | vmoid vname | omoid oname].
    + rewrite (IH sub (or_introl eq_refl)).
      destruct recursive;
        destruct (FolderUtils.has_prefix folder_prefix
                    (FolderUtils.name (FolderUtils.Folder sub)));
        rewrite IHc; cbn [app]; now rewrite ?app_nil_r, <- ?app_assoc.
    + destruct (FolderUtils.has_prefix vm_prefix
                  (FolderUtils.name (FolderUtils.VirtualMachine vmoid vname)));
        rewrite IHc; cbn [app]; now rewrite <- ?app_assoc.
    + rewrite IHc. reflexivity.
Qed.

Lemma flat_map_filter {A} (p : A -> bool) (g : A -> list A) (l : list A) :
  (forall x, g x = if p x then [x] else []) ->
  flat_map g l = filter p l.
Proof.
  intros Hg. induction l as [| x l IH]; [reflexivity |].
  cbn [flat_map filter]. rewrite Hg, IH. now destruct (p x).
Qed.

(** X18.  Without [recursive], [retrieve_items] returns the machines
    among the children of the folder whose names start with [vm_prefix] and
    the folders among them whose names start with [folder_prefix], each
    list in the order of the children; nothing below a child folder is
    looked at. *)
Theorem retrieve_items_flat (f : FolderUtils.folder)
        (vm_prefix folder_prefix : option string) :
  FolderUtils.retrieve_items f vm_prefix folder_prefix false
  = (filter (fun item => FolderUtils.is_vm item
                         && FolderUtils.has_prefix vm_prefix
                              (FolderUtils.name item))
            (FolderUtils.childEntity f),
     filter (fun item => FolderUtils.is_folder item
                         && FolderUtils.has_prefix folder_prefix
                              (FolderUtils.name item))
            (FolderUtils.childEntity f)).
Proof.
  rewrite retrieve_items_lists. destruct f as [moid name children].
  cbn [machines_below folders_below FolderUtils.childEntity].
  f_equal; apply flat_map_filter; intros [sub | vmoid vname | omoid oname];
    cbn [FolderUtils.is_vm FolderUtils.is_folder andb];
    try reflexivity.
  now rewrite app_nil_r.
Qed.

Lemma in_machines_below (vm_prefix : option string) (f : FolderUtils.folder)
      (item : FolderUtils.entity) :
  In item (machines_below vm_prefix true f)
  <-> inside item f /\ FolderUtils.is_vm item = true
      /\ FolderUtils.has_prefix vm_prefix (FolderUtils.name item) = true.
Proof.
  split.
  - revert item.
    induction f as [moid name children IH] using folder_children_ind.
    intros item. cbn [machines_below]. intros Hin.
    apply in_flat_map in Hin as (child & Hc & Hi).
    destruct child as [sub | vmoid vname | omoid oname]; [| | destruct Hi].
    + destruct (IH sub Hc item Hi) as (Hs & Hv & Hp).
      split; [| now split].
      exact (inside_deeper item sub (FolderUtils.MkFolder moid name children)
               Hc Hs).
    + destruct (FolderUtils.has_prefix vm_prefix _) eqn:Hp; [| destruct Hi].
      destruct Hi as [<- | []]. split; [| now split].
      now apply inside_child.
  - intros (Hs & Hv & Hp).
    induction Hs as [item f Hin | item sub f Hin _ IH];
      destruct f as [moid name children];
      cbn [machines_below FolderUtils.childEntity] in *;
      apply in_flat_map.
    + exists item. split; [exact Hin |].
      destruct item; try discriminate Hv. rewrite Hp. now left.
    + exists (FolderUtils.Folder sub). split; [exact Hin |]. exact (IH Hv Hp).
Qed.

Lemma in_folders_below (folder_prefix : option string)
      (f : FolderUtils.folder) (item : FolderUtils.entity) :
  In item (folders_below folder_prefix true f)
  <-> inside item f /\ FolderUtils.is_folder item = true
      /\ FolderUtils.has_prefix folder_prefix (FolderUtils.name item) = true.
Proof.
  split.
  - revert item.
    induction f as [moid name children IH] using folder_children_ind.
    intros item. cbn [folders_below]. intros Hin.
    apply in_flat_map in Hin as (child & Hc & Hi).
    destruct child as [sub | vmoid vname | omoid oname];
      [| destruct Hi | destruct Hi].
    apply in_app_or in Hi as [Hi | Hi].
    + destruct (FolderUtils.has_prefix folder_prefix _) eqn:Hp; [| destruct Hi].
      destruct Hi as [<- | []]. split; [| now split].
      now apply inside_child.
    + destruct (IH sub Hc item Hi) as (Hs & Hv & Hp).
      split; [| now split].
      exact (inside_deeper item sub (FolderUtils.MkFolder moid name children)
               Hc Hs).
  - intros (Hs & Hv & Hp).
    induction Hs as [item f Hin | item sub f Hin _ IH];
      destruct f as [moid name children];
      cbn [folders_below FolderUtils.childEntity] in *;
      apply in_flat_map.
    + exists item. split; [exact Hin |].
      destruct item; try discriminate Hv. rewrite Hp.
      apply in_or_app. left. now left.
    + exists (FolderUtils.Folder sub). split; [exact Hin |].
      apply in_or_app. right. exact (IH Hv Hp).
Qed.

(** X19.  With [recursive], [retrieve_items] returns exactly the
    machines below the folder, at whatever depth, whose names start with
    [vm_prefix], and exactly the folders below it whose names start with
    [folder_prefix]: a folder that does not have the prefix is still
    descended into, and the folder given is not in the list. *)
Theorem retrieve_items_recursive (f : FolderUtils.folder)
        (vm_prefix folder_prefix : option string)
        (item : FolderUtils.entity) :
  let '(vms, folders) :=
    FolderUtils.retrieve_items f vm_prefix folder_prefix true in
  (In item vms
   <-> inside item f /\ FolderUtils.is_vm item = true
       /\ FolderUtils.has_prefix vm_prefix (FolderUtils.name item) = true)
  /\ (In item folders
      <-> inside item f /\ FolderUtils.is_folder item = true
          /\ FolderUtils.has_prefix folder_prefix (FolderUtils.name item)
             = true).
Proof.
  rewrite retrieve_items_lists. split.
  - apply in_machines_below.
  - apply in_folders_below.
Qed.

(** ** Cleaning a folder *)

Lemma outcome_bindP {W A B} (m m' : P W A) (k k' : A -> P W B) :
  (forall w, outcome (m w) = outcome (m' w)) ->
  (forall a w, outcome (k a w) = outcome (k' a w)) ->
  forall w, outcome (bindP m k w) = outcome (bindP m' k' w).
Proof.
  intros Hm Hk w. specialize (Hm w). unfold bindP, outcome in *.
  destruct (m w) as [w1 [log1 r1]], (m' w) as [w1' [log1' r1']].
  cbn [fst snd] in Hm. injection Hm as <- <-.
  destruct r1 as [e | a]; [reflexivity |].
  specialize (Hk a w1).
  destruct (k a w1) as [w2 [log2 r2]], (k' a w1) as [w2' [log2' r2']].
  exact Hk.
Qed.

Lemma outcome_bindP_unit {W} (m : P W unit) (w : W) :
  outcome (bindP m (fun _ => retP tt) w) = outcome (m w).
Proof.
  unfold bindP, outcome, retP, ret.
  destruct (m w) as [w1 [log1 [e | []]]]; reflexivity.
Qed.

Lemma outcome_logging {W B} (l : level) (f : string) (a : list yaml)
      (k : unit -> P W B) (w : W) :
  outcome (bindP (pure (logging l f a)) k w) = outcome (k tt w).
Proof.
  rewrite bindP_pure_logging. unfold outcome.
  now destruct (k tt w) as [w' [log r]].
Qed.

Lemma outcome_bindP_assoc {W A B C} (m : P W A) (k : A -> P W B)
      (h : B -> P W C) (w : W) :
  outcome (bindP (bindP m k) h w)
  = outcome (bindP m (fun a => bindP (k a) h) w).
Proof.
  unfold bindP, outcome.
  destruct (m w) as [w1 [log1 [e | a]]]; [reflexivity |].
  destruct (k a w1) as [w2 [log2 [e | b]]]; [reflexivity |].
  destruct (h b w2) as [w3 [log3 r3]]. reflexivity.
Qed.

Lemma outcome_for_eachP_app {W A} (body : A -> P W unit) (l1 l2 : list A)
      (w : W) :
  outcome (for_eachP body (l1 ++ l2) w)
  = outcome (bindP (for_eachP body l1) (fun _ => for_eachP body l2) w).
Proof.
  revert w. induction l1 as [| x l1 IH]; intros w.
  - cbn [app]. change (for_eachP body []) with (@pure W unit (ret tt)).
    now rewrite bindP_pure_ret.
  - cbn [app]. rewrite !for_eachP_cons, outcome_bindP_assoc.
    apply outcome_bindP; [reflexivity |]. intros _ w'. apply IH.
Qed.

(** X20.  With no folder prefix and without destroying folders,
    [cleanup] destroys the machines that [retrieve_items] lists for the
    same prefix and the same [recursive], in that order, and does nothing
    else to the platform; an exception of [destroy_vm] ends both at the
    same machine. *)
Theorem cleanup_destroys_retrieved (W task : Type)
        (destroy_vm : FolderUtils.entity -> P W unit)
        (UnregisterAndDestroy_Task : FolderUtils.folder -> P W task)
        (wait_for_task : task -> P W unit)
        (str_of : FolderUtils.entity -> string)
        (f : FolderUtils.folder) (vm_prefix : option string)
        (recursive : bool) (w : W) :
  outcome (FolderUtils.cleanup W task destroy_vm UnregisterAndDestroy_Task
             wait_for_task str_of f vm_prefix None recursive false false w)
  = outcome (for_eachP destroy_vm
               (fst (FolderUtils.retrieve_items f vm_prefix None recursive))
               w).
Proof.
  rewrite retrieve_items_lists. cbn [fst]. revert w.
  induction f as [moid name children IH] using folder_children_ind.
  intros w. cbn [FolderUtils.cleanup machines_below].
  rewrite outcome_logging.
  match goal with
  | |- outcome (bindP (?loop children) _ w)
       = outcome (for_eachP _ (flat_map ?gv children) w) =>
      enough (L : forall w, outcome (loop children w)
                            = outcome (for_eachP destroy_vm
                                         (flat_map gv children) w))
  end.
  { rewrite <- L. apply outcome_bindP_unit. }
  clear w. induction children as [| item rest IHc]; intros w; [reflexivity |].
  assert (IHrest : forall sub, In (FolderUtils.Folder sub) rest ->
            forall w,
              outcome (FolderUtils.cleanup W task destroy_vm
                         UnregisterAndDestroy_Task wait_for_task str_of sub
                         vm_prefix None recursive false false w)
              = outcome (for_eachP destroy_vm
                           (machines_below vm_prefix recursive sub) w))
    by (intros sub Hin; apply IH; now right).
  specialize (IHc IHrest). cbn [flat_map].
  rewrite outcome_for_eachP_app.
  apply outcome_bindP; [clear w; intros w | intros _ w'; apply IHc].
  destruct item as [sub | vmoid vname | omoid oname].
  - cbn [FolderUtils.has_prefix]. destruct recursive; [| reflexivity].
    exact (IH sub (or_introl eq_refl) w).
  - destruct vm_prefix as [p |];
      cbn [FolderUtils.name FolderUtils.has_prefix].
    + destruct (String.prefix p vname); [| reflexivity].
      cbn [for_eachP]. now rewrite outcome_bindP_unit.
    + cbn [for_eachP]. now rewrite outcome_bindP_unit.
  - reflexivity.
Qed.

(** ** Instances of earlier rules *)

Lemma unknown_key_ignored_witness :
  Adles.verify_exercise_syntax Sample.net Sample.os
    (YDict (Sample.sections ++ [("scoreboard", YStr "on")]))
  = Adles.verify_exercise_syntax Sample.net Sample.os (YDict Sample.sections).
Proof.
  apply (unknown_key_ignored Sample.net Sample.os Sample.sections
           "scoreboard" (YStr "on") eq_refl).
Defined.

Lemma adles_reserved_key_skipped_witness :
  Adles._verify_folders_syntax
    (YDict [("group", YStr "Students"); ("notes", YInt 5)])
  = Adles._verify_folders_syntax (YDict [("notes", YInt 5)]).
Proof.
  apply (adles_reserved_key_skipped [] [("notes", YInt 5)] "group"
           (YStr "Students") eq_refl).
Defined.

